(** * Patronus: Ansible rule modules and Python SDK error mapping

    A shallow embedding of

    - [ansible-collection-patronus/plugins/modules/firewall_rule.py],
    - [ansible-collection-patronus/plugins/modules/nat_rule.py],
    - [sdk/python/src/patronus/client.py] and [exceptions.py],

    followed by the properties of these programs.

    Python values are embedded as the inductive type [Py.value]; a [dict]
    is an association list in insertion order (the modules dump with
    [sort_keys=False], so the order is part of what is written).  Code that
    may raise returns in the error monad [Py.res].  The YAML library, the
    HTTP transport and the pydantic validation are external services and
    appear as interfaces ([Yaml], [Response], [Model]). *)

From Stdlib Require Import String Ascii ZArith List Bool Lia Permutation.
Import ListNotations.

Local Open Scope string_scope.
Local Open Scope Z_scope.

(* ===================================================================== *)
(** * Python values *)
(* ===================================================================== *)

Module Py.

#[local] Set Warnings "-register-all".

(** The values the programs handle: [None], [bool], [int], [str], [list]
    and [dict] with [str] keys.  Floats, timestamps and mappings with
    non-string keys, which a foreign YAML or JSON document could also
    contain, are outside this universe. *)
Inductive value : Type :=
| VNone
| VBool (b : bool)
| VInt (z : Z)
| VStr (s : string)
| VList (l : list value)
| VDict (d : list (string * value)).

Definition dict : Type := list (string * value).

(** [d.get(k)] on the association list: the binding of [k], if any. *)
Fixpoint dict_get (k : string) (d : dict) : option value :=
  match d with
  | [] => None
  | (k', v) :: d' => if String.eqb k k' then Some v else dict_get k d'
  end.

(** [d[k] = v]: replaces the binding of [k] in place, or appends a new one
    (Python dicts keep insertion order). *)
Fixpoint dict_set (k : string) (v : value) (d : dict) : dict :=
  match d with
  | [] => [(k, v)]
  | (k', v') :: d' =>
      if String.eqb k k' then (k', v) :: d' else (k', v') :: dict_set k v d'
  end.

(** [del d[k]] when present. *)
Fixpoint dict_del (k : string) (d : dict) : dict :=
  match d with
  | [] => []
  | (k', v') :: d' =>
      if String.eqb k k' then dict_del k d' else (k', v') :: dict_del k d'
  end.

(** [k in d] *)
Definition has_key (k : string) (d : dict) : bool :=
  match dict_get k d with Some _ => true | None => false end.

(** [bool(v)], the test behind [if v:]. *)
Definition truthy (v : value) : bool :=
  match v with
  | VNone => false
  | VBool b => b
  | VInt z => negb (z =? 0)
  | VStr s => negb (String.eqb s "")
  | VList l => match l with [] => false | _ => true end
  | VDict d => match d with [] => false | _ => true end
  end.

Definition is_none (v : value) : bool :=
  match v with VNone => true | _ => false end.

(** [a == b].  [bool] is a subclass of [int], so [True == 1]; lists compare
    element by element; two dicts are equal when they have the same number
    of keys and every key of the first is bound to an equal value in the
    second. *)
Fixpoint py_eq (a b : value) {struct a} : bool :=
  match a, b with
  | VNone, VNone => true
  | VBool x, VBool y => Bool.eqb x y
  | VBool x, VInt y => Z.b2z x =? y
  | VInt x, VBool y => x =? Z.b2z y
  | VInt x, VInt y => x =? y
  | VStr x, VStr y => String.eqb x y
  | VList xs, VList ys =>
      (fix all2 (xs : list value) (ys : list value) {struct xs} : bool :=
         match xs, ys with
         | [], [] => true
         | x :: xs', y :: ys' => py_eq x y && all2 xs' ys'
         | _, _ => false
         end) xs ys
  | VDict d1, VDict d2 =>
      (Nat.eqb (length d1) (length d2)) &&
      (fix all1 (d : dict) {struct d} : bool :=
         match d with
         | [] => true
         | (k, v) :: d' =>
             match dict_get k d2 with
             | Some w => py_eq v w
             | None => false
             end && all1 d'
         end) d1
  | _, _ => false
  end.

(** A Python dict binds each key once; the values the interpreter builds
    are the association lists without repeated keys, at every depth. *)
Fixpoint nodup_keys (ks : list string) : bool :=
  match ks with
  | [] => true
  | k :: ks' => negb (existsb (String.eqb k) ks') && nodup_keys ks'
  end.

Fixpoint wf (v : value) : bool :=
  match v with
  | VList l => forallb wf l
  | VDict d => nodup_keys (map fst d) && forallb (fun kv => wf (snd kv)) d
  | _ => true
  end.

(** ** Exceptions and the error monad *)

(** The exceptions of [patronus/exceptions.py], with the attributes their
    constructors store ([status_code] and [response] default to [None]),
    and the exceptions of the interpreter, of [json] and of pydantic that
    the embedded code can raise, [FileNotFoundError] being what
    [os.makedirs] raises on an empty path.  The SDK's own [ValidationError]
    is raised nowhere in the client and is left out. *)
Inductive exn : Type :=
| AuthenticationError (message : value)
| NotFoundError (message : value) (status_code : option Z) (response : option value)
| RateLimitError (message : value) (status_code : option Z) (response : option value)
| APIError (message : value) (status_code : option Z) (response : option value)
| AttributeError
| KeyError
| TypeError
| JSONDecodeError
| PydanticValidationError
| FileNotFoundError.

Inductive res (A : Type) : Type :=
| Ok (a : A)
| Raise (e : exn).
Arguments Ok {A} a.
Arguments Raise {A} e.

Definition bind {A B : Type} (c : res A) (k : A -> res B) : res B :=
  match c with
  | Ok a => k a
  | Raise e => Raise e
  end.

Definition res_map {A B : Type} (f : A -> B) (c : res A) : res B :=
  bind c (fun a => Ok (f a)).

(** [v.get(k, default)]: only a dict has the method. *)
Definition get (v : value) (k : string) (default : value) : res value :=
  match v with
  | VDict d => Ok (match dict_get k d with Some x => x | None => default end)
  | _ => Raise AttributeError
  end.

(** [v[k]] with a string key. *)
Definition getitem (v : value) (k : string) : res value :=
  match v with
  | VDict d => match dict_get k d with Some x => Ok x | None => Raise KeyError end
  | _ => Raise TypeError
  end.

End Py.

Import Py.

Declare Scope py_scope.
Notation "x <- c1 ;; c2" := (Py.bind c1 (fun x => c2))
  (at level 61, c1 at next level, right associativity) : py_scope.
Local Open Scope py_scope.

(* ===================================================================== *)
(** * String methods *)
(* ===================================================================== *)

Module Str.

(** [c in chars] *)
Fixpoint mem (c : ascii) (chars : string) : bool :=
  match chars with
  | EmptyString => false
  | String c' chars' => Ascii.eqb c c' || mem c chars'
  end.

(** [s.rstrip(chars)]: [s] without its longest suffix made of characters
    of [chars]. *)
Fixpoint rstrip (s chars : string) : string :=
  match s with
  | EmptyString => EmptyString
  | String c s' =>
      match rstrip s' chars with
      | EmptyString => if mem c chars then EmptyString else String c EmptyString
      | r => String c r
      end
  end.

End Str.

(* ===================================================================== *)
(** * The services the modules use *)
(* ===================================================================== *)

(** The YAML library over the text of a file: [safe_load] returns [None]
    when parsing raises, [dump] is [yaml.dump(..., sort_keys=False)]. *)
Class Yaml (text : Type) : Type := {
  safe_load : text -> option value;
  dump : value -> text
}.

(** The file system as far as the modules see it: the text stored under
    each path string the modules use, if there is a file.  The keys are the
    strings as the modules compute them, not files: two strings the
    operating system resolves to the same file are two keys here, so what
    is proved of a path concerns that string and no other.  Directories are
    implicit and permissions are not modelled; the one failure of writing
    that is modelled is the one the parameters alone can cause, a path
    without a directory part (see [os_makedirs]). *)
Definition FS (text : Type) : Type := string -> option text.

Definition fs_update {text : Type} (fs : FS text) (path : string) (c : option text) : FS text :=
  fun p => if String.eqb p path then c else fs p.

(** [os.path.join(a, b)] on POSIX for two components. *)
Fixpoint ends_with_slash (s : string) : bool :=
  match s with
  | EmptyString => false
  | String c EmptyString => Ascii.eqb c "/"%char
  | String _ s' => ends_with_slash s'
  end.

Definition os_path_join (a b : string) : string :=
  if String.prefix "/" b then b
  else if String.eqb a "" || ends_with_slash a then a ++ b
  else a ++ "/" ++ b.

(** [p[:p.rfind('/') + 1]]: [p] up to and including its last slash, empty
    when it has none. *)
Fixpoint upto_last_slash (p : string) : string :=
  match p with
  | EmptyString => EmptyString
  | String c p' =>
      match upto_last_slash p' with
      | EmptyString => if Ascii.eqb c "/"%char then String c EmptyString else EmptyString
      | h => String c h
      end
  end.

(** [os.path.dirname(p)] on POSIX: the head up to the last slash, without
    its trailing slashes unless it consists of slashes only. *)
Definition os_path_dirname (p : string) : string :=
  let head := upto_last_slash p in
  if negb (String.eqb head "") && negb (String.eqb (Str.rstrip head "/") "")
  then Str.rstrip head "/"
  else head.

(** [os.makedirs(name, exist_ok=True)] where directories are implicit: the
    call ends in [mkdir(name)], which raises [FileNotFoundError] on the
    empty string; any other directory is there or is created. *)
Definition os_makedirs (name : string) : res unit :=
  if String.eqb name "" then Raise FileNotFoundError else Ok tt.

(** [state] is restricted by [choices=['present', 'absent']]. *)
Inductive State : Type := present | absent.

(** What [module.exit_json] of [result] reports; [rule] is set only on the
    [present] branch. *)
Record Result : Type := {
  changed : bool;
  message : string;
  rule : option value
}.

(** A parameter that was not given is [None] in [module.params]. *)
Definition opt_str (o : option string) : value :=
  match o with Some s => VStr s | None => VNone end.

Definition opt_int (o : option Z) : value :=
  match o with Some z => VInt z | None => VNone end.

Definition opt_ints (o : option (list Z)) : value :=
  match o with Some l => VList (map VInt l) | None => VNone end.

(** [if v: d[k] = v] *)
Definition set_if (k : string) (v : value) (d : dict) : dict :=
  if truthy v then dict_set k v d else d.

(* ===================================================================== *)
(** * What both rule modules share *)
(* ===================================================================== *)

(** [read_existing_config], [write_config], [delete_config] and
    [configs_equal] have the same text in [firewall_rule.py] and in
    [nat_rule.py]; they are embedded once. *)
Module RuleFile.
Section WithYaml.
Context {text : Type} `{Yaml text}.

(** No file: [None].  A file whose text does not parse: the exception is
    caught, [None].  Otherwise whatever [yaml.safe_load] returns, which is
    [None] again for an empty document. *)
Definition read_existing_config (fs : FS text) (filepath : string) : value :=
  match fs filepath with
  | None => VNone
  | Some t =>
      match safe_load t with
      | Some v => v
      | None => VNone
      end
  end.

(** The directory part of the path is created first, then the file is
    written. *)
Definition write_config (fs : FS text) (filepath : string) (config : value)
  : res (FS text) :=
  _ <- os_makedirs (os_path_dirname filepath) ;;
  Ok (fs_update fs filepath (Some (dump config))).

Definition delete_config (fs : FS text) (filepath : string) : FS text :=
  match fs filepath with
  | Some _ => fs_update fs filepath None
  | None => fs
  end.
End WithYaml.

(** [config1.get('metadata', {}).get('name')] *)
Definition metadata_name (config : value) : res value :=
  m <- Py.get config "metadata" (VDict []) ;;
  Py.get m "name" VNone.

Definition configs_equal (config1 config2 : value) : res bool :=
  if is_none config1 || is_none config2 then Ok (py_eq config1 config2)
  else
    n1 <- metadata_name config1 ;;
    n2 <- metadata_name config2 ;;
    if py_eq n1 n2 then
      s1 <- Py.get config1 "spec" VNone ;;
      s2 <- Py.get config2 "spec" VNone ;;
      Ok (py_eq s1 s2)
    else Ok false.

End RuleFile.

(* ===================================================================== *)
(** * firewall_rule.py *)
(* ===================================================================== *)

Module FirewallRule.
Export RuleFile.

(** [module.params] after validation against [argument_spec]. *)
Record Params : Type := {
  name : string;
  description : option string;
  action : string;
  interface : option string;
  direction : option string;
  protocol : option string;
  source_address : option string;
  source_ports : option (list Z);
  dest_address : option string;
  dest_ports : option (list Z);
  log : bool;
  enabled : bool;
  state : State;
  config_path : string
}.

Definition generate_config (params : Params) : value :=
  let metadata := [("name", VStr (name params))] in
  let spec := [("action", VStr (action params));
               ("log", VBool (log params));
               ("enabled", VBool (enabled params))] in
  let metadata := set_if "description" (opt_str (description params)) metadata in
  let spec := set_if "interface" (opt_str (interface params)) spec in
  let spec := set_if "direction" (opt_str (direction params)) spec in
  let spec := set_if "protocol" (opt_str (protocol params)) spec in
  (* Source specification *)
  let source := [] in
  let source := set_if "address" (opt_str (source_address params)) source in
  let source := set_if "ports" (opt_ints (source_ports params)) source in
  let spec := set_if "source" (VDict source) spec in
  (* Destination specification *)
  let dest := [] in
  let dest := set_if "address" (opt_str (dest_address params)) dest in
  let dest := set_if "ports" (opt_ints (dest_ports params)) dest in
  let spec := set_if "destination" (VDict dest) spec in
  VDict [("apiVersion", VStr "patronus.firewall/v1");
         ("kind", VStr "FirewallRule");
         ("metadata", VDict metadata);
         ("spec", VDict spec)].

Definition config_file_path (config_path name : string) : string :=
  os_path_join config_path ("FirewallRule-" ++ name ++ ".yaml").

Section WithYaml.
Context {text : Type} `{Yaml text}.

(** [main], from the parameters, the check-mode flag and the file system
    to what [exit_json] reports and the file system left behind. *)
Definition main (check_mode : bool) (params : Params) (fs : FS text)
  : res (Result * FS text) :=
  let config_path := config_path params in
  let name := name params in
  let filepath := config_file_path config_path name in
  let existing_config := read_existing_config fs filepath in
  match state params with
  | present =>
      let desired_config := generate_config params in
      eq <- configs_equal existing_config desired_config ;;
      if (eq : bool) then
        Ok ({| changed := false;
               message := "Firewall rule '" ++ name
                          ++ "' already exists with desired configuration";
               rule := Some desired_config |}, fs)
      else
        let message :=
          if is_none existing_config
          then "Created firewall rule '" ++ name ++ "'"
          else "Updated firewall rule '" ++ name ++ "'" in
        fs' <- (if check_mode then Ok fs
                else write_config fs filepath desired_config) ;;
        Ok ({| changed := true; message := message; rule := Some desired_config |}, fs')
  | absent =>
      if negb (is_none existing_config) then
        Ok ({| changed := true;
               message := "Deleted firewall rule '" ++ name ++ "'";
               rule := None |},
            if check_mode then fs else delete_config fs filepath)
      else
        Ok ({| changed := false;
               message := "Firewall rule '" ++ name ++ "' already absent";
               rule := None |}, fs)
  end.
End WithYaml.

End FirewallRule.

(* ===================================================================== *)
(** * nat_rule.py *)
(* ===================================================================== *)

Module NatRule.
Export RuleFile.

Record Params : Type := {
  name : string;
  description : option string;
  nat_type : string;
  interface : string;
  source_address : option string;
  dest_address : option string;
  translation_address : option string;
  translation_port : option Z;
  protocol : option string;
  dest_port : option Z;
  enabled : bool;
  state : State;
  config_path : string
}.

Definition generate_config (params : Params) : value :=
  let metadata := [("name", VStr (name params))] in
  let spec := [("nat_type", VStr (nat_type params));
               ("interface", VStr (interface params));
               ("enabled", VBool (enabled params))] in
  let metadata := set_if "description" (opt_str (description params)) metadata in
  let spec := set_if "source_address" (opt_str (source_address params)) spec in
  let spec := set_if "dest_address" (opt_str (dest_address params)) spec in
  let spec := set_if "translation_address" (opt_str (translation_address params)) spec in
  let spec := set_if "translation_port" (opt_int (translation_port params)) spec in
  let spec := set_if "protocol" (opt_str (protocol params)) spec in
  let spec := set_if "dest_port" (opt_int (dest_port params)) spec in
  VDict [("apiVersion", VStr "patronus.firewall/v1");
         ("kind", VStr "NatRule");
         ("metadata", VDict metadata);
         ("spec", VDict spec)].

Definition config_file_path (config_path name : string) : string :=
  os_path_join config_path ("NatRule-" ++ name ++ ".yaml").

Section WithYaml.
Context {text : Type} `{Yaml text}.

Definition main (check_mode : bool) (params : Params) (fs : FS text)
  : res (Result * FS text) :=
  let config_path := config_path params in
  let name := name params in
  let filepath := config_file_path config_path name in
  let existing_config := read_existing_config fs filepath in
  match state params with
  | present =>
      let desired_config := generate_config params in
      eq <- configs_equal existing_config desired_config ;;
      if (eq : bool) then
        Ok ({| changed := false;
               message := "NAT rule '" ++ name
                          ++ "' already exists with desired configuration";
               rule := Some desired_config |}, fs)
      else
        let message :=
          if is_none existing_config
          then "Created NAT rule '" ++ name ++ "'"
          else "Updated NAT rule '" ++ name ++ "'" in
        fs' <- (if check_mode then Ok fs
                else write_config fs filepath desired_config) ;;
        Ok ({| changed := true; message := message; rule := Some desired_config |}, fs')
  | absent =>
      if negb (is_none existing_config) then
        Ok ({| changed := true;
               message := "Deleted NAT rule '" ++ name ++ "'";
               rule := None |},
            if check_mode then fs else delete_config fs filepath)
      else
        Ok ({| changed := false;
               message := "NAT rule '" ++ name ++ "' already absent";
               rule := None |}, fs)
  end.
End WithYaml.

End NatRule.

(* ===================================================================== *)
(** * patronus/exceptions.py and patronus/client.py *)
(* ===================================================================== *)

Module Exceptions.

(** [isinstance(e, PatronusError)]: the typed failures of the SDK. *)
Definition is_patronus_error (e : exn) : bool :=
  match e with
  | AuthenticationError _ | NotFoundError _ _ _
  | RateLimitError _ _ _ | APIError _ _ _ => true
  | _ => false
  end.

(** [isinstance(e, APIError)]: [NotFoundError] and [RateLimitError] are
    subclasses, [AuthenticationError] derives from [PatronusError] only. *)
Definition is_api_error (e : exn) : bool :=
  match e with
  | NotFoundError _ _ _ | RateLimitError _ _ _ | APIError _ _ _ => true
  | _ => false
  end.

(** [e.args[0]], what [str(e)] shows: the message given to the constructor. *)
Definition exn_message (e : exn) : option value :=
  match e with
  | AuthenticationError m | NotFoundError m _ _
  | RateLimitError m _ _ | APIError m _ _ => Some m
  | _ => None
  end.

(** [e.status_code]: set by [APIError.__init__]; the other classes have no
    such attribute. *)
Definition exn_status_code (e : exn) : res (option Z) :=
  match e with
  | NotFoundError _ sc _ | RateLimitError _ sc _ | APIError _ sc _ => Ok sc
  | _ => Raise AttributeError
  end.

(** [e.response] *)
Definition exn_response (e : exn) : res (option value) :=
  match e with
  | NotFoundError _ _ r | RateLimitError _ _ r | APIError _ _ r => Ok r
  | _ => Raise AttributeError
  end.

End Exceptions.

Module Client.
Export Exceptions.

(** What the transport hands back: the status code and the result of
    [response.json()], [None] when the body is not JSON and the call
    raises. *)
Record Response : Type := {
  status_code : Z;
  body : option value
}.

Definition json (response : Response) : res value :=
  match body response with
  | Some v => Ok v
  | None => Raise JSONDecodeError
  end.

(** A pydantic model [T]: [validate] is the validation the constructor runs
    on its keyword arguments, [None] when it rejects them. *)
Class Model (T : Type) : Type := {
  validate : dict -> option T
}.

(** [T( **item )]: the argument after the two stars must be a mapping. *)
Definition construct {T : Type} `{Model T} (item : value) : res T :=
  match item with
  | VDict d =>
      match validate d with
      | Some t => Ok t
      | None => Raise PydanticValidationError
      end
  | _ => Raise TypeError
  end.

(** [for item in v]: a list yields its elements, a dict its keys, a string
    its characters; nothing else here is iterable. *)
Definition iter (v : value) : res (list value) :=
  match v with
  | VList l => Ok l
  | VDict d => Ok (map (fun kv => VStr (fst kv)) d)
  | VStr s => Ok (map (fun c => VStr (String c "")) (list_ascii_of_string s))
  | _ => Raise TypeError
  end.

(** A list comprehension whose body may raise: left to right, the first
    exception ends it. *)
Fixpoint comprehension {A B : Type} (f : A -> res B) (l : list A) : res (list B) :=
  match l with
  | [] => Ok []
  | x :: l' =>
      y <- f x ;;
      ys <- comprehension f l' ;;
      Ok (y :: ys)
  end.

(** [BaseClient._handle_error]: every path raises. *)
Definition _handle_error {A : Type} (status_code : Z) (response_data : value) : res A :=
  message <- Py.get response_data "error" (VStr "Unknown error") ;;
  if status_code =? 401 then
    Raise (AuthenticationError message)
  else if status_code =? 404 then
    Raise (NotFoundError message (Some status_code) (Some response_data))
  else if status_code =? 429 then
    Raise (RateLimitError message (Some status_code) (Some response_data))
  else
    Raise (APIError message (Some status_code) (Some response_data)).

(** [AsyncSitesAPI], as a function of the response the request receives. *)
Module AsyncSitesAPI.
Section WithSite.
Context {Site : Type} `{Model Site}.

Definition list_ (response : Response) : res (list Site) :=
  _ <- (if negb (status_code response =? 200) then
          data <- json response ;;
          _handle_error (status_code response) data
        else Ok tt) ;;
  data <- json response ;;
  sites <- Py.getitem data "sites" ;;
  items <- iter sites ;;
  comprehension construct items.

Definition get (response : Response) : res Site :=
  _ <- (if negb (status_code response =? 200) then
          data <- json response ;;
          _handle_error (status_code response) data
        else Ok tt) ;;
  data <- json response ;;
  construct data.

Definition create (response : Response) : res Site :=
  _ <- (if negb (status_code response =? 201) then
          data <- json response ;;
          _handle_error (status_code response) data
        else Ok tt) ;;
  data <- json response ;;
  construct data.

Definition delete (response : Response) : res unit :=
  _ <- (if negb (status_code response =? 204) then
          data <- json response ;;
          _handle_error (status_code response) data
        else Ok tt) ;;
  Ok tt.
End WithSite.
End AsyncSitesAPI.

End Client.

(* ===================================================================== *)
(** * Notions used in the statements *)
(* ===================================================================== *)

Import Client.

(** A toy record model used to run the site operations on concrete
    responses: a site is its name. *)
#[local] Instance NameOnly : Model string := {
  validate d := match dict_get "name" d with Some (VStr s) => Some s | _ => None end
}.

(** A YAML library that reads back what it wrote, used to run the rule
    modules on concrete file systems: the text of a file is the document it
    holds, or [None] for text that does not parse. *)
#[local] Instance StoredDocument : Yaml (option value) := {
  safe_load t := t;
  dump v := Some v
}.

Definition no_files {text : Type} : FS text := fun _ => None.

(** There is nothing to read at [path]: no file, or text that fails to
    parse. *)
Definition no_document {text : Type} `{Yaml text} (fs : FS text) (path : string) : Prop :=
  fs path = None \/ exists t, fs path = Some t /\ safe_load t = None.

(** [config["spec"]] and [config["metadata"]["name"]] of a rule document. *)
Definition spec_of (config : value) : option value :=
  match config with
  | VDict d => dict_get "spec" d
  | _ => None
  end.

Definition name_of (config : value) : option value :=
  match config with
  | VDict d =>
      match dict_get "metadata" d with
      | Some (VDict m) => dict_get "name" m
      | _ => None
      end
  | _ => None
  end.

(** The spec mapping itself, empty when the document has none. *)
Definition spec_dict (config : value) : dict :=
  match spec_of config with
  | Some (VDict s) => s
  | _ => []
  end.

(** Two documents with the same [metadata.name] and deep-equal [spec]
    mappings; everything else in them is free. *)
Definition same_name_and_spec (existing desired : value) : Prop :=
  exists n1 n2 s1 s2,
    name_of existing = Some n1 /\ name_of desired = Some n2 /\ py_eq n1 n2 = true /\
    spec_of existing = Some s1 /\ spec_of desired = Some s2 /\ py_eq s1 s2 = true.

(** A top-level field set to [v], or removed. *)
Definition with_key (k : string) (o : option value) (d : dict) : dict :=
  match o with
  | Some v => dict_set k v d
  | None => dict_del k d
  end.

(** What [if v:] lets through. *)
Definition included (v : value) : option value :=
  if truthy v then Some v else None.

Definition is_some {A : Type} (o : option A) : bool :=
  match o with Some _ => true | None => false end.

(** The reading of the NAT optional fields under which a key is present
    exactly when its parameter was given. *)
Definition nat_keys_iff_provided (p : NatRule.Params) : Prop :=
  let spec := spec_dict (NatRule.generate_config p) in
  has_key "source_address" spec = is_some (NatRule.source_address p)
  /\ has_key "dest_address" spec = is_some (NatRule.dest_address p)
  /\ has_key "translation_address" spec = is_some (NatRule.translation_address p)
  /\ has_key "translation_port" spec = is_some (NatRule.translation_port p)
  /\ has_key "protocol" spec = is_some (NatRule.protocol p)
  /\ has_key "dest_port" spec = is_some (NatRule.dest_port p).

(** A source NAT rule whose [source_address] was given as the empty
    string. *)
Definition nat_empty_source : NatRule.Params := {|
  NatRule.name := "lan-outbound-nat";
  NatRule.description := None;
  NatRule.nat_type := "source";
  NatRule.interface := "wan0";
  NatRule.source_address := Some "";
  NatRule.dest_address := None;
  NatRule.translation_address := None;
  NatRule.translation_port := None;
  NatRule.protocol := None;
  NatRule.dest_port := None;
  NatRule.enabled := true;
  NatRule.state := present;
  NatRule.config_path := "/etc/patronus/config"
|}.

(** A port forwarding rule whose [translation_port] was given as 0. *)
Definition nat_port_zero : NatRule.Params := {|
  NatRule.name := "web-server-nat";
  NatRule.description := None;
  NatRule.nat_type := "port_forward";
  NatRule.interface := "wan0";
  NatRule.source_address := None;
  NatRule.dest_address := None;
  NatRule.translation_address := Some "192.168.100.10";
  NatRule.translation_port := Some 0;
  NatRule.protocol := Some "tcp";
  NatRule.dest_port := Some 80;
  NatRule.enabled := true;
  NatRule.state := present;
  NatRule.config_path := "/etc/patronus/config"
|}.

(** The port forwarding rule of the module's examples. *)
Definition nat_web_server : NatRule.Params := {|
  NatRule.name := "web-server-nat";
  NatRule.description := Some "Forward HTTP/HTTPS to DMZ web server";
  NatRule.nat_type := "port_forward";
  NatRule.interface := "wan0";
  NatRule.source_address := None;
  NatRule.dest_address := None;
  NatRule.translation_address := Some "192.168.100.10";
  NatRule.translation_port := Some 80;
  NatRule.protocol := Some "tcp";
  NatRule.dest_port := Some 80;
  NatRule.enabled := true;
  NatRule.state := present;
  NatRule.config_path := "/etc/patronus/config"
|}.

(** Scenario A: [allow-ssh], everything not named left at its default. *)
Definition scenario_A (config_path : string) : FirewallRule.Params := {|
  FirewallRule.name := "allow-ssh";
  FirewallRule.description := None;
  FirewallRule.action := "allow";
  FirewallRule.interface := None;
  FirewallRule.direction := None;
  FirewallRule.protocol := Some "tcp";
  FirewallRule.source_address := None;
  FirewallRule.source_ports := None;
  FirewallRule.dest_address := None;
  FirewallRule.dest_ports := Some [22];
  FirewallRule.log := false;
  FirewallRule.enabled := true;
  FirewallRule.state := present;
  FirewallRule.config_path := config_path
|}.

(** The document Scenario A expects on disk. *)
Definition scenario_A_document : value :=
  VDict [("apiVersion", VStr "patronus.firewall/v1");
         ("kind", VStr "FirewallRule");
         ("metadata", VDict [("name", VStr "allow-ssh")]);
         ("spec", VDict [("action", VStr "allow");
                         ("log", VBool false);
                         ("enabled", VBool true);
                         ("protocol", VStr "tcp");
                         ("destination", VDict [("ports", VList [VInt 22])])])].

(** The same parameters with another description. *)
Definition fw_set_description (p : FirewallRule.Params) (o : option string)
  : FirewallRule.Params := {|
  FirewallRule.name := FirewallRule.name p;
  FirewallRule.description := o;
  FirewallRule.action := FirewallRule.action p;
  FirewallRule.interface := FirewallRule.interface p;
  FirewallRule.direction := FirewallRule.direction p;
  FirewallRule.protocol := FirewallRule.protocol p;
  FirewallRule.source_address := FirewallRule.source_address p;
  FirewallRule.source_ports := FirewallRule.source_ports p;
  FirewallRule.dest_address := FirewallRule.dest_address p;
  FirewallRule.dest_ports := FirewallRule.dest_ports p;
  FirewallRule.log := FirewallRule.log p;
  FirewallRule.enabled := FirewallRule.enabled p;
  FirewallRule.state := FirewallRule.state p;
  FirewallRule.config_path := FirewallRule.config_path p
|}.

Definition nat_set_description (p : NatRule.Params) (o : option string)
  : NatRule.Params := {|
  NatRule.name := NatRule.name p;
  NatRule.description := o;
  NatRule.nat_type := NatRule.nat_type p;
  NatRule.interface := NatRule.interface p;
  NatRule.source_address := NatRule.source_address p;
  NatRule.dest_address := NatRule.dest_address p;
  NatRule.translation_address := NatRule.translation_address p;
  NatRule.translation_port := NatRule.translation_port p;
  NatRule.protocol := NatRule.protocol p;
  NatRule.dest_port := NatRule.dest_port p;
  NatRule.enabled := NatRule.enabled p;
  NatRule.state := NatRule.state p;
  NatRule.config_path := NatRule.config_path p
|}.

(* ===================================================================== *)
(** * The client object and the requests it sends *)
(* ===================================================================== *)

(** [BaseClient]: the three attributes [__init__] stores, and the headers
    every request carries. *)
Module BaseClient.

Record self : Type := {
  api_url : string;
  api_key : string;
  timeout : Z
}.

Definition __init__ (api_url api_key : string) (timeout : Z) : self :=
  {| api_url := Str.rstrip api_url "/"; api_key := api_key; timeout := timeout |}.

Definition _get_headers (client : self) : list (string * string) :=
  [("Authorization", "Bearer " ++ api_key client);
   ("Content-Type", "application/json");
   ("User-Agent", "patronus-python-sdk/0.1.0")].

End BaseClient.

(** What an operation hands to [httpx]: method, URL, the [json=] payload
    when there is one, headers and timeout. *)
Record Request : Type := {
  method : string;
  url : string;
  payload : option value;
  headers : list (string * string);
  request_timeout : Z
}.

(** A dict display ending in two-star [kwargs]: the keyword arguments are
    stored after the literal entries, a repeated key keeps its place and
    takes the later value. *)
Definition dict_update (d kwargs : dict) : dict :=
  fold_left (fun acc kv => dict_set (fst kv) (snd kv) acc) kwargs d.

(** The request half of each [AsyncSitesAPI] method; the response half is
    [Client.AsyncSitesAPI]. *)
Module AsyncSitesRequests.
Import BaseClient.

Definition list_ (client : self) : Request :=
  {| method := "GET";
     url := api_url client ++ "/api/v1/sites";
     payload := None;
     headers := _get_headers client;
     request_timeout := timeout client |}.

Definition get (client : self) (site_id : string) : Request :=
  {| method := "GET";
     url := api_url client ++ "/api/v1/sites/" ++ site_id;
     payload := None;
     headers := _get_headers client;
     request_timeout := timeout client |}.

Definition create (client : self) (name location : string)
           (wan_interfaces : list string) (kwargs : dict) : Request :=
  let data := dict_update [("name", VStr name);
                           ("location", VStr location);
                           ("wan_interfaces", VList (map VStr wan_interfaces))]
                          kwargs in
  {| method := "POST";
     url := api_url client ++ "/api/v1/sites";
     payload := Some (VDict data);
     headers := _get_headers client;
     request_timeout := timeout client |}.

Definition delete (client : self) (site_id : string) : Request :=
  {| method := "DELETE";
     url := api_url client ++ "/api/v1/sites/" ++ site_id;
     payload := None;
     headers := _get_headers client;
     request_timeout := timeout client |}.

End AsyncSitesRequests.

(** [AsyncTunnelsAPI]: requests, and results as a function of the response
    received. *)
Module AsyncTunnelsAPI.
Import BaseClient.

Definition list_request (client : self) : Request :=
  {| method := "GET";
     url := api_url client ++ "/api/v1/tunnels";
     payload := None;
     headers := _get_headers client;
     request_timeout := timeout client |}.

Definition create_request (client : self)
           (name local_site_id remote_site_id protocol : string) : Request :=
  let data := [("name", VStr name);
               ("local_site_id", VStr local_site_id);
               ("remote_site_id", VStr remote_site_id);
               ("protocol", VStr protocol)] in
  {| method := "POST";
     url := api_url client ++ "/api/v1/tunnels";
     payload := Some (VDict data);
     headers := _get_headers client;
     request_timeout := timeout client |}.

Section WithTunnel.
Context {Tunnel : Type} `{Model Tunnel}.

Definition list_ (response : Response) : res (list Tunnel) :=
  _ <- (if negb (status_code response =? 200) then
          data <- json response ;;
          _handle_error (status_code response) data
        else Ok tt) ;;
  data <- json response ;;
  tunnels <- Py.getitem data "tunnels" ;;
  items <- iter tunnels ;;
  comprehension construct items.

Definition create (response : Response) : res Tunnel :=
  _ <- (if negb (status_code response =? 201) then
          data <- json response ;;
          _handle_error (status_code response) data
        else Ok tt) ;;
  data <- json response ;;
  construct data.
End WithTunnel.

End AsyncTunnelsAPI.

(* ===================================================================== *)
(** * Further notions used in the statements *)
(* ===================================================================== *)

(** The binding [if v:] adds to an empty mapping. *)
Definition opt_entry (k : string) (v : value) : dict :=
  if truthy v then [(k, v)] else [].

(** [config["metadata"]] as a mapping, empty when there is none. *)
Definition metadata_dict (config : value) : dict :=
  match config with
  | VDict d => match dict_get "metadata" d with Some (VDict m) => m | _ => [] end
  | _ => []
  end.

(** The documents [configs_equal] can look into: mappings whose [metadata],
    when there is one, is a mapping. *)
Definition comparable (config : value) : bool :=
  match config with
  | VDict d =>
      match dict_get "metadata" d with
      | Some (VDict _) | None => true
      | Some _ => false
      end
  | _ => false
  end.

(** [n] slashes. *)
Fixpoint slashes (n : nat) : string :=
  match n with
  | O => EmptyString
  | S n' => String "/"%char (slashes n')
  end.

(** The keys a firewall spec and a NAT spec can hold, and those that are
    always there. *)
Definition firewall_keys : list string :=
  ["action"; "log"; "enabled"; "interface"; "direction"; "protocol";
   "source"; "destination"].

Definition firewall_required : list string := ["action"; "log"; "enabled"].

Definition nat_keys : list string :=
  ["nat_type"; "interface"; "enabled"; "source_address"; "dest_address";
   "translation_address"; "translation_port"; "protocol"; "dest_port"].

Definition nat_required : list string := ["nat_type"; "interface"; "enabled"].

Definition in_keys (k : string) (ks : list string) : bool :=
  existsb (String.eqb k) ks.

(** A binding of a spec is either one of the required ones or one the [if]
    test let through, under a key of the schema. *)
Definition spec_binding_ok (allowed required : list string) (kv : string * value) : bool :=
  in_keys (fst kv) allowed && (in_keys (fst kv) required || truthy (snd kv)).

(** Scenario C: the parameters of Scenario A with [state=absent]. *)
Definition scenario_C (config_path : string) : FirewallRule.Params := {|
  FirewallRule.name := "allow-ssh";
  FirewallRule.description := None;
  FirewallRule.action := "allow";
  FirewallRule.interface := None;
  FirewallRule.direction := None;
  FirewallRule.protocol := Some "tcp";
  FirewallRule.source_address := None;
  FirewallRule.source_ports := None;
  FirewallRule.dest_address := None;
  FirewallRule.dest_ports := Some [22];
  FirewallRule.log := false;
  FirewallRule.enabled := true;
  FirewallRule.state := absent;
  FirewallRule.config_path := config_path
|}.

(** Scenario A with the rule switched off. *)
Definition scenario_A_disabled (config_path : string) : FirewallRule.Params := {|
  FirewallRule.name := "allow-ssh";
  FirewallRule.description := None;
  FirewallRule.action := "allow";
  FirewallRule.interface := None;
  FirewallRule.direction := None;
  FirewallRule.protocol := Some "tcp";
  FirewallRule.source_address := None;
  FirewallRule.source_ports := None;
  FirewallRule.dest_address := None;
  FirewallRule.dest_ports := Some [22];
  FirewallRule.log := false;
  FirewallRule.enabled := false;
  FirewallRule.state := present;
  FirewallRule.config_path := config_path
|}.

(** A model of tunnels for concrete runs: a tunnel is its name. *)
Definition tunnel_named (name : string) : value := VDict [("name", VStr name)].

(* ===================================================================== *)
(** * Properties of the SDK client *)
(* ===================================================================== *)

Section ErrorClassification.
Variable A : Type.

(** On a decoded mapping [_handle_error] raises one of the four SDK
    exceptions, whatever the status code, and its message is the [error]
    entry or the placeholder. *)
Lemma handle_error_raises (sc : Z) (d : dict) :
  exists e, @_handle_error A sc (VDict d) = Raise e
    /\ is_patronus_error e = true
    /\ exn_message e =
         Some (match dict_get "error" d with Some m => m | None => VStr "Unknown error" end).
Proof.
  unfold _handle_error; cbn [Py.get Py.bind].
  destruct (sc =? 401); [eexists; repeat split | ].
  destruct (sc =? 404); [eexists; repeat split | ].
  destruct (sc =? 429); eexists; repeat split.
Qed.

(** A decoded body that is not a mapping has no [get]: the classifier
    itself fails. *)
Lemma handle_error_not_a_mapping (sc : Z) (v : value) :
  (forall d, v <> VDict d) -> @_handle_error A sc v = Raise AttributeError.
Proof.
  intros Hv. destruct v; try reflexivity. now destruct (Hv d).
Qed.
End ErrorClassification.

(** C1, as amended.  For a status code among 401, 404, 429, 500 and 503 and
    a decoded mapping as error body, [_handle_error] raises exactly the
    exception of the table: [AuthenticationError] for 401, [NotFoundError]
    for 404, [RateLimitError] for 429 and [APIError] otherwise.  The three
    [APIError] kinds carry the original status code and the body;
    [AuthenticationError] is built from the message alone and has no
    [status_code] attribute. *)
Theorem handle_error_table (A : Type) (sc : Z) (d : dict) :
  In sc [401; 404; 429; 500; 503] ->
  let message :=
    match dict_get "error" d with Some m => m | None => VStr "Unknown error" end in
  exists e, @_handle_error A sc (VDict d) = Raise e
    /\ (sc = 401 -> e = AuthenticationError message
                    /\ exn_status_code e = Raise AttributeError)
    /\ (sc = 404 -> e = NotFoundError message (Some 404) (Some (VDict d)))
    /\ (sc = 429 -> e = RateLimitError message (Some 429) (Some (VDict d)))
    /\ (sc = 500 \/ sc = 503 -> e = APIError message (Some sc) (Some (VDict d)))
    /\ (sc <> 401 -> exn_status_code e = Ok (Some sc)
                     /\ exn_response e = Ok (Some (VDict d))).
Proof.
  intros Hsc message.
  unfold _handle_error; cbn [Py.get Py.bind]; fold message.
  simpl in Hsc.
  destruct Hsc as [<- | [<- | [<- | [<- | [<- | []]]]]]; cbn;
    eexists; (split; [reflexivity | ]);
    repeat split; intros; try lia; try reflexivity;
    match goal with
    | H : _ \/ _ |- _ => destruct H; try lia; reflexivity
    | _ => idtac
    end.
Qed.

Lemma handle_error_table_witness :
  In 429 [401; 404; 429; 500; 503] /\
  exists e,
    @_handle_error unit 429 (VDict [("error", VStr "too many requests")]) = Raise e
    /\ (429 = 401 -> e = AuthenticationError (VStr "too many requests")
                     /\ exn_status_code e = Raise AttributeError)
    /\ (429 = 404 -> e = NotFoundError (VStr "too many requests") (Some 404)
                           (Some (VDict [("error", VStr "too many requests")])))
    /\ (429 = 429 -> e = RateLimitError (VStr "too many requests") (Some 429)
                           (Some (VDict [("error", VStr "too many requests")])))
    /\ (429 = 500 \/ 429 = 503 ->
        e = APIError (VStr "too many requests") (Some 429)
              (Some (VDict [("error", VStr "too many requests")])))
    /\ (429 <> 401 -> exn_status_code e = Ok (Some 429)
                      /\ exn_response e
                         = Ok (Some (VDict [("error", VStr "too many requests")]))).
Proof.
  assert (Hin : In 429 [401; 404; 429; 500; 503]) by (simpl; tauto).
  split; [exact Hin | ].
  exact (handle_error_table unit 429 [("error", VStr "too many requests")] Hin).
Defined.

(** C1 as written fails at 401: the exception raised there does not carry
    the status code. *)
Lemma handle_error_401_carries_no_status_code :
  In 401 [401; 404; 429; 500; 503] /\
  exists e,
    @_handle_error unit 401 (VDict [("error", VStr "Unauthorized")]) = Raise e
    /\ e = AuthenticationError (VStr "Unauthorized")
    /\ exn_status_code e <> Ok (Some 401).
Proof.
  split; [simpl; tauto | ].
  eexists; split; [reflexivity | ]. split; [reflexivity | ].
  cbn. discriminate.
Qed.

(** C4.  When the decoded body is a mapping without an [error] key, the
    classifier raises one of the SDK's typed exceptions, whatever the status
    code, and its message is the placeholder [Unknown error]; the lookup of
    the missing key raises nothing of its own. *)
Theorem handle_error_unknown_error (A : Type) (sc : Z) (d : dict) :
  dict_get "error" d = None ->
  exists e, @_handle_error A sc (VDict d) = Raise e
    /\ is_patronus_error e = true
    /\ exn_message e = Some (VStr "Unknown error").
Proof.
  intros Hd.
  destruct (handle_error_raises A sc d) as (e & He & Hty & Hmsg).
  rewrite Hd in Hmsg. now exists e.
Qed.

(** Scenario E: HTTP 500 with the empty object as body. *)
Lemma handle_error_unknown_error_witness :
  dict_get "error" [] = None /\
  exists e, @_handle_error unit 500 (VDict []) = Raise e
    /\ is_patronus_error e = true
    /\ exn_message e = Some (VStr "Unknown error").
Proof.
  split; [reflexivity | ].
  apply (handle_error_unknown_error unit 500 []). reflexivity.
Defined.

Example scenario_E :
  @_handle_error unit 500 (VDict [])
  = Raise (APIError (VStr "Unknown error") (Some 500) (Some (VDict []))).
Proof. reflexivity. Qed.

Example scenario_D :
  @_handle_error unit 429 (VDict [("error", VStr "too many requests")])
  = Raise (RateLimitError (VStr "too many requests") (Some 429)
             (Some (VDict [("error", VStr "too many requests")]))).
Proof. reflexivity. Qed.

Section Sites.
Context {Site : Type} `{Model Site}.

Lemma status_guard_pass (expected : Z) (r : Response) (B : Type) (k : res B) :
  status_code r = expected ->
  (_ <- (if negb (status_code r =? expected) then
           data <- json r ;; _handle_error (status_code r) data
         else Ok tt) ;; k) = k.
Proof.
  intros ->. now rewrite Z.eqb_refl.
Qed.

Lemma status_guard_fail (expected : Z) (r : Response) (B : Type) (k : res B) :
  status_code r <> expected ->
  (_ <- (if negb (status_code r =? expected) then
           data <- json r ;; _handle_error (status_code r) data
         else Ok tt) ;; k)
  = (data <- json r ;; _handle_error (status_code r) data).
Proof.
  intros Hne. apply Z.eqb_neq in Hne. rewrite Hne; cbn [negb].
  unfold json. destruct (body r) as [v | ]; [ | reflexivity].
  cbn [Py.bind]. unfold _handle_error.
  destruct (Py.get v "error" (VStr "Unknown error")); [ | reflexivity].
  cbn [Py.bind].
  destruct (status_code r =? 401); [reflexivity | ].
  destruct (status_code r =? 404); [reflexivity | ].
  destruct (status_code r =? 429); reflexivity.
Qed.

(** With a status other than the expected one, no operation returns. *)
Lemma status_guard_no_result (expected : Z) (r : Response) (B : Type)
      (k : res B) (b : B) :
  status_code r <> expected ->
  (_ <- (if negb (status_code r =? expected) then
           data <- json r ;; _handle_error (status_code r) data
         else Ok tt) ;; k) <> Ok b.
Proof.
  intros Hne. rewrite status_guard_fail by exact Hne.
  unfold json. destruct (body r) as [v | ]; [ | discriminate].
  cbn [Py.bind]. unfold _handle_error.
  destruct (Py.get v "error" (VStr "Unknown error")); [ | discriminate].
  cbn [Py.bind].
  destruct (status_code r =? 401); [discriminate | ].
  destruct (status_code r =? 404); [discriminate | ].
  destruct (status_code r =? 429); discriminate.
Qed.

Lemma construct_ok (v : value) (s : Site) :
  construct v = Ok s <-> exists d, v = VDict d /\ validate d = Some s.
Proof.
  split.
  - destruct v; try discriminate. cbn.
    destruct (validate d) eqn:E; [ | discriminate].
    intros [= ->]. now exists d.
  - intros (d & -> & Hd). cbn. now rewrite Hd.
Qed.
End Sites.

(** C5, as amended.  [list] and [get] return only on status 200, [create]
    only on 201 and [delete] only on 204, and they do return there exactly
    when the body decodes into the typed result ([list] reads the
    collection under the key [sites]; [delete] reads no body).  With any
    other status and a body that decodes to a JSON object the operation
    raises the typed exception [_handle_error] selects; in no case is a
    result returned under a non-matching status. *)
Theorem async_sites_status_contract {Site : Type} `{Model Site} (r : Response) :
  (forall sites : list Site,
      AsyncSitesAPI.list_ r = Ok sites <->
      status_code r = 200 /\
      exists d v items, body r = Some (VDict d) /\ dict_get "sites" d = Some v
                        /\ iter v = Ok items
                        /\ comprehension construct items = Ok sites)
  /\ (forall d items, status_code r = 200 -> body r = Some (VDict d) ->
        dict_get "sites" d = Some (VList items) ->
        AsyncSitesAPI.list_ r = comprehension construct items)
  /\ (forall s : Site,
        AsyncSitesAPI.get r = Ok s <->
        status_code r = 200 /\ exists d, body r = Some (VDict d) /\ validate d = Some s)
  /\ (forall s : Site,
        AsyncSitesAPI.create r = Ok s <->
        status_code r = 201 /\ exists d, body r = Some (VDict d) /\ validate d = Some s)
  /\ (AsyncSitesAPI.delete r = Ok tt <-> status_code r = 204)
  /\ (forall d, body r = Some (VDict d) ->
        (status_code r <> 200 ->
         exists e, is_patronus_error e = true
                   /\ @_handle_error unit (status_code r) (VDict d) = Raise e
                   /\ AsyncSitesAPI.list_ (Site := Site) r = Raise e
                   /\ AsyncSitesAPI.get (Site := Site) r = Raise e)
        /\ (status_code r <> 201 ->
            exists e, is_patronus_error e = true
                      /\ @_handle_error unit (status_code r) (VDict d) = Raise e
                      /\ AsyncSitesAPI.create (Site := Site) r = Raise e)
        /\ (status_code r <> 204 ->
            exists e, is_patronus_error e = true
                      /\ @_handle_error unit (status_code r) (VDict d) = Raise e
                      /\ AsyncSitesAPI.delete r = Raise e)).
Proof.
  assert (Hfail : forall (B : Type) (d : dict) (e : exn),
             @_handle_error unit (status_code r) (VDict d) = Raise e ->
             @_handle_error B (status_code r) (VDict d) = Raise e).
  { intros B d e. unfold _handle_error; cbn [Py.get Py.bind].
    destruct (status_code r =? 401); [now intros [= <-] | ].
    destruct (status_code r =? 404); [now intros [= <-] | ].
    destruct (status_code r =? 429); now intros [= <-]. }
  repeat apply conj.
  - intros sites; split.
    + intros Hok.
      destruct (Z.eq_dec (status_code r) 200) as [Hs | Hs];
        [ | exfalso; exact (status_guard_no_result _ r _ _ _ Hs Hok)].
      split; [exact Hs | ].
      unfold AsyncSitesAPI.list_ in Hok.
      rewrite status_guard_pass in Hok by exact Hs.
      unfold json in Hok. destruct (body r) as [data | ]; [ | discriminate].
      cbn [Py.bind] in Hok.
      destruct data as [ | | | | | d]; try discriminate.
      cbn [Py.getitem] in Hok.
      destruct (dict_get "sites" d) as [v | ] eqn:Hd; [ | discriminate].
      cbn [Py.bind] in Hok.
      destruct (iter v) as [items | ] eqn:Hit; [ | discriminate].
      cbn [Py.bind] in Hok.
      exists d, v, items. repeat split; assumption.
    + intros (Hs & d & v & items & Hb & Hd & Hit & Hc).
      unfold AsyncSitesAPI.list_. rewrite status_guard_pass by exact Hs.
      unfold json. rewrite Hb. cbn [Py.bind Py.getitem]. rewrite Hd.
      cbn [Py.bind]. rewrite Hit. exact Hc.
  - intros d items Hs Hb Hd.
    unfold AsyncSitesAPI.list_. rewrite status_guard_pass by exact Hs.
    unfold json. rewrite Hb. cbn [Py.bind Py.getitem]. rewrite Hd. reflexivity.
  - intros s; split.
    + intros Hok.
      destruct (Z.eq_dec (status_code r) 200) as [Hs | Hs];
        [ | exfalso; exact (status_guard_no_result _ r _ _ _ Hs Hok)].
      split; [exact Hs | ].
      unfold AsyncSitesAPI.get in Hok.
      rewrite status_guard_pass in Hok by exact Hs.
      unfold json in Hok. destruct (body r) as [data | ]; [ | discriminate].
      cbn [Py.bind] in Hok. apply construct_ok in Hok.
      destruct Hok as (d & -> & Hv). now exists d.
    + intros (Hs & d & Hb & Hv).
      unfold AsyncSitesAPI.get. rewrite status_guard_pass by exact Hs.
      unfold json. rewrite Hb. cbn [Py.bind]. apply construct_ok. now exists d.
  - intros s; split.
    + intros Hok.
      destruct (Z.eq_dec (status_code r) 201) as [Hs | Hs];
        [ | exfalso; exact (status_guard_no_result _ r _ _ _ Hs Hok)].
      split; [exact Hs | ].
      unfold AsyncSitesAPI.create in Hok.
      rewrite status_guard_pass in Hok by exact Hs.
      unfold json in Hok. destruct (body r) as [data | ]; [ | discriminate].
      cbn [Py.bind] in Hok. apply construct_ok in Hok.
      destruct Hok as (d & -> & Hv). now exists d.
    + intros (Hs & d & Hb & Hv).
      unfold AsyncSitesAPI.create. rewrite status_guard_pass by exact Hs.
      unfold json. rewrite Hb. cbn [Py.bind]. apply construct_ok. now exists d.
  - intros Hok.
    destruct (Z.eq_dec (status_code r) 204) as [Hs | Hs]; [exact Hs | ].
    exfalso; exact (status_guard_no_result _ r _ _ _ Hs Hok).
  - intros Hs. unfold AsyncSitesAPI.delete.
    now rewrite status_guard_pass by exact Hs.
  - intros d Hb. repeat apply conj; intros Hs;
      destruct (handle_error_raises unit (status_code r) d) as (e & He & Hty & _);
      exists e; (split; [exact Hty | ]); (split; [exact He | ]).
    + unfold AsyncSitesAPI.list_, AsyncSitesAPI.get.
      rewrite !status_guard_fail by exact Hs.
      unfold json; rewrite Hb; cbn [Py.bind]. split; now apply Hfail.
    + unfold AsyncSitesAPI.create.
      rewrite status_guard_fail by exact Hs.
      unfold json; rewrite Hb; cbn [Py.bind]. now apply Hfail.
    + unfold AsyncSitesAPI.delete.
      rewrite status_guard_fail by exact Hs.
      unfold json; rewrite Hb; cbn [Py.bind]. exact He.
Qed.

(** The contract at work: a 200 listing of two sites, and a 404 on [get]. *)
Lemma async_sites_status_contract_witness :
  AsyncSitesAPI.list_
    {| status_code := 200;
       body := Some (VDict [("sites", VList [VDict [("name", VStr "hq")];
                                             VDict [("name", VStr "branch")]])]) |}
  = Ok ["hq"; "branch"]
  /\ exists e, is_patronus_error e = true
       /\ AsyncSitesAPI.get (Site := string)
            {| status_code := 404;
               body := Some (VDict [("error", VStr "Resource not found")]) |}
          = Raise e.
Proof.
  split.
  - apply (proj1 (async_sites_status_contract
                    {| status_code := 200;
                       body := Some (VDict [("sites",
                                             VList [VDict [("name", VStr "hq")];
                                                    VDict [("name", VStr "branch")]])]) |})).
    split; [reflexivity | ].
    eexists _, _, _. repeat split; reflexivity.
  - destruct (proj2 (proj2 (proj2 (proj2 (proj2
               (async_sites_status_contract (Site := string)
                  {| status_code := 404;
                     body := Some (VDict [("error", VStr "Resource not found")]) |})))))
               _ eq_refl) as (H200 & _).
    destruct H200 as (e & Hty & _ & _ & Hget); [cbn; lia | ].
    now exists e.
Defined.

(** C5 as written fails when the body of the failed request is not JSON:
    a 500 answer with an empty body makes [delete] raise the decoder's own
    exception, which is not one of the SDK's typed failures. *)
Lemma delete_500_empty_body_raises_decode_error :
  status_code {| status_code := 500; body := None |} <> 204 /\
  AsyncSitesAPI.delete {| status_code := 500; body := None |} = Raise JSONDecodeError /\
  is_patronus_error JSONDecodeError = false.
Proof.
  repeat split. cbn; lia.
Qed.

(* ===================================================================== *)
(** * Properties of Python values *)
(* ===================================================================== *)

Section ValueFacts.

(** Induction that reaches below [VList] and [VDict]. *)
Lemma value_induction (P : value -> Prop)
  (HNone : P VNone)
  (HBool : forall b, P (VBool b))
  (HInt : forall z, P (VInt z))
  (HStr : forall s, P (VStr s))
  (HList : forall l, Forall P l -> P (VList l))
  (HDict : forall d, Forall (fun kv => P (snd kv)) d -> P (VDict d)) :
  forall v, P v.
Proof.
  fix IH 1. intros [ | b | z | s | l | d].
  - exact HNone.
  - apply HBool.
  - apply HInt.
  - apply HStr.
  - apply HList. induction l as [ | x l IHl]; constructor; [apply IH | exact IHl].
  - apply HDict. induction d as [ | [k x] d IHd]; constructor; [apply IH | exact IHd].
Qed.

Lemma dict_get_dict_set (k k' : string) (v : value) (d : dict) :
  dict_get k (dict_set k' v d) = if String.eqb k k' then Some v else dict_get k d.
Proof.
  induction d as [ | [k0 v0] d IHd]; cbn.
  - reflexivity.
  - destruct (String.eqb k' k0) eqn:E0; cbn.
    + apply String.eqb_eq in E0; subst k0.
      destruct (String.eqb k k'); reflexivity.
    + rewrite IHd. destruct (String.eqb k k') eqn:E; [ | reflexivity].
      apply String.eqb_eq in E; subst k'. now rewrite E0.
Qed.

Lemma dict_get_dict_del (k k' : string) (d : dict) :
  dict_get k (dict_del k' d) = if String.eqb k k' then None else dict_get k d.
Proof.
  induction d as [ | [k0 v0] d IHd]; cbn.
  - now destruct (String.eqb k k').
  - destruct (String.eqb k' k0) eqn:E0; cbn.
    + apply String.eqb_eq in E0; subst k0. rewrite IHd.
      destruct (String.eqb k k'); reflexivity.
    + rewrite IHd. destruct (String.eqb k k') eqn:E; [ | reflexivity].
      apply String.eqb_eq in E; subst k'. now rewrite E0.
Qed.

Lemma dict_get_set_if (k k' : string) (v : value) (d : dict) :
  dict_get k (set_if k' v d)
  = if String.eqb k k' && truthy v then Some v else dict_get k d.
Proof.
  unfold set_if. destruct (truthy v).
  - rewrite dict_get_dict_set, andb_true_r. reflexivity.
  - now rewrite andb_false_r.
Qed.

Lemma keys_dict_set (a k : string) (v : value) (d : dict) :
  existsb (String.eqb a) (map fst (dict_set k v d))
  = existsb (String.eqb a) (map fst d) || String.eqb a k.
Proof.
  induction d as [ | [k0 v0] d IHd]; cbn.
  - now rewrite orb_false_r.
  - destruct (String.eqb k k0) eqn:E0; cbn.
    + apply String.eqb_eq in E0; subst k0.
      destruct (String.eqb a k); cbn; [reflexivity | now rewrite orb_false_r].
    + rewrite IHd. now rewrite orb_assoc.
Qed.

Lemma nodup_keys_dict_set (k : string) (v : value) (d : dict) :
  nodup_keys (map fst d) = true -> nodup_keys (map fst (dict_set k v d)) = true.
Proof.
  induction d as [ | [k0 v0] d IHd]; cbn.
  - reflexivity.
  - intros Hnd. apply andb_prop in Hnd as [Hk0 Hd].
    destruct (String.eqb k k0) eqn:E0; cbn.
    + now rewrite Hk0, Hd.
    + rewrite keys_dict_set, IHd by exact Hd.
      apply negb_true_iff in Hk0. rewrite Hk0. cbn.
      rewrite String.eqb_sym, E0. reflexivity.
Qed.

Lemma forallb_dict_set (f : string * value -> bool) (k : string) (v : value) (d : dict) :
  (forall k', f (k', v) = true) -> forallb f d = true ->
  forallb f (dict_set k v d) = true.
Proof.
  intros Hv. induction d as [ | [k0 v0] d IHd]; cbn.
  - now rewrite Hv.
  - intros Hd. apply andb_prop in Hd as [H0 Hd].
    destruct (String.eqb k k0); cbn.
    + now rewrite Hv, Hd.
    + now rewrite H0, IHd.
Qed.

Lemma wf_set_if (k : string) (v : value) (d : dict) :
  wf v = true -> wf (VDict d) = true -> wf (VDict (set_if k v d)) = true.
Proof.
  unfold set_if. destruct (truthy v); [ | now intros].
  cbn [wf]. intros Hv Hd. apply andb_prop in Hd as [Hnd Hall].
  rewrite nodup_keys_dict_set by exact Hnd.
  now rewrite forallb_dict_set.
Qed.

Lemma wf_opt_str (o : option string) : wf (opt_str o) = true.
Proof. now destruct o. Qed.

Lemma wf_opt_int (o : option Z) : wf (opt_int o) = true.
Proof. now destruct o. Qed.

Lemma wf_opt_ints (o : option (list Z)) : wf (opt_ints o) = true.
Proof.
  destruct o as [l | ]; [ | reflexivity]. cbn.
  induction l as [ | z l IHl]; [reflexivity | exact IHl].
Qed.

Lemma dict_get_in (k : string) (v : value) (d : dict) :
  nodup_keys (map fst d) = true -> In (k, v) d -> dict_get k d = Some v.
Proof.
  induction d as [ | [k0 v0] d IHd]; cbn; [now intros | ].
  intros Hnd [Heq | Hin].
  - injection Heq as -> ->. now rewrite String.eqb_refl.
  - apply andb_prop in Hnd as [Hk0 Hd].
    destruct (String.eqb k k0) eqn:E; [ | now apply IHd].
    apply String.eqb_eq in E; subst k0. exfalso.
    apply negb_true_iff in Hk0.
    assert (Hex : existsb (String.eqb k) (map fst d) = true).
    { apply existsb_exists. exists k; split; [ | apply String.eqb_refl].
      now apply (in_map fst d (k, v)). }
    congruence.
Qed.

(** The loop over the first dict in [py_eq], as a [forallb]. *)
Lemma py_eq_dict (d1 d2 : dict) :
  py_eq (VDict d1) (VDict d2)
  = Nat.eqb (length d1) (length d2)
    && forallb (fun kv => match dict_get (fst kv) d2 with
                          | Some w => py_eq (snd kv) w
                          | None => false
                          end) d1.
Proof.
  cbn [py_eq]. f_equal.
  induction d1 as [ | [k v] d1 IHd1]; [reflexivity | ].
  cbn [forallb fst snd]. now rewrite <- IHd1.
Qed.

(** On the values the interpreter builds, [==] is reflexive. *)
Lemma py_eq_refl (v : value) : wf v = true -> py_eq v v = true.
Proof.
  induction v as [ | b | z | s | l IHl | d IHd] using value_induction; intros Hwf.
  - reflexivity.
  - now destruct b.
  - apply Z.eqb_refl.
  - apply String.eqb_refl.
  - cbn [wf] in Hwf. cbn [py_eq].
    induction IHl as [ | x l Hx _ IHl]; [reflexivity | ].
    cbn [forallb] in Hwf. apply andb_prop in Hwf as [Hwx Hwl].
    now rewrite (Hx Hwx), (IHl Hwl).
  - cbn [wf] in Hwf. apply andb_prop in Hwf as [Hnd Hall].
    rewrite py_eq_dict, Nat.eqb_refl. cbn [andb].
    rewrite Forall_forall in IHd. rewrite forallb_forall in Hall.
    apply forallb_forall. intros [k x] Hin. cbn [fst snd].
    rewrite (dict_get_in k x d Hnd Hin).
    exact (IHd (k, x) Hin (Hall (k, x) Hin)).
Qed.

End ValueFacts.

(* ===================================================================== *)
(** * Properties of the generated documents *)
(* ===================================================================== *)

Lemma included_opt_str (o : option string) (v : value) :
  included (opt_str o) = Some v <-> exists s, o = Some s /\ s <> "" /\ v = VStr s.
Proof.
  unfold included. destruct o as [s | ]; cbn.
  - destruct (String.eqb s "") eqn:E; cbn.
    + apply String.eqb_eq in E. split; [discriminate | ].
      intros (s' & [= <-] & Hne & _). contradiction.
    + apply String.eqb_neq in E. split.
      * intros [= <-]. now exists s.
      * now intros (s' & [= <-] & _ & ->).
  - split; [discriminate | ]. now intros (s & Hs & _).
Qed.

Lemma included_opt_int (o : option Z) (v : value) :
  included (opt_int o) = Some v <-> exists z, o = Some z /\ z <> 0 /\ v = VInt z.
Proof.
  unfold included. destruct o as [z | ]; cbn.
  - destruct (z =? 0) eqn:E; cbn.
    + apply Z.eqb_eq in E. split; [discriminate | ].
      intros (z' & [= <-] & Hne & _). contradiction.
    + apply Z.eqb_neq in E. split.
      * intros [= <-]. now exists z.
      * now intros (z' & [= <-] & _ & ->).
  - split; [discriminate | ]. now intros (z & Hz & _).
Qed.

(** Looks a literal key up in a spec built by a chain of [set_if]. *)
Ltac lookup_in_spec :=
  cbv zeta; cbn [spec_dict spec_of dict_get String.eqb Ascii.eqb Bool.eqb];
  rewrite ?dict_get_set_if;
  cbn [dict_get String.eqb Ascii.eqb Bool.eqb andb];
  unfold included;
  repeat match goal with
         | |- context [truthy ?v] => destruct (truthy v)
         end;
  reflexivity.

Module NatFacts.
Import NatRule.

Lemma spec_lookup (p : Params) :
  let spec := spec_dict (generate_config p) in
  dict_get "source_address" spec = included (opt_str (source_address p))
  /\ dict_get "dest_address" spec = included (opt_str (dest_address p))
  /\ dict_get "translation_address" spec = included (opt_str (translation_address p))
  /\ dict_get "translation_port" spec = included (opt_int (translation_port p))
  /\ dict_get "protocol" spec = included (opt_str (protocol p))
  /\ dict_get "dest_port" spec = included (opt_int (dest_port p)).
Proof.
  unfold generate_config. repeat apply conj; lookup_in_spec.
Qed.

Lemma required_lookup (p : Params) :
  let spec := spec_dict (generate_config p) in
  dict_get "nat_type" spec = Some (VStr (nat_type p))
  /\ dict_get "interface" spec = Some (VStr (interface p))
  /\ dict_get "enabled" spec = Some (VBool (enabled p)).
Proof.
  unfold generate_config. repeat apply conj; lookup_in_spec.
Qed.

End NatFacts.

(** C3, as amended.  In the document generated for a NAT rule, each of the
    six optional keys is bound in [spec] exactly when its parameter was
    given with a value that passes the module's [if] test, a non-empty
    string or a non-zero port, and it is then bound to that value.  A
    parameter that was not given, or given empty, leaves no key behind. *)
Theorem nat_optional_keys (p : NatRule.Params) :
  let spec := spec_dict (NatRule.generate_config p) in
  (forall v, dict_get "source_address" spec = Some v <->
             exists s, NatRule.source_address p = Some s /\ s <> "" /\ v = VStr s)
  /\ (forall v, dict_get "dest_address" spec = Some v <->
                exists s, NatRule.dest_address p = Some s /\ s <> "" /\ v = VStr s)
  /\ (forall v, dict_get "translation_address" spec = Some v <->
                exists s, NatRule.translation_address p = Some s /\ s <> "" /\ v = VStr s)
  /\ (forall v, dict_get "translation_port" spec = Some v <->
                exists z, NatRule.translation_port p = Some z /\ z <> 0 /\ v = VInt z)
  /\ (forall v, dict_get "protocol" spec = Some v <->
                exists s, NatRule.protocol p = Some s /\ s <> "" /\ v = VStr s)
  /\ (forall v, dict_get "dest_port" spec = Some v <->
                exists z, NatRule.dest_port p = Some z /\ z <> 0 /\ v = VInt z).
Proof.
  destruct (NatFacts.spec_lookup p) as (H1 & H2 & H3 & H4 & H5 & H6).
  cbv zeta. rewrite H1, H2, H3, H4, H5, H6.
  repeat apply conj; intros v;
    first [apply included_opt_str | apply included_opt_int].
Qed.

(** The port forwarding example: its four optional parameters are there,
    the two it leaves out are not. *)
Lemma nat_optional_keys_witness :
  let spec := spec_dict (NatRule.generate_config nat_web_server) in
  dict_get "translation_port" spec = Some (VInt 80)
  /\ dict_get "source_address" spec = None.
Proof.
  cbv zeta. split.
  - apply (proj1 (proj2 (proj2 (proj2 (nat_optional_keys nat_web_server))))).
    exists 80. repeat split. lia.
  - destruct (dict_get "source_address"
                (spec_dict (NatRule.generate_config nat_web_server))) as [v | ] eqn:E;
      [ | reflexivity].
    apply (proj1 (nat_optional_keys nat_web_server)) in E.
    destruct E as (s & Hs & _). discriminate Hs.
Defined.

(** C3 as written fails for a parameter given as the empty string, and
    for a port given as 0: each was provided, and its key is not in the
    spec. *)
Lemma nat_empty_source_address_is_dropped :
  (NatRule.source_address nat_empty_source = Some ""
   /\ dict_get "source_address"
        (spec_dict (NatRule.generate_config nat_empty_source)) = None
   /\ ~ nat_keys_iff_provided nat_empty_source)
  /\ (NatRule.translation_port nat_port_zero = Some 0
      /\ dict_get "translation_port"
           (spec_dict (NatRule.generate_config nat_port_zero)) = None
      /\ ~ nat_keys_iff_provided nat_port_zero).
Proof.
  split; repeat split.
  - intros (H & _). cbn in H. discriminate H.
  - intros (_ & _ & _ & H & _). cbn in H. discriminate H.
Qed.

(** The same test drops a port given as 0. *)
Example nat_port_zero_is_dropped (p : NatRule.Params) :
  NatRule.translation_port p = Some 0 ->
  dict_get "translation_port" (spec_dict (NatRule.generate_config p)) = None.
Proof.
  intros Hp. destruct (NatFacts.spec_lookup p) as (_ & _ & _ & H4 & _).
  cbv zeta in H4. rewrite H4, Hp. reflexivity.
Qed.

(** ** The shape of a generated document *)

(** Both generators return the four top-level keys in this order, a
    metadata mapping that binds [name], and a spec mapping without repeated
    keys. *)
Lemma firewall_document_shape (p : FirewallRule.Params) :
  exists m s,
    FirewallRule.generate_config p
    = VDict [("apiVersion", VStr "patronus.firewall/v1"); ("kind", VStr "FirewallRule");
             ("metadata", VDict m); ("spec", VDict s)]
    /\ dict_get "name" m = Some (VStr (FirewallRule.name p))
    /\ wf (VDict s) = true.
Proof.
  unfold FirewallRule.generate_config. cbv zeta.
  eexists _, _. split; [reflexivity | ]. split.
  - rewrite dict_get_set_if. reflexivity.
  - repeat (apply wf_set_if;
            [first [apply wf_opt_str | apply wf_opt_ints | idtac] | ]);
      reflexivity.
Qed.

Lemma nat_document_shape (p : NatRule.Params) :
  exists m s,
    NatRule.generate_config p
    = VDict [("apiVersion", VStr "patronus.firewall/v1"); ("kind", VStr "NatRule");
             ("metadata", VDict m); ("spec", VDict s)]
    /\ dict_get "name" m = Some (VStr (NatRule.name p))
    /\ wf (VDict s) = true.
Proof.
  unfold NatRule.generate_config. cbv zeta.
  eexists _, _. split; [reflexivity | ]. split.
  - rewrite dict_get_set_if. reflexivity.
  - repeat (apply wf_set_if; [first [apply wf_opt_str | apply wf_opt_int] | ]);
      reflexivity.
Qed.

(** The spec of a firewall document does not depend on the description. *)
Lemma firewall_spec_ignores_description (p : FirewallRule.Params) (o : option string) :
  spec_of (FirewallRule.generate_config (fw_set_description p o))
  = spec_of (FirewallRule.generate_config p)
  /\ name_of (FirewallRule.generate_config (fw_set_description p o))
     = Some (VStr (FirewallRule.name p)).
Proof.
  split; [reflexivity | ].
  unfold FirewallRule.generate_config; cbv zeta.
  cbn [name_of dict_get String.eqb Ascii.eqb Bool.eqb].
  rewrite dict_get_set_if. reflexivity.
Qed.

Lemma nat_spec_ignores_description (p : NatRule.Params) (o : option string) :
  spec_of (NatRule.generate_config (nat_set_description p o))
  = spec_of (NatRule.generate_config p)
  /\ name_of (NatRule.generate_config (nat_set_description p o))
     = Some (VStr (NatRule.name p)).
Proof.
  split; [reflexivity | ].
  unfold NatRule.generate_config; cbv zeta.
  cbn [name_of dict_get String.eqb Ascii.eqb Bool.eqb].
  rewrite dict_get_set_if. reflexivity.
Qed.

(* ===================================================================== *)
(** * Properties of the comparison *)
(* ===================================================================== *)

Section Comparison.
Import RuleFile.

Lemma name_of_metadata_name (v n : value) :
  name_of v = Some n -> metadata_name v = Ok n.
Proof.
  destruct v as [ | | | | | d]; try discriminate. cbn.
  destruct (dict_get "metadata" d) as [[ | | | | | m] | ]; try discriminate.
  cbn. now intros ->.
Qed.

Lemma spec_of_get (v s : value) :
  spec_of v = Some s -> Py.get v "spec" VNone = Ok s.
Proof.
  destruct v as [ | | | | | d]; try discriminate. cbn. now intros ->.
Qed.

Lemma name_of_not_none (v n : value) : name_of v = Some n -> is_none v = false.
Proof. now destruct v. Qed.

(** Same name and deep-equal spec is what [configs_equal] accepts. *)
Lemma configs_equal_same (existing desired : value) :
  same_name_and_spec existing desired -> configs_equal existing desired = Ok true.
Proof.
  intros (n1 & n2 & s1 & s2 & Hn1 & Hn2 & Hn & Hs1 & Hs2 & Hs).
  unfold configs_equal.
  rewrite (name_of_not_none _ _ Hn1), (name_of_not_none _ _ Hn2). cbn [orb].
  rewrite (name_of_metadata_name _ _ Hn1), (name_of_metadata_name _ _ Hn2).
  cbn [Py.bind]. rewrite Hn.
  rewrite (spec_of_get _ _ Hs1), (spec_of_get _ _ Hs2). cbn [Py.bind].
  now rewrite Hs.
Qed.

Lemma same_name_and_spec_documents (av kd av' kd' : value) (m m' s : dict) (n : string) :
  dict_get "name" m = Some (VStr n) -> dict_get "name" m' = Some (VStr n) ->
  wf (VDict s) = true ->
  same_name_and_spec
    (VDict [("apiVersion", av); ("kind", kd); ("metadata", VDict m); ("spec", VDict s)])
    (VDict [("apiVersion", av'); ("kind", kd'); ("metadata", VDict m'); ("spec", VDict s)]).
Proof.
  intros Hm Hm' Hwf.
  exists (VStr n), (VStr n), (VDict s), (VDict s).
  cbn [name_of spec_of dict_get String.eqb Ascii.eqb Bool.eqb].
  repeat apply conj; try assumption; try reflexivity.
  - now apply py_eq_refl.
  - now apply py_eq_refl.
Qed.

(** The comparison can fail in one way only: a [get] on something that has
    no such method. *)
Lemma metadata_name_raises (c : value) (e : exn) :
  metadata_name c = Raise e -> e = AttributeError.
Proof.
  unfold metadata_name. destruct c as [ | | | | | d]; cbn;
    try (now intros [= <-]).
  destruct (dict_get "metadata" d) as [[ | | | | | m] | ]; cbn;
    try (now intros [= <-]); discriminate.
Qed.

Lemma get_raises (c : value) (k : string) (default : value) (e : exn) :
  Py.get c k default = Raise e -> e = AttributeError.
Proof.
  destruct c; cbn; try (now intros [= <-]); discriminate.
Qed.

Lemma configs_equal_raises (c1 c2 : value) (e : exn) :
  configs_equal c1 c2 = Raise e -> e = AttributeError.
Proof.
  unfold configs_equal. destruct (is_none c1 || is_none c2); [discriminate | ].
  destruct (metadata_name c1) as [n1 | e1] eqn:E1;
    [ | cbn [Py.bind]; intros [= <-]; exact (metadata_name_raises _ _ E1)].
  destruct (metadata_name c2) as [n2 | e2] eqn:E2;
    [ | cbn [Py.bind]; intros [= <-]; exact (metadata_name_raises _ _ E2)].
  cbn [Py.bind]. destruct (py_eq n1 n2); [ | discriminate].
  destruct (Py.get c1 "spec" VNone) as [s1 | e1] eqn:G1;
    [ | cbn [Py.bind]; intros [= <-]; exact (get_raises _ _ _ _ G1)].
  destruct (Py.get c2 "spec" VNone) as [s2 | e2] eqn:G2;
    [ | cbn [Py.bind]; intros [= <-]; exact (get_raises _ _ _ _ G2)].
  discriminate.
Qed.

Lemma dict_get_with_key (k k' : string) (o : option value) (d : dict) :
  String.eqb k k' = false -> dict_get k (with_key k' o d) = dict_get k d.
Proof.
  intros Hk. destruct o as [v | ]; cbn.
  - now rewrite dict_get_dict_set, Hk.
  - now rewrite dict_get_dict_del, Hk.
Qed.

(** [configs_equal] reads [metadata] and [spec] of its first argument and
    nothing else: whatever is done to [apiVersion] and [kind], its answer
    is the same, an exception included. *)
Lemma configs_equal_ignores_version_and_kind
      (e : dict) (av kd : option value) (desired : value) :
  configs_equal (VDict (with_key "kind" kd (with_key "apiVersion" av e))) desired
  = configs_equal (VDict e) desired.
Proof.
  unfold configs_equal, metadata_name. cbn [is_none orb Py.get].
  rewrite !dict_get_with_key by reflexivity.
  destruct (is_none desired) eqn:Hd; [ | reflexivity].
  destruct desired; try discriminate. reflexivity.
Qed.
End Comparison.

(* ===================================================================== *)
(** * Properties of paths *)
(* ===================================================================== *)

Section Strings.

Lemma list_ascii_of_string_app (s1 s2 : string) :
  list_ascii_of_string (s1 ++ s2)
  = (list_ascii_of_string s1 ++ list_ascii_of_string s2)%list.
Proof.
  induction s1 as [ | c s1 IHs]; [reflexivity | ].
  cbn. now rewrite IHs.
Qed.

Lemma list_ascii_of_string_inj (s1 s2 : string) :
  list_ascii_of_string s1 = list_ascii_of_string s2 -> s1 = s2.
Proof.
  intros E. apply (f_equal string_of_list_ascii) in E.
  now rewrite !string_of_list_ascii_of_string in E.
Qed.

Lemma append_inv_head (a x y : string) : a ++ x = a ++ y -> x = y.
Proof.
  induction a as [ | c a IHa]; cbn [append]; [now intros | ].
  intros [= E]. now apply IHa.
Qed.

Lemma append_inv_tail (x y s : string) : x ++ s = y ++ s -> x = y.
Proof.
  intros E. apply (f_equal list_ascii_of_string) in E.
  rewrite !list_ascii_of_string_app in E.
  apply app_inv_tail in E. now apply list_ascii_of_string_inj.
Qed.

Lemma append_assoc (a b c : string) : (a ++ b) ++ c = a ++ b ++ c.
Proof.
  induction a as [ | x a IHa]; [reflexivity | ]. cbn [append]. now rewrite IHa.
Qed.

(** Joining a directory and a relative file name puts the name at the end,
    after the directory and at most one slash of its own. *)
Lemma os_path_join_relative (a b : string) :
  String.prefix "/" b = false ->
  os_path_join a b
  = (if String.eqb a "" || ends_with_slash a then a else a ++ "/") ++ b.
Proof.
  intros Hb. unfold os_path_join. rewrite Hb.
  destruct (String.eqb a "" || ends_with_slash a); [reflexivity | ].
  now rewrite append_assoc.
Qed.

Lemma upto_last_slash_app_slash (x b : string) :
  upto_last_slash (x ++ String "/" b) <> "".
Proof.
  induction x as [ | c x IHx]; cbn [append upto_last_slash].
  - destruct (upto_last_slash b); discriminate.
  - destruct (upto_last_slash (x ++ String "/" b)); [contradiction | discriminate].
Qed.

Lemma upto_last_slash_app (x y : string) :
  upto_last_slash (x ++ y) = "" <-> upto_last_slash x = "" /\ upto_last_slash y = "".
Proof.
  induction x as [ | c x IHx]; cbn [append upto_last_slash]; [tauto | ].
  destruct (upto_last_slash (x ++ y)) as [ | c1 h1] eqn:E1;
    destruct (upto_last_slash x) as [ | c2 h2] eqn:E2.
  - destruct (Ascii.eqb c "/"); [split; [discriminate | intros [D _]; discriminate D] | ].
    tauto.
  - destruct IHx as [IH _]. destruct (IH eq_refl) as [D _]. discriminate D.
  - split; [discriminate | ]. intros [_ Hy]. destruct IHx as [_ IH].
    specialize (IH (conj eq_refl Hy)). discriminate IH.
  - split; [discriminate | intros [D _]; discriminate D].
Qed.

(** A path has a directory part exactly when it has a slash. *)
Lemma dirname_empty_iff (p : string) :
  os_path_dirname p = "" <-> upto_last_slash p = "".
Proof.
  unfold os_path_dirname. cbv zeta.
  destruct (upto_last_slash p) as [ | c h] eqn:E; [tauto | ].
  cbn [String.eqb negb andb].
  destruct (Str.rstrip (String c h) "/") as [ | c' h'] eqn:Er; cbn [String.eqb negb];
    split; discriminate.
Qed.

Lemma ends_with_slash_split (s : string) :
  ends_with_slash s = true -> exists x, s = x ++ "/".
Proof.
  induction s as [ | c s IHs]; [discriminate | ].
  cbn [ends_with_slash]. destruct s as [ | c2 s2].
  - intros Hc. apply Ascii.eqb_eq in Hc; subst c. now exists "".
  - intros Hs. destruct (IHs Hs) as (x & Hx). exists (String c x).
    cbn [append]. now rewrite Hx.
Qed.

(** Under a configuration directory that is not the empty string, the
    joined path has a directory part. *)
Lemma dirname_join_nonempty (cp b : string) :
  cp <> "" -> String.prefix "/" b = false ->
  os_path_dirname (os_path_join cp b) <> "".
Proof.
  intros Hcp Hb. rewrite dirname_empty_iff, os_path_join_relative by exact Hb.
  apply String.eqb_neq in Hcp. rewrite Hcp. cbn [orb].
  destruct (ends_with_slash cp) eqn:E.
  - destruct (ends_with_slash_split cp E) as (x & ->).
    rewrite append_assoc. apply upto_last_slash_app_slash.
  - rewrite append_assoc. apply upto_last_slash_app_slash.
Qed.

Lemma firewall_path_has_directory (cp n : string) :
  cp <> "" -> os_path_dirname (FirewallRule.config_file_path cp n) <> "".
Proof.
  intros Hcp. unfold FirewallRule.config_file_path.
  now apply dirname_join_nonempty.
Qed.

Lemma nat_path_has_directory (cp n : string) :
  cp <> "" -> os_path_dirname (NatRule.config_file_path cp n) <> "".
Proof.
  intros Hcp. unfold NatRule.config_file_path.
  now apply dirname_join_nonempty.
Qed.

End Strings.

(* ===================================================================== *)
(** * Properties of the rule modules *)
(* ===================================================================== *)

Section Reading.
Context {text : Type} `{Yaml text}.
Import RuleFile.

Lemma read_no_document (fs : FS text) (path : string) :
  no_document fs path -> read_existing_config fs path = VNone.
Proof.
  unfold read_existing_config.
  intros [Hnone | (t & Hsome & Hload)].
  - now rewrite Hnone.
  - now rewrite Hsome, Hload.
Qed.

Lemma read_removed (fs : FS text) (path : string) :
  read_existing_config (fs_update fs path None) path = VNone.
Proof.
  unfold read_existing_config, fs_update. now rewrite String.eqb_refl.
Qed.

(** [write_config] fails exactly on a path without a directory part. *)
Lemma write_config_fails (fs : FS text) (path : string) (config : value) :
  os_path_dirname path = "" -> write_config fs path config = Raise FileNotFoundError.
Proof.
  intros Hd. unfold write_config, os_makedirs. now rewrite Hd.
Qed.

Lemma write_config_inv (fs fs' : FS text) (path : string) (config : value) :
  write_config fs path config = Ok fs' ->
  os_path_dirname path <> "" /\ fs' = fs_update fs path (Some (dump config)).
Proof.
  unfold write_config, os_makedirs.
  destruct (String.eqb (os_path_dirname path) "") eqn:E; [discriminate | ].
  apply String.eqb_neq in E. cbn [Py.bind]. now intros [= <-].
Qed.

Lemma write_config_raises (fs : FS text) (path : string) (config : value) (e : exn) :
  write_config fs path config = Raise e ->
  e = FileNotFoundError /\ os_path_dirname path = "".
Proof.
  unfold write_config, os_makedirs.
  destruct (String.eqb (os_path_dirname path) "") eqn:E; [ | discriminate].
  apply String.eqb_eq in E. cbn [Py.bind]. now intros [= <-].
Qed.

Lemma read_after_write (fs fs' : FS text) (path : string) (config : value) :
  safe_load (dump config) = Some config ->
  write_config fs path config = Ok fs' ->
  read_existing_config fs' path = config.
Proof.
  intros Hrt Hw. apply write_config_inv in Hw as [_ ->].
  unfold read_existing_config, fs_update.
  now rewrite String.eqb_refl, Hrt.
Qed.

End Reading.

(** Unfolds a [main] down to the comparison it branches on. *)
Ltac open_main :=
  unfold FirewallRule.main, NatRule.main; cbv zeta.

Ltac open_main_in H :=
  unfold FirewallRule.main, NatRule.main in H; cbv zeta in H.

Section FirewallMain.
Context {text : Type} `{Yaml text}.
Import FirewallRule.

Lemma firewall_unchanged (cm : bool) (p : Params) (fs : FS text) :
  state p = present ->
  configs_equal (read_existing_config fs (config_file_path (config_path p) (name p)))
                (generate_config p) = Ok true ->
  main cm p fs
  = Ok ({| changed := false;
           message := "Firewall rule '" ++ name p
                      ++ "' already exists with desired configuration";
           rule := Some (generate_config p) |}, fs).
Proof.
  intros Hs He. open_main. now rewrite Hs, He.
Qed.

Lemma firewall_created (cm : bool) (p : Params) (fs : FS text) :
  state p = present ->
  read_existing_config fs (config_file_path (config_path p) (name p)) = VNone ->
  main cm p fs
  = (fs' <- (if cm then Ok fs
             else write_config fs (config_file_path (config_path p) (name p))
                    (generate_config p)) ;;
     Ok ({| changed := true;
            message := "Created firewall rule '" ++ name p ++ "'";
            rule := Some (generate_config p) |}, fs')).
Proof.
  intros Hs He. open_main. rewrite Hs, He.
  destruct (firewall_document_shape p) as (m & s & -> & _). reflexivity.
Qed.

Lemma firewall_already_absent (cm : bool) (p : Params) (fs : FS text) :
  state p = absent ->
  read_existing_config fs (config_file_path (config_path p) (name p)) = VNone ->
  main cm p fs
  = Ok ({| changed := false;
           message := "Firewall rule '" ++ name p ++ "' already absent";
           rule := None |}, fs).
Proof.
  intros Hs He. open_main. now rewrite Hs, He.
Qed.

Lemma firewall_self_equal (p : Params) :
  same_name_and_spec (generate_config p) (generate_config p).
Proof.
  destruct (firewall_document_shape p) as (m & s & -> & Hm & Hwf).
  now apply same_name_and_spec_documents with (n := name p).
Qed.
End FirewallMain.

Section NatMain.
Context {text : Type} `{Yaml text}.
Import NatRule.

Lemma nat_unchanged (cm : bool) (p : Params) (fs : FS text) :
  state p = present ->
  configs_equal (read_existing_config fs (config_file_path (config_path p) (name p)))
                (generate_config p) = Ok true ->
  main cm p fs
  = Ok ({| changed := false;
           message := "NAT rule '" ++ name p
                      ++ "' already exists with desired configuration";
           rule := Some (generate_config p) |}, fs).
Proof.
  intros Hs He. open_main. now rewrite Hs, He.
Qed.

Lemma nat_created (cm : bool) (p : Params) (fs : FS text) :
  state p = present ->
  read_existing_config fs (config_file_path (config_path p) (name p)) = VNone ->
  main cm p fs
  = (fs' <- (if cm then Ok fs
             else write_config fs (config_file_path (config_path p) (name p))
                    (generate_config p)) ;;
     Ok ({| changed := true;
            message := "Created NAT rule '" ++ name p ++ "'";
            rule := Some (generate_config p) |}, fs')).
Proof.
  intros Hs He. open_main. rewrite Hs, He.
  destruct (nat_document_shape p) as (m & s & -> & _). reflexivity.
Qed.

Lemma nat_already_absent (cm : bool) (p : Params) (fs : FS text) :
  state p = absent ->
  read_existing_config fs (config_file_path (config_path p) (name p)) = VNone ->
  main cm p fs
  = Ok ({| changed := false;
           message := "NAT rule '" ++ name p ++ "' already absent";
           rule := None |}, fs).
Proof.
  intros Hs He. open_main. now rewrite Hs, He.
Qed.

Lemma nat_self_equal (p : Params) :
  same_name_and_spec (generate_config p) (generate_config p).
Proof.
  destruct (nat_document_shape p) as (m & s & -> & Hm & Hwf).
  now apply same_name_and_spec_documents with (n := name p).
Qed.
End NatMain.

(** C8.  Scenario A: with no document on disk, the firewall module run with
    [name=allow-ssh], [action=allow], [protocol=tcp], [dest_ports=[22]] and
    the defaults writes the file [FirewallRule-allow-ssh.yaml] of the
    configuration directory, reports [changed=true], and the document has
    exactly the spec [{action: allow, log: false, enabled: true,
    protocol: tcp, destination: {ports: [22]}}].  This holds under every
    configuration directory but the empty string, the default one
    included; with the empty string the path has no directory part and the
    run ends in [os.makedirs]. *)
Theorem scenario_A_creates {text : Type} `{Yaml text} (cp : string) (fs : FS text) :
  let path := os_path_join cp "FirewallRule-allow-ssh.yaml" in
  let created := {| changed := true;
                    message := "Created firewall rule 'allow-ssh'";
                    rule := Some scenario_A_document |} in
  no_document fs path ->
  FirewallRule.config_file_path cp "allow-ssh" = path
  /\ FirewallRule.main false (scenario_A cp) fs
     = (if String.eqb (os_path_dirname path) "" then Raise FileNotFoundError
        else Ok (created, fs_update fs path (Some (dump scenario_A_document))))
  /\ (cp <> "" ->
      FirewallRule.main false (scenario_A cp) fs
      = Ok (created, fs_update fs path (Some (dump scenario_A_document))))
  /\ FirewallRule.main true (scenario_A cp) fs = Ok (created, fs)
  /\ spec_of scenario_A_document
     = Some (VDict [("action", VStr "allow");
                    ("log", VBool false);
                    ("enabled", VBool true);
                    ("protocol", VStr "tcp");
                    ("destination", VDict [("ports", VList [VInt 22])])]).
Proof.
  intros path created Hno. split; [reflexivity | ].
  apply read_no_document in Hno.
  assert (Hrun : FirewallRule.main false (scenario_A cp) fs
                 = (if String.eqb (os_path_dirname path) "" then Raise FileNotFoundError
                    else Ok (created,
                             fs_update fs path (Some (dump scenario_A_document))))).
  { rewrite (firewall_created false (scenario_A cp) fs eq_refl Hno).
    unfold RuleFile.write_config, os_makedirs.
    change (FirewallRule.config_file_path (FirewallRule.config_path (scenario_A cp))
              (FirewallRule.name (scenario_A cp))) with path.
    destruct (String.eqb (os_path_dirname path) ""); reflexivity. }
  split; [exact Hrun | ]. split; [ | split; [ | reflexivity]].
  - intros Hcp. rewrite Hrun.
    pose proof (firewall_path_has_directory cp "allow-ssh" Hcp) as Hd.
    change (FirewallRule.config_file_path cp "allow-ssh") with path in Hd.
    apply String.eqb_neq in Hd. now rewrite Hd.
  - now rewrite (firewall_created true (scenario_A cp) fs eq_refl Hno).
Qed.

Lemma scenario_A_creates_witness :
  let path := "/etc/patronus/config/FirewallRule-allow-ssh.yaml" in
  no_document (no_files (text := option value)) path
  /\ FirewallRule.config_file_path "/etc/patronus/config" "allow-ssh" = path
  /\ FirewallRule.main false (scenario_A "/etc/patronus/config") no_files
     = Ok ({| changed := true;
              message := "Created firewall rule 'allow-ssh'";
              rule := Some scenario_A_document |},
           fs_update no_files path (Some (Some scenario_A_document))).
Proof.
  cbv zeta.
  assert (Hno : no_document (no_files (text := option value))
                  (os_path_join "/etc/patronus/config" "FirewallRule-allow-ssh.yaml"))
    by (left; reflexivity).
  split; [exact Hno | ].
  destruct (scenario_A_creates "/etc/patronus/config" no_files Hno)
    as (Hp & _ & Hm & _).
  split; [exact Hp | apply Hm; discriminate].
Defined.

(** C9, as amended.  A run in check mode hands back the file system it was
    given.  Whenever the real run completes, check mode reports the same
    [changed], message and document; when check mode fails, which it can
    only in the comparison, the real run fails with the same exception.  A
    real run can in addition fail while writing, and check mode, which does
    not write, has then reported the intended change.  Both modules. *)
Theorem check_mode_reports_the_same {text : Type} `{Yaml text} :
  (forall (p : FirewallRule.Params) (fs : FS text),
      let path := FirewallRule.config_file_path (FirewallRule.config_path p) (FirewallRule.name p) in
      (forall r fs', FirewallRule.main true p fs = Ok (r, fs') -> fs' = fs)
      /\ (forall r fs', FirewallRule.main false p fs = Ok (r, fs') ->
                        FirewallRule.main true p fs = Ok (r, fs))
      /\ (forall e, FirewallRule.main true p fs = Raise e -> FirewallRule.main false p fs = Raise e)
      /\ (forall e, FirewallRule.main false p fs = Raise e ->
                    FirewallRule.main true p fs = Raise e
                    \/ (RuleFile.write_config fs path (FirewallRule.generate_config p) = Raise e
                        /\ exists r, FirewallRule.main true p fs = Ok (r, fs)
                                     /\ changed r = true)))
  /\ (forall (p : NatRule.Params) (fs : FS text),
      let path := NatRule.config_file_path (NatRule.config_path p) (NatRule.name p) in
      (forall r fs', NatRule.main true p fs = Ok (r, fs') -> fs' = fs)
      /\ (forall r fs', NatRule.main false p fs = Ok (r, fs') ->
                        NatRule.main true p fs = Ok (r, fs))
      /\ (forall e, NatRule.main true p fs = Raise e -> NatRule.main false p fs = Raise e)
      /\ (forall e, NatRule.main false p fs = Raise e ->
                    NatRule.main true p fs = Raise e
                    \/ (RuleFile.write_config fs path (NatRule.generate_config p) = Raise e
                        /\ exists r, NatRule.main true p fs = Ok (r, fs)
                                     /\ changed r = true))).
Proof.
  split; intros p fs path; open_main.
  - destruct (FirewallRule.state p).
    + destruct (RuleFile.configs_equal _ _) as [[ | ] | e0] eqn:Heq; cbn [Py.bind].
      * repeat apply conj; try discriminate.
        -- now intros r fs' [= <- <-].
        -- now intros r fs' [= <- <-].
      * fold path.
        destruct (RuleFile.write_config fs path (FirewallRule.generate_config p))
          as [fsw | ew]; cbn [Py.bind].
        -- repeat apply conj; try discriminate.
           ++ now intros r fs' [= <- <-].
           ++ now intros r fs' [= <- <-].
        -- repeat apply conj; try discriminate.
           ++ now intros r fs' [= <- <-].
           ++ intros e [= <-]. right. split; [reflexivity | ].
              eexists; split; reflexivity.
      * repeat apply conj; try discriminate.
        -- now intros e [= <-].
        -- intros e [= <-]. now left.
    + destruct (negb _); repeat apply conj; try discriminate;
        now intros r fs' [= <- <-].
  - destruct (NatRule.state p).
    + destruct (RuleFile.configs_equal _ _) as [[ | ] | e0] eqn:Heq; cbn [Py.bind].
      * repeat apply conj; try discriminate.
        -- now intros r fs' [= <- <-].
        -- now intros r fs' [= <- <-].
      * fold path.
        destruct (RuleFile.write_config fs path (NatRule.generate_config p))
          as [fsw | ew]; cbn [Py.bind].
        -- repeat apply conj; try discriminate.
           ++ now intros r fs' [= <- <-].
           ++ now intros r fs' [= <- <-].
        -- repeat apply conj; try discriminate.
           ++ now intros r fs' [= <- <-].
           ++ intros e [= <-]. right. split; [reflexivity | ].
              eexists; split; reflexivity.
      * repeat apply conj; try discriminate.
        -- now intros e [= <-].
        -- intros e [= <-]. now left.
    + destruct (negb _); repeat apply conj; try discriminate;
        now intros r fs' [= <- <-].
Qed.

(** Scenario A in the default directory: both runs report the creation,
    and only the real one writes. *)
Lemma check_mode_reports_the_same_witness :
  let p := scenario_A "/etc/patronus/config" in
  let path := "/etc/patronus/config/FirewallRule-allow-ssh.yaml" in
  let created := {| changed := true;
                    message := "Created firewall rule 'allow-ssh'";
                    rule := Some scenario_A_document |} in
  FirewallRule.main false p (no_files (text := option value))
  = Ok (created, fs_update no_files path (Some (Some scenario_A_document)))
  /\ FirewallRule.main true p (no_files (text := option value)) = Ok (created, no_files).
Proof.
  cbv zeta.
  assert (Hreal : FirewallRule.main false (scenario_A "/etc/patronus/config")
                    (no_files (text := option value))
                  = Ok ({| changed := true;
                           message := "Created firewall rule 'allow-ssh'";
                           rule := Some scenario_A_document |},
                        fs_update no_files
                          "/etc/patronus/config/FirewallRule-allow-ssh.yaml"
                          (Some (Some scenario_A_document))))
    by reflexivity.
  split; [exact Hreal | ].
  exact (proj1 (proj2 (proj1 (check_mode_reports_the_same (text := option value))
                         (scenario_A "/etc/patronus/config") no_files)) _ _ Hreal).
Defined.

(** C9 as written fails where the real run cannot write: with an empty
    configuration directory the path of Scenario A has no directory part,
    the real run ends in [os.makedirs] with [FileNotFoundError], and check
    mode reports [changed=true] and the created rule. *)
Lemma check_mode_misses_write_failure :
  let p := scenario_A "" in
  let fs : FS (option value) := no_files in
  FirewallRule.main true p fs
  = Ok ({| changed := true;
           message := "Created firewall rule 'allow-ssh'";
           rule := Some scenario_A_document |}, fs)
  /\ FirewallRule.main false p fs = Raise FileNotFoundError
  /\ FirewallRule.main true p fs
     <> res_map (fun out => (fst out, fs)) (FirewallRule.main false p fs).
Proof.
  cbv zeta. split; [reflexivity | ]. split; [reflexivity | ]. discriminate.
Qed.

(** C7.  When there is no file at the rule's path, or a file whose text
    fails to parse, [read_existing_config] returns [None]; the module then
    behaves as it does when the file is not there, with the same report,
    and no exception comes out of the failed parse: the run completes in
    check mode, with [state=absent], and whenever the path has a directory
    part (as under every configuration directory but the empty string),
    and the one exception a run can end in is that of [os.makedirs] in the
    write, which the missing file gives as well. *)
Theorem unreadable_is_absent {text : Type} `{Yaml text} (fs : FS text) :
  (forall path, no_document fs path -> RuleFile.read_existing_config fs path = VNone)
  /\ (forall cm (p : FirewallRule.Params),
        let path := FirewallRule.config_file_path (FirewallRule.config_path p) (FirewallRule.name p) in
        no_document fs path ->
        res_map fst (FirewallRule.main cm p fs)
        = res_map fst (FirewallRule.main cm p (fs_update fs path None))
        /\ (forall e, FirewallRule.main cm p fs = Raise e ->
                      e = FileNotFoundError /\ cm = false
                      /\ FirewallRule.state p = present /\ os_path_dirname path = "")
        /\ (cm = true \/ FirewallRule.state p = absent \/ os_path_dirname path <> "" ->
            exists r fs1 fs2,
              FirewallRule.main cm p fs = Ok (r, fs1)
              /\ FirewallRule.main cm p (fs_update fs path None) = Ok (r, fs2)))
  /\ (forall cm (p : NatRule.Params),
        let path := NatRule.config_file_path (NatRule.config_path p) (NatRule.name p) in
        no_document fs path ->
        res_map fst (NatRule.main cm p fs)
        = res_map fst (NatRule.main cm p (fs_update fs path None))
        /\ (forall e, NatRule.main cm p fs = Raise e ->
                      e = FileNotFoundError /\ cm = false
                      /\ NatRule.state p = present /\ os_path_dirname path = "")
        /\ (cm = true \/ NatRule.state p = absent \/ os_path_dirname path <> "" ->
            exists r fs1 fs2,
              NatRule.main cm p fs = Ok (r, fs1)
              /\ NatRule.main cm p (fs_update fs path None) = Ok (r, fs2))).
Proof.
  split; [exact (read_no_document fs) | ].
  split; intros cm p path Hno; apply read_no_document in Hno;
    pose proof (read_removed fs path) as Hrm.
  - destruct (FirewallRule.state p) eqn:Hs.
    + rewrite (firewall_created cm p fs Hs Hno), (firewall_created cm p _ Hs Hrm).
      fold path. destruct cm; cbn [Py.bind res_map fst].
      * repeat apply conj; [reflexivity | discriminate | now eexists _, _, _].
      * unfold RuleFile.write_config, os_makedirs.
        destruct (String.eqb (os_path_dirname path) "") eqn:Hd; cbn [Py.bind res_map fst].
        -- apply String.eqb_eq in Hd. repeat apply conj.
           ++ reflexivity.
           ++ now intros e [= <-].
           ++ intros [Hc | [Hc | Hc]]; [discriminate Hc | discriminate Hc | contradiction].
        -- repeat apply conj; [reflexivity | discriminate | now eexists _, _, _].
    + rewrite (firewall_already_absent cm p fs Hs Hno), (firewall_already_absent cm p _ Hs Hrm).
      cbn [Py.bind res_map fst].
      repeat apply conj; [reflexivity | discriminate | now eexists _, _, _].
  - destruct (NatRule.state p) eqn:Hs.
    + rewrite (nat_created cm p fs Hs Hno), (nat_created cm p _ Hs Hrm).
      fold path. destruct cm; cbn [Py.bind res_map fst].
      * repeat apply conj; [reflexivity | discriminate | now eexists _, _, _].
      * unfold RuleFile.write_config, os_makedirs.
        destruct (String.eqb (os_path_dirname path) "") eqn:Hd; cbn [Py.bind res_map fst].
        -- apply String.eqb_eq in Hd. repeat apply conj.
           ++ reflexivity.
           ++ now intros e [= <-].
           ++ intros [Hc | [Hc | Hc]]; [discriminate Hc | discriminate Hc | contradiction].
        -- repeat apply conj; [reflexivity | discriminate | now eexists _, _, _].
    + rewrite (nat_already_absent cm p fs Hs Hno), (nat_already_absent cm p _ Hs Hrm).
      cbn [Py.bind res_map fst].
      repeat apply conj; [reflexivity | discriminate | now eexists _, _, _].
Qed.

(** A file system whose every file holds text that does not parse. *)
Lemma unreadable_is_absent_witness :
  let fs : FS (option value) := fun _ => Some None in
  no_document fs "/etc/patronus/config/FirewallRule-allow-ssh.yaml"
  /\ RuleFile.read_existing_config fs "/etc/patronus/config/FirewallRule-allow-ssh.yaml"
     = VNone
  /\ exists r fs1 fs2,
       NatRule.main false nat_web_server fs = Ok (r, fs1)
       /\ NatRule.main false nat_web_server
            (fs_update fs "/etc/patronus/config/NatRule-web-server-nat.yaml" None)
          = Ok (r, fs2).
Proof.
  intros fs.
  assert (Hno : forall path, no_document fs path)
    by (intros path; right; exists None; split; reflexivity).
  split; [apply Hno | ].
  split.
  - apply (proj1 (unreadable_is_absent fs)). apply Hno.
  - apply (proj2 (proj2 (unreadable_is_absent fs)) false nat_web_server (Hno _)).
    right; right. discriminate.
Defined.

(** Text that parses is another matter: a file holding a YAML scalar is
    read as that scalar, and the comparison then calls [get] on it. *)
Example scalar_document_raises :
  let fs : FS (option value) :=
    fs_update no_files "/etc/patronus/config/FirewallRule-allow-ssh.yaml"
      (Some (Some (VStr "not a rule"))) in
  FirewallRule.main false (scenario_A "/etc/patronus/config") fs = Raise AttributeError.
Proof. reflexivity. Qed.

(** C2.  Idempotence of [state=present], for both modules and all
    parameters: when a real run has completed and the YAML library reads the
    generated document back as it was dumped, a second run with the same
    parameters on the file system the first one left, real or in check
    mode, completes with [changed=false] and leaves that file system as it
    is. *)
Theorem present_twice_unchanged {text : Type} `{Yaml text} :
  (forall (p : FirewallRule.Params) (fs fs1 : FS text) (r1 : Result),
      FirewallRule.state p = present ->
      safe_load (dump (FirewallRule.generate_config p))
      = Some (FirewallRule.generate_config p) ->
      FirewallRule.main false p fs = Ok (r1, fs1) ->
      forall cm, exists r2, FirewallRule.main cm p fs1 = Ok (r2, fs1) /\ changed r2 = false)
  /\ (forall (p : NatRule.Params) (fs fs1 : FS text) (r1 : Result),
        NatRule.state p = present ->
        safe_load (dump (NatRule.generate_config p)) = Some (NatRule.generate_config p) ->
        NatRule.main false p fs = Ok (r1, fs1) ->
        forall cm, exists r2, NatRule.main cm p fs1 = Ok (r2, fs1) /\ changed r2 = false).
Proof.
  split; intros p fs fs1 r1 Hs Hrt Hrun cm.
  - destruct (RuleFile.configs_equal
                (RuleFile.read_existing_config fs
                   (FirewallRule.config_file_path (FirewallRule.config_path p)
                      (FirewallRule.name p)))
                (FirewallRule.generate_config p)) as [[ | ] | e] eqn:Heq.
    + rewrite (firewall_unchanged false p fs Hs Heq) in Hrun.
      injection Hrun as <- <-.
      eexists; split; [now apply firewall_unchanged | reflexivity].
    + open_main_in Hrun. rewrite Hs, Heq in Hrun. cbn [Py.bind] in Hrun.
      destruct (RuleFile.write_config fs _ _) as [fsw | e] eqn:Hw;
        cbn [Py.bind] in Hrun; [ | discriminate Hrun].
      injection Hrun as <- <-.
      eexists; split.
      { apply firewall_unchanged; [exact Hs | ].
        rewrite (read_after_write _ _ _ _ Hrt Hw).
        apply configs_equal_same, firewall_self_equal. }
      reflexivity.
    + open_main_in Hrun. rewrite Hs, Heq in Hrun. discriminate Hrun.
  - destruct (RuleFile.configs_equal
                (RuleFile.read_existing_config fs
                   (NatRule.config_file_path (NatRule.config_path p) (NatRule.name p)))
                (NatRule.generate_config p)) as [[ | ] | e] eqn:Heq.
    + rewrite (nat_unchanged false p fs Hs Heq) in Hrun.
      injection Hrun as <- <-.
      eexists; split; [now apply nat_unchanged | reflexivity].
    + open_main_in Hrun. rewrite Hs, Heq in Hrun. cbn [Py.bind] in Hrun.
      destruct (RuleFile.write_config fs _ _) as [fsw | e] eqn:Hw;
        cbn [Py.bind] in Hrun; [ | discriminate Hrun].
      injection Hrun as <- <-.
      eexists; split.
      { apply nat_unchanged; [exact Hs | ].
        rewrite (read_after_write _ _ _ _ Hrt Hw).
        apply configs_equal_same, nat_self_equal. }
      reflexivity.
    + open_main_in Hrun. rewrite Hs, Heq in Hrun. discriminate Hrun.
Qed.

(** Scenario B after Scenario A, and the port forwarding example applied
    twice, both from an empty configuration directory. *)
Lemma present_twice_unchanged_witness :
  let fw := scenario_A "/etc/patronus/config" in
  let fw_path := "/etc/patronus/config/FirewallRule-allow-ssh.yaml" in
  let fw_fs1 : FS (option value) :=
    fs_update no_files fw_path (Some (Some (FirewallRule.generate_config fw))) in
  let nat_path := "/etc/patronus/config/NatRule-web-server-nat.yaml" in
  let nat_fs1 : FS (option value) :=
    fs_update no_files nat_path (Some (Some (NatRule.generate_config nat_web_server))) in
  (exists r1, FirewallRule.main false fw no_files = Ok (r1, fw_fs1) /\ changed r1 = true)
  /\ (exists r2, FirewallRule.main false fw fw_fs1 = Ok (r2, fw_fs1) /\ changed r2 = false)
  /\ (exists r1, NatRule.main false nat_web_server no_files = Ok (r1, nat_fs1)
                 /\ changed r1 = true)
  /\ (exists r2, NatRule.main false nat_web_server nat_fs1 = Ok (r2, nat_fs1)
                 /\ changed r2 = false).
Proof.
  cbv zeta. repeat apply conj.
  - eexists; split; reflexivity.
  - eapply (proj1 present_twice_unchanged (scenario_A "/etc/patronus/config") no_files);
      reflexivity.
  - eexists; split; reflexivity.
  - eapply (proj2 present_twice_unchanged nat_web_server no_files); reflexivity.
Defined.

(** C6.  With [state=present], an existing document that has the same
    [metadata.name] as the desired one and a deep-equal [spec] makes the
    module report [changed=false] and write nothing, in both modules and in
    either mode, whatever else the two documents contain.  In particular
    the document generated from the same parameters with another
    description, or none, is such a document. *)
Theorem same_spec_other_description_unchanged {text : Type} `{Yaml text} :
  (forall cm (p : FirewallRule.Params) (fs : FS text),
      let path := FirewallRule.config_file_path
                    (FirewallRule.config_path p) (FirewallRule.name p) in
      FirewallRule.state p = present ->
      (same_name_and_spec (RuleFile.read_existing_config fs path)
                          (FirewallRule.generate_config p)
       \/ exists o, RuleFile.read_existing_config fs path
                    = FirewallRule.generate_config (fw_set_description p o)) ->
      exists r, FirewallRule.main cm p fs = Ok (r, fs) /\ changed r = false)
  /\ (forall cm (p : NatRule.Params) (fs : FS text),
        let path := NatRule.config_file_path (NatRule.config_path p) (NatRule.name p) in
        NatRule.state p = present ->
        (same_name_and_spec (RuleFile.read_existing_config fs path)
                            (NatRule.generate_config p)
         \/ exists o, RuleFile.read_existing_config fs path
                      = NatRule.generate_config (nat_set_description p o)) ->
        exists r, NatRule.main cm p fs = Ok (r, fs) /\ changed r = false).
Proof.
  split; intros cm p fs path Hs Hsame.
  - assert (Heq : same_name_and_spec (RuleFile.read_existing_config fs path)
                                     (FirewallRule.generate_config p)).
    { destruct Hsame as [Hsame | (o & ->)]; [exact Hsame | ].
      destruct (firewall_spec_ignores_description p o) as (Hspec & Hname).
      destruct (firewall_self_equal p) as (n1 & n2 & s1 & s2 & Hn1 & Hn2 & Hn & Hs1 & Hs2 & Hss).
      exists n1, n2, s1, s2.
      rewrite Hspec, Hname. repeat split; try assumption.
      destruct (firewall_document_shape p) as (m & s & E & Hm & _).
      rewrite E in Hn1. cbn in Hn1. now rewrite Hm in Hn1. }
    eexists; split.
    { apply firewall_unchanged; [exact Hs | ]. now apply configs_equal_same. }
    reflexivity.
  - assert (Heq : same_name_and_spec (RuleFile.read_existing_config fs path)
                                     (NatRule.generate_config p)).
    { destruct Hsame as [Hsame | (o & ->)]; [exact Hsame | ].
      destruct (nat_spec_ignores_description p o) as (Hspec & Hname).
      destruct (nat_self_equal p) as (n1 & n2 & s1 & s2 & Hn1 & Hn2 & Hn & Hs1 & Hs2 & Hss).
      exists n1, n2, s1, s2.
      rewrite Hspec, Hname. repeat split; try assumption.
      destruct (nat_document_shape p) as (m & s & E & Hm & _).
      rewrite E in Hn1. cbn in Hn1. now rewrite Hm in Hn1. }
    eexists; split.
    { apply nat_unchanged; [exact Hs | ]. now apply configs_equal_same. }
    reflexivity.
Qed.

(** Scenario A reapplied over a document that carries a description and an
    owner the parameters do not mention. *)
Lemma same_spec_other_description_unchanged_witness :
  let p := scenario_A "/etc/patronus/config" in
  let path := "/etc/patronus/config/FirewallRule-allow-ssh.yaml" in
  let existing :=
    VDict [("apiVersion", VStr "patronus.firewall/v1");
           ("kind", VStr "FirewallRule");
           ("metadata", VDict [("name", VStr "allow-ssh");
                               ("description", VStr "SSH from anywhere");
                               ("owner", VStr "netops")]);
           ("spec", VDict [("enabled", VBool true);
                           ("destination", VDict [("ports", VList [VInt 22])]);
                           ("protocol", VStr "tcp");
                           ("log", VBool false);
                           ("action", VStr "allow")])] in
  let fs : FS (option value) := fs_update no_files path (Some (Some existing)) in
  FirewallRule.state p = present
  /\ same_name_and_spec (RuleFile.read_existing_config fs path)
                        (FirewallRule.generate_config p)
  /\ exists r, FirewallRule.main false p fs = Ok (r, fs) /\ changed r = false.
Proof.
  cbv zeta.
  match goal with
  | |- _ /\ ?S /\ _ => assert (Hsame : S)
  end.
  { do 4 eexists. repeat apply conj; reflexivity. }
  split; [reflexivity | ]. split; [exact Hsame | ].
  apply (proj1 same_spec_other_description_unchanged false
               (scenario_A "/etc/patronus/config")); [reflexivity | ].
  left. exact Hsame.
Defined.

(** C10.  The comparison never looks at [apiVersion] or [kind]: setting
    them to anything, or removing them, does not change what
    [configs_equal] answers.  So an existing document whose
    [metadata.name] and [spec] equal the desired ones is left alone
    ([changed=false], nothing written) with a different or missing
    [apiVersion] or [kind] as well, in both modules. *)
Theorem version_and_kind_are_not_compared {text : Type} `{Yaml text} :
  (forall (e : dict) (av kd : option value) (desired : value),
      RuleFile.configs_equal
        (VDict (with_key "kind" kd (with_key "apiVersion" av e))) desired
      = RuleFile.configs_equal (VDict e) desired)
  /\ (forall cm (p : FirewallRule.Params) (fs : FS text) (e : dict) (av kd : option value),
        let path := FirewallRule.config_file_path
                      (FirewallRule.config_path p) (FirewallRule.name p) in
        FirewallRule.state p = present ->
        same_name_and_spec (VDict e) (FirewallRule.generate_config p) ->
        RuleFile.read_existing_config fs path
        = VDict (with_key "kind" kd (with_key "apiVersion" av e)) ->
        exists r, FirewallRule.main cm p fs = Ok (r, fs) /\ changed r = false)
  /\ (forall cm (p : NatRule.Params) (fs : FS text) (e : dict) (av kd : option value),
        let path := NatRule.config_file_path (NatRule.config_path p) (NatRule.name p) in
        NatRule.state p = present ->
        same_name_and_spec (VDict e) (NatRule.generate_config p) ->
        RuleFile.read_existing_config fs path
        = VDict (with_key "kind" kd (with_key "apiVersion" av e)) ->
        exists r, NatRule.main cm p fs = Ok (r, fs) /\ changed r = false).
Proof.
  split; [exact configs_equal_ignores_version_and_kind | ].
  split; intros cm p fs e av kd path Hs Hsame Hread.
  - eexists; split.
    { apply firewall_unchanged; [exact Hs | ].
      fold path. rewrite Hread, configs_equal_ignores_version_and_kind.
      now apply configs_equal_same. }
    reflexivity.
  - eexists; split.
    { apply nat_unchanged; [exact Hs | ].
      fold path. rewrite Hread, configs_equal_ignores_version_and_kind.
      now apply configs_equal_same. }
    reflexivity.
Qed.

(** The port forwarding rule over a document of another version that has
    lost its [kind]. *)
Lemma version_and_kind_are_not_compared_witness :
  let path := "/etc/patronus/config/NatRule-web-server-nat.yaml" in
  let existing :=
    VDict [("apiVersion", VStr "patronus.firewall/v2");
           ("metadata", VDict [("name", VStr "web-server-nat")]);
           ("spec", VDict [("nat_type", VStr "port_forward");
                           ("interface", VStr "wan0");
                           ("enabled", VBool true);
                           ("translation_address", VStr "192.168.100.10");
                           ("translation_port", VInt 80);
                           ("protocol", VStr "tcp");
                           ("dest_port", VInt 80)])] in
  let fs : FS (option value) := fs_update no_files path (Some (Some existing)) in
  exists r, NatRule.main false nat_web_server fs = Ok (r, fs) /\ changed r = false.
Proof.
  cbv zeta.
  eapply (proj2 (proj2 version_and_kind_are_not_compared) false nat_web_server _
            [("apiVersion", VStr "patronus.firewall/v1");
             ("kind", VStr "NatRule");
             ("metadata", VDict [("name", VStr "web-server-nat")]);
             ("spec", VDict [("nat_type", VStr "port_forward");
                             ("interface", VStr "wan0");
                             ("enabled", VBool true);
                             ("translation_address", VStr "192.168.100.10");
                             ("translation_port", VInt 80);
                             ("protocol", VStr "tcp");
                             ("dest_port", VInt 80)])]
            (Some (VStr "patronus.firewall/v2")) None).
  - reflexivity.
  - do 4 eexists. repeat apply conj; reflexivity.
  - reflexivity.
Defined.

(* ===================================================================== *)
(** * Further properties of the SDK client *)
(* ===================================================================== *)

Section Rstrip.

Lemma rstrip_slashes (n : nat) : Str.rstrip (slashes n) "/" = "".
Proof.
  induction n as [ | n IHn]; [reflexivity | ].
  cbn [slashes Str.rstrip]. now rewrite IHn.
Qed.

Lemma rstrip_app_slashes (s : string) (n : nat) :
  Str.rstrip (s ++ slashes n) "/" = Str.rstrip s "/".
Proof.
  induction s as [ | c s IHs]; cbn [append Str.rstrip].
  - apply rstrip_slashes.
  - now rewrite IHs.
Qed.

Lemma rstrip_no_trailing_slash (s : string) :
  ends_with_slash (Str.rstrip s "/") = false.
Proof.
  induction s as [ | c s IHs]; [reflexivity | ].
  cbn [Str.rstrip]. destruct (Str.rstrip s "/") as [ | c2 r] eqn:E.
  - cbn [Str.mem]. rewrite orb_false_r.
    destruct (Ascii.eqb c "/") eqn:Ec; [reflexivity | ].
    cbn [ends_with_slash]. exact Ec.
  - exact IHs.
Qed.

Lemma rstrip_decompose (s : string) :
  exists n, s = Str.rstrip s "/" ++ slashes n.
Proof.
  induction s as [ | c s (n & IHs)]; [now exists O | ].
  cbn [Str.rstrip]. destruct (Str.rstrip s "/") as [ | c2 r] eqn:E.
  - cbn [Str.mem]. rewrite orb_false_r.
    destruct (Ascii.eqb c "/") eqn:Ec.
    + apply Ascii.eqb_eq in Ec; subst c.
      exists (S n). cbn [append slashes]. now rewrite IHs at 1.
    + exists n. cbn [append]. now rewrite IHs at 1.
  - exists n. cbn [append]. now rewrite IHs at 1.
Qed.

Lemma ends_with_slash_app_slashes (s : string) (n : nat) :
  ends_with_slash (s ++ slashes (S n)) = true.
Proof.
  induction s as [ | c s IHs].
  - cbn [append]. induction n as [ | n IHn]; [reflexivity | ].
    cbn [slashes ends_with_slash] in *. exact IHn.
  - cbn [append ends_with_slash].
    destruct (s ++ slashes (S n)) eqn:E; [discriminate IHs | exact IHs].
Qed.

Lemma append_empty_r (s : string) : s ++ "" = s.
Proof.
  induction s as [ | c s IHs]; [reflexivity | ]. cbn [append]. now rewrite IHs.
Qed.

Lemma rstrip_fixed (s : string) :
  ends_with_slash s = false -> Str.rstrip s "/" = s.
Proof.
  intros Hs. destruct (rstrip_decompose s) as ([ | n] & Hn).
  - cbn [slashes] in Hn. rewrite append_empty_r in Hn. now symmetry.
  - rewrite Hn in Hs at 1. now rewrite ends_with_slash_app_slashes in Hs.
Qed.

End Rstrip.

(** X1.  [BaseClient.__init__] stores the base URL without its trailing
    slashes: the stored URL never ends in a slash, differs from the given
    one only by slashes at the end, is the given one when that has none,
    and any number of extra trailing slashes gives the same client, so
    that the request of an operation ([get] here) is the same too and its
    URL joins base and path with one slash. *)
Theorem init_strips_trailing_slashes (u key : string) (t : Z) :
  let client := BaseClient.__init__ u key t in
  ends_with_slash (BaseClient.api_url client) = false
  /\ (exists n, u = BaseClient.api_url client ++ slashes n)
  /\ (ends_with_slash u = false -> BaseClient.api_url client = u)
  /\ (forall n, BaseClient.__init__ (u ++ slashes n) key t = client)
  /\ (forall n site_id,
        AsyncSitesRequests.get (BaseClient.__init__ (u ++ slashes n) key t) site_id
        = AsyncSitesRequests.get client site_id
        /\ url (AsyncSitesRequests.get client site_id)
           = Str.rstrip u "/" ++ "/api/v1/sites/" ++ site_id).
Proof.
  cbv zeta. unfold BaseClient.__init__. cbn [BaseClient.api_url].
  repeat apply conj.
  - apply rstrip_no_trailing_slash.
  - apply rstrip_decompose.
  - apply rstrip_fixed.
  - intros n. now rewrite rstrip_app_slashes.
  - intros n site_id. split; [ | reflexivity].
    unfold AsyncSitesRequests.get, BaseClient._get_headers.
    cbn [BaseClient.api_url BaseClient.api_key BaseClient.timeout].
    now rewrite rstrip_app_slashes.
Qed.

Lemma init_strips_trailing_slashes_witness :
  ends_with_slash "https://api.patronus.io" = false
  /\ BaseClient.api_url (BaseClient.__init__ "https://api.patronus.io" "test-key" 30)
     = "https://api.patronus.io"
  /\ BaseClient.__init__ "https://api.patronus.io/" "test-key" 30
     = BaseClient.__init__ "https://api.patronus.io" "test-key" 30.
Proof.
  destruct (init_strips_trailing_slashes "https://api.patronus.io" "test-key" 30)
    as (_ & _ & Hfix & Hsame & _).
  split; [reflexivity | ]. split.
  - apply Hfix. reflexivity.
  - exact (Hsame 1%nat).
Defined.

Section KeywordArguments.

Lemma dict_get_absent (k : string) (d : dict) :
  existsb (String.eqb k) (map fst d) = false -> dict_get k d = None.
Proof.
  induction d as [ | [k0 v0] d IHd]; [reflexivity | ].
  cbn. destruct (String.eqb k k0); [discriminate | exact IHd].
Qed.

(** Looking a key up after [dict_update]: the keyword argument if there is
    one, the literal entry otherwise. *)
Lemma dict_get_dict_update (k : string) (kwargs d : dict) :
  nodup_keys (map fst kwargs) = true ->
  dict_get k (dict_update d kwargs)
  = match dict_get k kwargs with Some v => Some v | None => dict_get k d end.
Proof.
  revert d. induction kwargs as [ | [k0 v0] kwargs IH]; intros d Hnd; [reflexivity | ].
  cbn [map fst nodup_keys] in Hnd. apply andb_prop in Hnd as [Hk0 Hnd].
  apply negb_true_iff in Hk0.
  unfold dict_update in *. cbn [fold_left fst snd].
  rewrite (IH _ Hnd), dict_get_dict_set. cbn [dict_get].
  destruct (String.eqb k k0) eqn:E; [ | reflexivity].
  apply String.eqb_eq in E; subst k0.
  now rewrite (dict_get_absent _ _ Hk0).
Qed.

End KeywordArguments.

(** X2.  The payload of [sites.create] holds [name], [location] and
    [wan_interfaces] as given and passes every keyword argument through
    under its own key; it holds nothing else.  (Python rejects a call whose
    keyword arguments repeat one of the three named parameters, and
    [kwargs] is a dict: these are the hypotheses.) *)
Theorem create_payload_passes_kwargs
        (client : BaseClient.self) (name location : string)
        (wan_interfaces : list string) (kwargs : dict) :
  nodup_keys (map fst kwargs) = true ->
  (forall k, In k ["name"; "location"; "wan_interfaces"] -> dict_get k kwargs = None) ->
  exists data,
    payload (AsyncSitesRequests.create client name location wan_interfaces kwargs)
    = Some (VDict data)
    /\ dict_get "name" data = Some (VStr name)
    /\ dict_get "location" data = Some (VStr location)
    /\ dict_get "wan_interfaces" data = Some (VList (map VStr wan_interfaces))
    /\ (forall k v, dict_get k kwargs = Some v -> dict_get k data = Some v)
    /\ (forall k, dict_get k kwargs = None ->
                  ~ In k ["name"; "location"; "wan_interfaces"] ->
                  dict_get k data = None).
Proof.
  intros Hnd Hnamed.
  eexists. split; [reflexivity | ].
  repeat apply conj.
  - rewrite dict_get_dict_update by exact Hnd.
    rewrite Hnamed by (simpl; tauto). reflexivity.
  - rewrite dict_get_dict_update by exact Hnd.
    rewrite Hnamed by (simpl; tauto). reflexivity.
  - rewrite dict_get_dict_update by exact Hnd.
    rewrite Hnamed by (simpl; tauto). reflexivity.
  - intros k v Hk. rewrite dict_get_dict_update by exact Hnd. now rewrite Hk.
  - intros k Hk Hnot. rewrite dict_get_dict_update by exact Hnd. rewrite Hk.
    cbn [dict_get].
    destruct (String.eqb k "name") eqn:E1;
      [apply String.eqb_eq in E1; subst; exfalso; apply Hnot; simpl; tauto | ].
    destruct (String.eqb k "location") eqn:E2;
      [apply String.eqb_eq in E2; subst; exfalso; apply Hnot; simpl; tauto | ].
    destruct (String.eqb k "wan_interfaces") eqn:E3;
      [apply String.eqb_eq in E3; subst; exfalso; apply Hnot; simpl; tauto | ].
    reflexivity.
Qed.

Lemma create_payload_passes_kwargs_witness :
  exists data,
    payload (AsyncSitesRequests.create
               (BaseClient.__init__ "https://api.patronus.io" "test-key" 30)
               "branch-1" "Location 1" ["eth0"]
               [("metadata", VDict [("region", VStr "emea")])])
    = Some (VDict data)
    /\ dict_get "name" data = Some (VStr "branch-1")
    /\ dict_get "metadata" data = Some (VDict [("region", VStr "emea")]).
Proof.
  destruct (create_payload_passes_kwargs
              (BaseClient.__init__ "https://api.patronus.io" "test-key" 30)
              "branch-1" "Location 1" ["eth0"]
              [("metadata", VDict [("region", VStr "emea")])])
    as (data & Hp & Hname & _ & _ & Hkw & _).
  - reflexivity.
  - intros k [<- | [<- | [<- | []]]]; reflexivity.
  - exists data. split; [exact Hp | ]. split; [exact Hname | ].
    apply Hkw. reflexivity.
Defined.

(** X3.  Whatever the status code, the exception raised for a JSON object
    is a [PatronusError]; it is an [APIError] exactly when the status is
    not 401, so a handler for [APIError] does not see authentication
    failures.  Every [APIError] is a [PatronusError]. *)
Theorem api_error_excludes_authentication (A : Type) (sc : Z) (d : dict) :
  (exists e, @_handle_error A sc (VDict d) = Raise e
             /\ is_patronus_error e = true
             /\ (is_api_error e = true <-> sc <> 401))
  /\ (forall e, is_api_error e = true -> is_patronus_error e = true).
Proof.
  split.
  - unfold _handle_error; cbn [Py.get Py.bind].
    destruct (sc =? 401) eqn:E1.
    + apply Z.eqb_eq in E1.
      eexists; split; [reflexivity | ]. split; [reflexivity | ].
      split; [discriminate | intros; lia].
    + apply Z.eqb_neq in E1.
      destruct (sc =? 404);
        [eexists; split; [reflexivity | ]; split; [reflexivity | ];
         split; [intros _; exact E1 | reflexivity] | ].
      destruct (sc =? 429);
        eexists; (split; [reflexivity | ]); (split; [reflexivity | ]);
        (split; [intros _; exact E1 | reflexivity]).
  - intros [ ]; cbn; congruence.
Qed.

Section SiteFailures.
Context {Site : Type} `{Model Site}.

Lemma handle_error_generic (B : Type) (sc : Z) (d : dict) :
  sc <> 401 -> sc <> 404 -> sc <> 429 ->
  @_handle_error B sc (VDict d)
  = Raise (APIError (match dict_get "error" d with
                     | Some m => m
                     | None => VStr "Unknown error"
                     end) (Some sc) (Some (VDict d))).
Proof.
  intros H1 H2 H3. unfold _handle_error; cbn [Py.get Py.bind].
  apply Z.eqb_neq in H1, H2, H3. now rewrite H1, H2, H3.
Qed.

(** X4.  A status the operation does not expect is a failure even when it
    is a success code: with a JSON object as body and a status other than
    401, 404 and 429, [list] and [get] raise [APIError] unless the status is
    200, [create] unless it is 201 and [delete] unless it is 204, and the
    exception carries that status and the body. *)
Theorem unexpected_status_is_api_error (r : Response) (d : dict) :
  let sc := status_code r in
  let e := APIError (match dict_get "error" d with
                     | Some m => m
                     | None => VStr "Unknown error"
                     end) (Some sc) (Some (VDict d)) in
  body r = Some (VDict d) ->
  sc <> 401 -> sc <> 404 -> sc <> 429 ->
  (sc <> 200 -> AsyncSitesAPI.list_ (Site := Site) r = Raise e
                /\ AsyncSitesAPI.get (Site := Site) r = Raise e)
  /\ (sc <> 201 -> AsyncSitesAPI.create (Site := Site) r = Raise e)
  /\ (sc <> 204 -> AsyncSitesAPI.delete r = Raise e).
Proof.
  intros sc e Hb H1 H2 H3.
  assert (Hgo : forall (B : Type),
             (data <- json r ;; @_handle_error B (status_code r) data) = Raise e).
  { intros B. unfold json; rewrite Hb; cbn [Py.bind].
    now apply handle_error_generic. }
  repeat apply conj; intros Hs; [split | | ];
    unfold AsyncSitesAPI.list_, AsyncSitesAPI.get, AsyncSitesAPI.create,
           AsyncSitesAPI.delete;
    rewrite status_guard_fail by exact Hs; apply Hgo.
Qed.

(** X5.  On a status the operation does not expect, a body that is not
    JSON makes every site operation raise the decoder's exception, and a
    JSON body that is not an object makes it raise [AttributeError]:
    neither is one of the SDK's exceptions. *)
Theorem error_body_must_be_an_object (r : Response) :
  (body r = None ->
   (status_code r <> 200 -> AsyncSitesAPI.list_ (Site := Site) r = Raise JSONDecodeError
                            /\ AsyncSitesAPI.get (Site := Site) r = Raise JSONDecodeError)
   /\ (status_code r <> 201 ->
       AsyncSitesAPI.create (Site := Site) r = Raise JSONDecodeError)
   /\ (status_code r <> 204 -> AsyncSitesAPI.delete r = Raise JSONDecodeError))
  /\ (forall v, body r = Some v -> (forall d, v <> VDict d) ->
      (status_code r <> 200 -> AsyncSitesAPI.list_ (Site := Site) r = Raise AttributeError
                               /\ AsyncSitesAPI.get (Site := Site) r = Raise AttributeError)
      /\ (status_code r <> 201 ->
          AsyncSitesAPI.create (Site := Site) r = Raise AttributeError)
      /\ (status_code r <> 204 -> AsyncSitesAPI.delete r = Raise AttributeError))
  /\ is_patronus_error JSONDecodeError = false
  /\ is_patronus_error AttributeError = false.
Proof.
  split; [ | split; [ | split; reflexivity]].
  - intros Hb. repeat apply conj; intros Hs; [split | | ];
      unfold AsyncSitesAPI.list_, AsyncSitesAPI.get, AsyncSitesAPI.create,
             AsyncSitesAPI.delete;
      rewrite status_guard_fail by exact Hs;
      unfold json; now rewrite Hb.
  - intros v Hb Hv. repeat apply conj; intros Hs; [split | | ];
      unfold AsyncSitesAPI.list_, AsyncSitesAPI.get, AsyncSitesAPI.create,
             AsyncSitesAPI.delete;
      rewrite status_guard_fail by exact Hs;
      unfold json; rewrite Hb; cbn [Py.bind];
      now apply handle_error_not_a_mapping.
Qed.

End SiteFailures.

(** [create] answered with 200 instead of 201. *)
Lemma unexpected_status_is_api_error_witness :
  AsyncSitesAPI.create (Site := string)
    {| status_code := 200; body := Some (VDict [("name", VStr "hq")]) |}
  = Raise (APIError (VStr "Unknown error") (Some 200)
             (Some (VDict [("name", VStr "hq")]))).
Proof.
  apply (unexpected_status_is_api_error (Site := string)
           {| status_code := 200; body := Some (VDict [("name", VStr "hq")]) |}
           [("name", VStr "hq")]); cbn; solve [reflexivity | lia].
Defined.

(** A 502 whose body is a JSON string, and one whose body is not JSON. *)
Lemma error_body_must_be_an_object_witness :
  AsyncSitesAPI.get (Site := string)
    {| status_code := 502; body := Some (VStr "Bad Gateway") |} = Raise AttributeError
  /\ AsyncSitesAPI.get (Site := string) {| status_code := 502; body := None |}
     = Raise JSONDecodeError.
Proof.
  split.
  - apply (proj1 (proj2 (error_body_must_be_an_object (Site := string)
                           {| status_code := 502; body := Some (VStr "Bad Gateway") |}))
                 (VStr "Bad Gateway") eq_refl); [discriminate | cbn; lia].
  - apply (proj1 (error_body_must_be_an_object (Site := string)
                    {| status_code := 502; body := None |}) eq_refl); cbn; lia.
Defined.

Section Comprehension.
Context {A B : Type} (f : A -> res B).

Lemma comprehension_ok (l : list A) (ys : list B) :
  comprehension f l = Ok ys <-> Forall2 (fun x y => f x = Ok y) l ys.
Proof.
  revert ys. induction l as [ | x l IHl]; intros ys; cbn [comprehension].
  - split.
    + intros [= <-]. constructor.
    + intros Hall. inversion Hall. reflexivity.
  - split.
    + destruct (f x) as [y | e] eqn:Hx; [ | discriminate]. cbn [Py.bind].
      destruct (comprehension f l) as [ys' | e] eqn:Hl; [ | discriminate].
      cbn [Py.bind]. intros [= <-]. constructor; [exact Hx | now apply IHl].
    + intros Hall. inversion Hall as [ | x' y l' ys' Hx Hrest]; subst.
      rewrite Hx. cbn [Py.bind].
      apply IHl in Hrest. rewrite Hrest. reflexivity.
Qed.

Lemma comprehension_first_failure (pre rest : list A) (x : A) (e : exn) :
  Forall (fun a => exists b, f a = Ok b) pre -> f x = Raise e ->
  comprehension f (pre ++ x :: rest)%list = Raise e.
Proof.
  intros Hpre Hx. induction Hpre as [ | a pre (b & Ha) _ IH]; cbn [app comprehension].
  - now rewrite Hx.
  - rewrite Ha. cbn [Py.bind]. now rewrite IH.
Qed.

End Comprehension.

(** X6.  A listing is all or nothing.  On a 200 whose [sites] entry is an
    array, [sites.list] returns exactly when every element validates, one
    site per element and in the same order; the first element that is not a
    JSON object or fails validation ends the call with its exception, and
    the sites before it are not returned. *)
Theorem listing_is_all_or_nothing {Site : Type} `{Model Site}
        (r : Response) (d : dict) (items : list value) :
  status_code r = 200 -> body r = Some (VDict d) ->
  dict_get "sites" d = Some (VList items) ->
  (forall sites, AsyncSitesAPI.list_ r = Ok sites <->
                 Forall2 (fun item s => construct item = Ok s) items sites)
  /\ (forall sites, AsyncSitesAPI.list_ r = Ok sites -> length sites = length items)
  /\ (forall (pre : list value) (item : value) (rest : list value) (e : exn),
         items = (pre ++ item :: rest)%list ->
         Forall (fun x => exists s : Site, construct x = Ok s) pre ->
         construct (T := Site) item = Raise e ->
         AsyncSitesAPI.list_ (Site := Site) r = Raise e).
Proof.
  intros Hs Hb Hd.
  assert (Hrun : AsyncSitesAPI.list_ (Site := Site) r = comprehension construct items).
  { unfold AsyncSitesAPI.list_. rewrite status_guard_pass by exact Hs.
    unfold json. rewrite Hb. cbn [Py.bind Py.getitem]. now rewrite Hd. }
  rewrite Hrun. repeat apply conj.
  - intros sites. apply comprehension_ok.
  - intros sites Hok. apply comprehension_ok in Hok.
    symmetry. exact (Forall2_length Hok).
  - intros pre item rest e -> Hpre Hitem. now apply comprehension_first_failure.
Qed.

(** Two sites, the second without a name. *)
Lemma listing_is_all_or_nothing_witness :
  AsyncSitesAPI.list_ (Site := string)
    {| status_code := 200;
       body := Some (VDict [("sites", VList [VDict [("name", VStr "hq")];
                                             VDict [("location", VStr "Oslo")]])]) |}
  = Raise PydanticValidationError.
Proof.
  refine (proj2 (proj2 (listing_is_all_or_nothing (Site := string)
            {| status_code := 200;
               body := Some (VDict [("sites", VList [VDict [("name", VStr "hq")];
                                                     VDict [("location", VStr "Oslo")]])]) |}
            [("sites", VList [VDict [("name", VStr "hq")];
                              VDict [("location", VStr "Oslo")]])]
            [VDict [("name", VStr "hq")]; VDict [("location", VStr "Oslo")]]
            eq_refl eq_refl eq_refl))
          [VDict [("name", VStr "hq")]] (VDict [("location", VStr "Oslo")]) []
          PydanticValidationError eq_refl _ eq_refl).
  constructor; [now exists "hq" | constructor].
Defined.

(** X7.  The tunnel operations keep the same contract as the site ones:
    [tunnels.list] returns only on 200 and reads the collection under
    [tunnels], [tunnels.create] returns only on 201, and with any other
    status and a JSON object as body both raise the exception
    [_handle_error] selects. *)
Theorem async_tunnels_status_contract {Tunnel : Type} `{Model Tunnel} (r : Response) :
  (forall ts : list Tunnel,
      AsyncTunnelsAPI.list_ r = Ok ts <->
      status_code r = 200 /\
      exists d v items, body r = Some (VDict d) /\ dict_get "tunnels" d = Some v
                        /\ iter v = Ok items
                        /\ comprehension construct items = Ok ts)
  /\ (forall t : Tunnel,
        AsyncTunnelsAPI.create r = Ok t <->
        status_code r = 201 /\ exists d, body r = Some (VDict d) /\ validate d = Some t)
  /\ (forall d, body r = Some (VDict d) ->
        (status_code r <> 200 ->
         AsyncTunnelsAPI.list_ (Tunnel := Tunnel) r
         = @_handle_error (list Tunnel) (status_code r) (VDict d))
        /\ (status_code r <> 201 ->
            AsyncTunnelsAPI.create (Tunnel := Tunnel) r
            = @_handle_error Tunnel (status_code r) (VDict d))).
Proof.
  repeat apply conj.
  - intros ts; split.
    + intros Hok.
      destruct (Z.eq_dec (status_code r) 200) as [Hs | Hs];
        [ | exfalso; exact (status_guard_no_result _ r _ _ _ Hs Hok)].
      split; [exact Hs | ].
      unfold AsyncTunnelsAPI.list_ in Hok.
      rewrite status_guard_pass in Hok by exact Hs.
      unfold json in Hok. destruct (body r) as [data | ]; [ | discriminate].
      cbn [Py.bind] in Hok.
      destruct data as [ | | | | | d]; try discriminate.
      cbn [Py.getitem] in Hok.
      destruct (dict_get "tunnels" d) as [v | ] eqn:Hd; [ | discriminate].
      cbn [Py.bind] in Hok.
      destruct (iter v) as [items | ] eqn:Hit; [ | discriminate].
      cbn [Py.bind] in Hok.
      exists d, v, items. repeat split; assumption.
    + intros (Hs & d & v & items & Hb & Hd & Hit & Hc).
      unfold AsyncTunnelsAPI.list_. rewrite status_guard_pass by exact Hs.
      unfold json. rewrite Hb. cbn [Py.bind Py.getitem]. rewrite Hd.
      cbn [Py.bind]. rewrite Hit. exact Hc.
  - intros t; split.
    + intros Hok.
      destruct (Z.eq_dec (status_code r) 201) as [Hs | Hs];
        [ | exfalso; exact (status_guard_no_result _ r _ _ _ Hs Hok)].
      split; [exact Hs | ].
      unfold AsyncTunnelsAPI.create in Hok.
      rewrite status_guard_pass in Hok by exact Hs.
      unfold json in Hok. destruct (body r) as [data | ]; [ | discriminate].
      cbn [Py.bind] in Hok. apply construct_ok in Hok.
      destruct Hok as (d & -> & Hv). now exists d.
    + intros (Hs & d & Hb & Hv).
      unfold AsyncTunnelsAPI.create. rewrite status_guard_pass by exact Hs.
      unfold json. rewrite Hb. cbn [Py.bind]. apply construct_ok. now exists d.
  - intros d Hb. split; intros Hs.
    + unfold AsyncTunnelsAPI.list_. rewrite status_guard_fail by exact Hs.
      unfold json. now rewrite Hb.
    + unfold AsyncTunnelsAPI.create. rewrite status_guard_fail by exact Hs.
      unfold json. now rewrite Hb.
Qed.

(** A created tunnel, and a listing refused with 429. *)
Lemma async_tunnels_status_contract_witness :
  AsyncTunnelsAPI.create (Tunnel := string)
    {| status_code := 201; body := Some (tunnel_named "hq-to-branch-1") |}
  = Ok "hq-to-branch-1"
  /\ AsyncTunnelsAPI.list_ (Tunnel := string)
       {| status_code := 429;
          body := Some (VDict [("error", VStr "too many requests")]) |}
     = Raise (RateLimitError (VStr "too many requests") (Some 429)
                (Some (VDict [("error", VStr "too many requests")]))).
Proof.
  split.
  - apply (proj1 (proj2 (async_tunnels_status_contract (Tunnel := string)
                           {| status_code := 201;
                              body := Some (tunnel_named "hq-to-branch-1") |}))).
    split; [reflexivity | ]. eexists. split; reflexivity.
  - rewrite (proj1 (proj2 (proj2 (async_tunnels_status_contract (Tunnel := string)
                {| status_code := 429;
                   body := Some (VDict [("error", VStr "too many requests")]) |}))
               _ eq_refl)); [reflexivity | cbn; lia].
Defined.

(* ===================================================================== *)
(** * Further properties of the generated documents *)
(* ===================================================================== *)

Lemma included_opt_ints (o : option (list Z)) (v : value) :
  included (opt_ints o) = Some v <->
  exists l, o = Some l /\ l <> [] /\ v = VList (map VInt l).
Proof.
  unfold included. destruct o as [[ | z l] | ]; cbn.
  - split; [discriminate | ]. intros (l & [= <-] & Hne & _). contradiction.
  - split.
    + intros [= <-]. exists (z :: l). repeat split. discriminate.
    + now intros (l' & [= <-] & _ & ->).
  - split; [discriminate | ]. now intros (l & Hl & _).
Qed.

(** The mapping two guarded assignments build from nothing. *)
Lemma two_guarded_entries (k1 k2 : string) (v1 v2 : value) :
  String.eqb k2 k1 = false ->
  set_if k2 v2 (set_if k1 v1 []) = (opt_entry k1 v1 ++ opt_entry k2 v2)%list.
Proof.
  intros Hk. unfold set_if, opt_entry.
  destruct (truthy v1), (truthy v2); cbn [dict_set app]; try reflexivity.
  now rewrite Hk.
Qed.

Lemma truthy_dict (d : dict) : truthy (VDict d) = negb (Nat.eqb (length d) 0).
Proof. now destruct d. Qed.

(** X8.  In a firewall document the keys [interface], [direction] and
    [protocol] are bound exactly when the parameter was given with a
    non-empty string, and then to that string. *)
Theorem firewall_optional_scalars (p : FirewallRule.Params) :
  let spec := spec_dict (FirewallRule.generate_config p) in
  (forall v, dict_get "interface" spec = Some v <->
             exists s, FirewallRule.interface p = Some s /\ s <> "" /\ v = VStr s)
  /\ (forall v, dict_get "direction" spec = Some v <->
                exists s, FirewallRule.direction p = Some s /\ s <> "" /\ v = VStr s)
  /\ (forall v, dict_get "protocol" spec = Some v <->
                exists s, FirewallRule.protocol p = Some s /\ s <> "" /\ v = VStr s).
Proof.
  assert (H : let spec := spec_dict (FirewallRule.generate_config p) in
              dict_get "interface" spec = included (opt_str (FirewallRule.interface p))
              /\ dict_get "direction" spec = included (opt_str (FirewallRule.direction p))
              /\ dict_get "protocol" spec = included (opt_str (FirewallRule.protocol p))).
  { unfold FirewallRule.generate_config. repeat apply conj; lookup_in_spec. }
  cbv zeta in *. destruct H as (H1 & H2 & H3). rewrite H1, H2, H3.
  repeat apply conj; intros v; apply included_opt_str.
Qed.

(** X9.  The [source] and [destination] entries of a firewall spec: each
    is there exactly when the address is a non-empty string or the port
    list is non-empty, it then holds the non-empty ones of [address] and
    [ports], in this order, and nothing else; an empty mapping is never
    written. *)
Theorem firewall_endpoints (p : FirewallRule.Params) :
  let spec := spec_dict (FirewallRule.generate_config p) in
  let endpoint address ports :=
    (opt_entry "address" (opt_str address) ++ opt_entry "ports" (opt_ints ports))%list in
  let entry d := match d with [] => None | _ => Some (VDict d) end in
  dict_get "source" spec
  = entry (endpoint (FirewallRule.source_address p) (FirewallRule.source_ports p))
  /\ dict_get "destination" spec
     = entry (endpoint (FirewallRule.dest_address p) (FirewallRule.dest_ports p))
  /\ dict_get "source" spec <> Some (VDict [])
  /\ dict_get "destination" spec <> Some (VDict []).
Proof.
  cbv zeta.
  assert (Hs : dict_get "source" (spec_dict (FirewallRule.generate_config p))
               = match (opt_entry "address" (opt_str (FirewallRule.source_address p))
                        ++ opt_entry "ports" (opt_ints (FirewallRule.source_ports p)))%list
                 with [] => None | d => Some (VDict d) end).
  { unfold FirewallRule.generate_config. cbv zeta.
    rewrite !two_guarded_entries by reflexivity.
    cbn [spec_dict spec_of dict_get String.eqb Ascii.eqb Bool.eqb].
    rewrite !dict_get_set_if.
    cbn [dict_get String.eqb Ascii.eqb Bool.eqb andb].
    destruct (opt_entry "address" _ ++ opt_entry "ports" _)%list; reflexivity. }
  assert (Hd : dict_get "destination" (spec_dict (FirewallRule.generate_config p))
               = match (opt_entry "address" (opt_str (FirewallRule.dest_address p))
                        ++ opt_entry "ports" (opt_ints (FirewallRule.dest_ports p)))%list
                 with [] => None | d => Some (VDict d) end).
  { unfold FirewallRule.generate_config. cbv zeta.
    rewrite !two_guarded_entries by reflexivity.
    cbn [spec_dict spec_of dict_get String.eqb Ascii.eqb Bool.eqb].
    rewrite !dict_get_set_if.
    cbn [dict_get String.eqb Ascii.eqb Bool.eqb andb].
    destruct (opt_entry "address" (opt_str (FirewallRule.dest_address p))
              ++ opt_entry "ports" _)%list; reflexivity. }
  rewrite Hs, Hd.
  repeat apply conj;
    match goal with
    | |- context [match ?X with [] => _ | _ :: _ => _ end] => destruct X
    end;
    solve [reflexivity | discriminate].
Qed.

(** X10.  Head and required part of a generated document, in both
    modules: the four top-level keys come in the order [apiVersion],
    [kind], [metadata], [spec]; both kinds carry the API version
    [patronus.firewall/v1]; [metadata] is [name] followed by [description]
    when that was given non-empty, and nothing else; the three required
    spec keys are bound to their parameters, an empty string included. *)
Theorem document_head_and_required_fields :
  (forall p : FirewallRule.Params,
      exists spec,
        FirewallRule.generate_config p
        = VDict [("apiVersion", VStr "patronus.firewall/v1");
                 ("kind", VStr "FirewallRule");
                 ("metadata",
                  VDict (("name", VStr (FirewallRule.name p))
                           :: opt_entry "description"
                                (opt_str (FirewallRule.description p))));
                 ("spec", VDict spec)]
        /\ dict_get "action" spec = Some (VStr (FirewallRule.action p))
        /\ dict_get "log" spec = Some (VBool (FirewallRule.log p))
        /\ dict_get "enabled" spec = Some (VBool (FirewallRule.enabled p)))
  /\ (forall p : NatRule.Params,
        exists spec,
          NatRule.generate_config p
          = VDict [("apiVersion", VStr "patronus.firewall/v1");
                   ("kind", VStr "NatRule");
                   ("metadata",
                    VDict (("name", VStr (NatRule.name p))
                             :: opt_entry "description"
                                  (opt_str (NatRule.description p))));
                   ("spec", VDict spec)]
          /\ dict_get "nat_type" spec = Some (VStr (NatRule.nat_type p))
          /\ dict_get "interface" spec = Some (VStr (NatRule.interface p))
          /\ dict_get "enabled" spec = Some (VBool (NatRule.enabled p))).
Proof.
  assert (Hmeta : forall (n : string) (v : value),
             set_if "description" v [("name", VStr n)]
             = ("name", VStr n) :: opt_entry "description" v).
  { intros n v. unfold set_if, opt_entry. now destruct (truthy v). }
  split; intros p.
  - unfold FirewallRule.generate_config. cbv zeta. rewrite Hmeta.
    eexists. split; [reflexivity | ].
    repeat apply conj;
      rewrite ?dict_get_set_if;
      cbn [dict_get String.eqb Ascii.eqb Bool.eqb andb]; reflexivity.
  - unfold NatRule.generate_config. cbv zeta. rewrite Hmeta.
    eexists. split; [reflexivity | ].
    repeat apply conj;
      rewrite ?dict_get_set_if;
      cbn [dict_get String.eqb Ascii.eqb Bool.eqb andb]; reflexivity.
Qed.

Section SpecInvariant.

Lemma forallb_dict_set_keyed (f : string * value -> bool) (k : string) (v : value)
      (d : dict) :
  f (k, v) = true -> forallb f d = true -> forallb f (dict_set k v d) = true.
Proof.
  intros Hv. induction d as [ | [k0 v0] d IHd]; cbn.
  - now rewrite Hv.
  - intros Hd. apply andb_prop in Hd as [H0 Hd].
    destruct (String.eqb k k0) eqn:E; cbn.
    + apply String.eqb_eq in E; subst k0. now rewrite Hv, Hd.
    + now rewrite H0, IHd.
Qed.

Lemma forallb_set_if (f : string * value -> bool) (k : string) (v : value) (d : dict) :
  (truthy v = true -> f (k, v) = true) -> forallb f d = true ->
  forallb f (set_if k v d) = true.
Proof.
  unfold set_if. destruct (truthy v); [ | now intros].
  intros Hv Hd. now apply forallb_dict_set_keyed; [apply Hv | ].
Qed.

Lemma binding_ok_optional (allowed required : list string) (k : string) (v : value) :
  in_keys k allowed = true -> truthy v = true ->
  spec_binding_ok allowed required (k, v) = true.
Proof.
  intros Hk Hv. unfold spec_binding_ok. cbn [fst snd].
  now rewrite Hk, Hv, orb_true_r.
Qed.

End SpecInvariant.

Lemma spec_bindings_ok :
  (forall p : FirewallRule.Params,
      forallb (spec_binding_ok firewall_keys firewall_required)
              (spec_dict (FirewallRule.generate_config p)) = true)
  /\ (forall p : NatRule.Params,
        forallb (spec_binding_ok nat_keys nat_required)
                (spec_dict (NatRule.generate_config p)) = true).
Proof.
  split; intros p.
  - unfold FirewallRule.generate_config. cbv zeta.
    cbn [spec_dict spec_of dict_get String.eqb Ascii.eqb Bool.eqb].
    repeat (apply forallb_set_if;
            [intros Ht; apply binding_ok_optional; [reflexivity | exact Ht] | ]).
    reflexivity.
  - unfold NatRule.generate_config. cbv zeta.
    cbn [spec_dict spec_of dict_get String.eqb Ascii.eqb Bool.eqb].
    repeat (apply forallb_set_if;
            [intros Ht; apply binding_ok_optional; [reflexivity | exact Ht] | ]).
    reflexivity.
Qed.

Lemma in_keys_In (k : string) (ks : list string) : in_keys k ks = true -> In k ks.
Proof.
  unfold in_keys. intros Hk. apply existsb_exists in Hk as (k' & Hin & E).
  apply String.eqb_eq in E. now subst k'.
Qed.

(** X11.  Every binding of a generated spec sits under a key of the
    module's schema, and apart from the three required keys its value
    passed the [if] test: no optional key is ever bound to [None], to an
    empty string, to 0, or to an empty list or mapping.  Both modules. *)
Theorem spec_has_no_empty_optional_value :
  (forall (p : FirewallRule.Params) k v,
      In (k, v) (spec_dict (FirewallRule.generate_config p)) ->
      In k firewall_keys /\ (In k firewall_required \/ truthy v = true))
  /\ (forall (p : NatRule.Params) k v,
        In (k, v) (spec_dict (NatRule.generate_config p)) ->
        In k nat_keys /\ (In k nat_required \/ truthy v = true)).
Proof.
  split; intros p k v Hin.
  - pose proof (proj1 spec_bindings_ok p) as Hall.
    rewrite forallb_forall in Hall. specialize (Hall _ Hin).
    unfold spec_binding_ok in Hall. cbn [fst snd] in Hall.
    apply andb_prop in Hall as [Hk Hv]. split; [now apply in_keys_In | ].
    apply orb_prop in Hv as [Hv | Hv]; [left; now apply in_keys_In | now right].
  - pose proof (proj2 spec_bindings_ok p) as Hall.
    rewrite forallb_forall in Hall. specialize (Hall _ Hin).
    unfold spec_binding_ok in Hall. cbn [fst snd] in Hall.
    apply andb_prop in Hall as [Hk Hv]. split; [now apply in_keys_In | ].
    apply orb_prop in Hv as [Hv | Hv]; [left; now apply in_keys_In | now right].
Qed.

(** The port forwarding example: its [translation_port] binding. *)
Lemma spec_has_no_empty_optional_value_witness :
  In "translation_port" nat_keys
  /\ (In "translation_port" nat_required \/ truthy (VInt 80) = true).
Proof.
  apply (proj2 spec_has_no_empty_optional_value nat_web_server "translation_port" (VInt 80)).
  cbn. tauto.
Defined.

(* ===================================================================== *)
(** * Properties of the rule files' paths *)
(* ===================================================================== *)

(** X12.  The path string a module computes for a rule.  With an empty
    configuration directory it is the bare file name
    [FirewallRule-<name>.yaml] or [NatRule-<name>.yaml]; with a directory
    that ends in a slash the file name follows it directly; with any other
    directory exactly one slash is put between the two, so that a trailing
    slash on the directory changes nothing.  The path has a directory part
    whenever the configuration directory is not empty, and has none when it
    is empty and the name has no slash, which is where [write_config]
    raises.  For one directory the path string determines kind and name.
    (These are facts about the strings; the operating system may still
    resolve two of them to one file.) *)
Theorem rule_path_shape (cp : string) :
  (cp = "" ->
   forall n, FirewallRule.config_file_path cp n = "FirewallRule-" ++ n ++ ".yaml"
             /\ NatRule.config_file_path cp n = "NatRule-" ++ n ++ ".yaml")
  /\ (ends_with_slash cp = true ->
      forall n, FirewallRule.config_file_path cp n = cp ++ "FirewallRule-" ++ n ++ ".yaml"
                /\ NatRule.config_file_path cp n = cp ++ "NatRule-" ++ n ++ ".yaml")
  /\ (cp <> "" -> ends_with_slash cp = false ->
      forall n,
        FirewallRule.config_file_path cp n = cp ++ "/" ++ "FirewallRule-" ++ n ++ ".yaml"
        /\ NatRule.config_file_path cp n = cp ++ "/" ++ "NatRule-" ++ n ++ ".yaml"
        /\ FirewallRule.config_file_path (cp ++ "/") n = FirewallRule.config_file_path cp n
        /\ NatRule.config_file_path (cp ++ "/") n = NatRule.config_file_path cp n)
  /\ (cp <> "" ->
      forall n, os_path_dirname (FirewallRule.config_file_path cp n) <> ""
                /\ os_path_dirname (NatRule.config_file_path cp n) <> "")
  /\ (cp = "" ->
      forall n, upto_last_slash n = "" ->
                os_path_dirname (FirewallRule.config_file_path cp n) = ""
                /\ os_path_dirname (NatRule.config_file_path cp n) = "")
  /\ (forall n m, FirewallRule.config_file_path cp n = FirewallRule.config_file_path cp m ->
                  n = m)
  /\ (forall n m, NatRule.config_file_path cp n = NatRule.config_file_path cp m -> n = m)
  /\ (forall n m, FirewallRule.config_file_path cp n <> NatRule.config_file_path cp m).
Proof.
  assert (Hfw : forall c n, FirewallRule.config_file_path c n
                            = (if String.eqb c "" || ends_with_slash c
                               then c else c ++ "/")
                              ++ "FirewallRule-" ++ n ++ ".yaml").
  { intros c n. unfold FirewallRule.config_file_path.
    now rewrite os_path_join_relative by reflexivity. }
  assert (Hnat : forall c n, NatRule.config_file_path c n
                             = (if String.eqb c "" || ends_with_slash c
                                then c else c ++ "/")
                               ++ "NatRule-" ++ n ++ ".yaml").
  { intros c n. unfold NatRule.config_file_path.
    now rewrite os_path_join_relative by reflexivity. }
  assert (Hslash : forall c, ends_with_slash (c ++ "/") = true).
  { intros c. exact (ends_with_slash_app_slashes c 0). }
  repeat apply conj.
  - intros -> n. split; reflexivity.
  - intros He n. rewrite Hfw, Hnat, He, orb_true_r. split; reflexivity.
  - intros Hcp He n. apply String.eqb_neq in Hcp.
    rewrite !Hfw, !Hnat, Hslash, orb_true_r, Hcp, He. cbn [orb].
    rewrite !append_assoc. repeat split; reflexivity.
  - intros Hcp n. split;
      [now apply firewall_path_has_directory | now apply nat_path_has_directory].
  - intros -> n Hn. rewrite !dirname_empty_iff, Hfw, Hnat.
    cbn [String.eqb orb]. split.
    + change ("" ++ "FirewallRule-" ++ n ++ ".yaml")
        with ("FirewallRule-" ++ (n ++ ".yaml")).
      apply upto_last_slash_app. split; [reflexivity | ].
      apply upto_last_slash_app. split; [exact Hn | reflexivity].
    + change ("" ++ "NatRule-" ++ n ++ ".yaml") with ("NatRule-" ++ (n ++ ".yaml")).
      apply upto_last_slash_app. split; [reflexivity | ].
      apply upto_last_slash_app. split; [exact Hn | reflexivity].
  - intros n m E. rewrite !Hfw in E.
    apply append_inv_head, append_inv_head in E. now apply append_inv_tail in E.
  - intros n m E. rewrite !Hnat in E.
    apply append_inv_head, append_inv_head in E. now apply append_inv_tail in E.
  - intros n m E. rewrite Hfw, Hnat in E.
    apply append_inv_head in E. discriminate E.
Qed.

(** The default directory with and without a trailing slash, and the
    empty one. *)
Lemma rule_path_shape_witness :
  FirewallRule.config_file_path "/etc/patronus/config/" "allow-ssh"
  = FirewallRule.config_file_path "/etc/patronus/config" "allow-ssh"
  /\ FirewallRule.config_file_path "/etc/patronus/config" "allow-ssh"
     = "/etc/patronus/config/FirewallRule-allow-ssh.yaml"
  /\ os_path_dirname (FirewallRule.config_file_path "" "allow-ssh") = "".
Proof.
  destruct (rule_path_shape "/etc/patronus/config")
    as (_ & _ & Hplain & _).
  destruct (Hplain ltac:(discriminate) eq_refl "allow-ssh") as (Hp & _ & Hs & _).
  destruct (rule_path_shape "") as (_ & _ & _ & _ & Hempty & _).
  split; [exact Hs | ]. split; [exact Hp | ].
  exact (proj1 (Hempty eq_refl "allow-ssh" eq_refl)).
Defined.

(* ===================================================================== *)
(** * Further properties of the rule modules *)
(* ===================================================================== *)

Section FileSystem.
Context {text : Type} `{Yaml text}.
Import RuleFile.

Lemma read_some_file (fs : FS text) (path : string) :
  is_none (read_existing_config fs path) = false -> exists t, fs path = Some t.
Proof.
  unfold read_existing_config. destruct (fs path) as [t | ]; [now exists t | discriminate].
Qed.

Lemma delete_config_existing (fs : FS text) (path : string) :
  is_none (read_existing_config fs path) = false ->
  delete_config fs path = fs_update fs path None.
Proof.
  intros Hex. apply read_some_file in Hex as (t & Ht).
  unfold delete_config. now rewrite Ht.
Qed.

End FileSystem.

(** X14.  [state=absent] never raises and reports no rule, whatever the
    file holds.  When a document is read at the rule's path, the real run
    reports [changed=true] with the message [Deleted ...] and removes the
    file, the check-mode run reports the same and keeps it, and any run
    after the removal reports [changed=false] and changes nothing.  Both
    modules. *)
Theorem absent_removes_once {text : Type} `{Yaml text} :
  (forall cm (p : FirewallRule.Params) (fs : FS text),
      let path := FirewallRule.config_file_path
                    (FirewallRule.config_path p) (FirewallRule.name p) in
      FirewallRule.state p = absent ->
      (exists r fs', FirewallRule.main cm p fs = Ok (r, fs') /\ rule r = None)
      /\ (is_none (RuleFile.read_existing_config fs path) = false ->
          let deleted := {| changed := true;
                            message := "Deleted firewall rule '"
                                       ++ FirewallRule.name p ++ "'";
                            rule := None |} in
          FirewallRule.main false p fs = Ok (deleted, fs_update fs path None)
          /\ FirewallRule.main true p fs = Ok (deleted, fs)
          /\ exists r, FirewallRule.main cm p (fs_update fs path None)
                       = Ok (r, fs_update fs path None)
                       /\ changed r = false))
  /\ (forall cm (p : NatRule.Params) (fs : FS text),
        let path := NatRule.config_file_path (NatRule.config_path p) (NatRule.name p) in
        NatRule.state p = absent ->
        (exists r fs', NatRule.main cm p fs = Ok (r, fs') /\ rule r = None)
        /\ (is_none (RuleFile.read_existing_config fs path) = false ->
            let deleted := {| changed := true;
                              message := "Deleted NAT rule '" ++ NatRule.name p ++ "'";
                              rule := None |} in
            NatRule.main false p fs = Ok (deleted, fs_update fs path None)
            /\ NatRule.main true p fs = Ok (deleted, fs)
            /\ exists r, NatRule.main cm p (fs_update fs path None)
                         = Ok (r, fs_update fs path None)
                         /\ changed r = false)).
Proof.
  split; intros cm p fs path Hs; split.
  - open_main. rewrite Hs. destruct (negb _); now eexists _, _.
  - intros Hex. cbv zeta. repeat apply conj.
    + open_main. rewrite Hs. fold path. rewrite Hex. cbn [negb].
      now rewrite (delete_config_existing fs path Hex).
    + open_main. rewrite Hs. fold path. now rewrite Hex.
    + eexists; split.
      { apply firewall_already_absent; [exact Hs | apply read_removed]. }
      reflexivity.
  - open_main. rewrite Hs. destruct (negb _); now eexists _, _.
  - intros Hex. cbv zeta. repeat apply conj.
    + open_main. rewrite Hs. fold path. rewrite Hex. cbn [negb].
      now rewrite (delete_config_existing fs path Hex).
    + open_main. rewrite Hs. fold path. now rewrite Hex.
    + eexists; split.
      { apply nat_already_absent; [exact Hs | apply read_removed]. }
      reflexivity.
Qed.

(** Scenario C: the file of Scenario A is removed, once. *)
Lemma absent_removes_once_witness :
  let path := "/etc/patronus/config/FirewallRule-allow-ssh.yaml" in
  let fs : FS (option value) := fs_update no_files path (Some (Some scenario_A_document)) in
  let p := scenario_C "/etc/patronus/config" in
  FirewallRule.main false p fs
  = Ok ({| changed := true; message := "Deleted firewall rule 'allow-ssh'"; rule := None |},
        fs_update fs path None)
  /\ exists r, FirewallRule.main false p (fs_update fs path None)
               = Ok (r, fs_update fs path None) /\ changed r = false.
Proof.
  cbv zeta.
  destruct (proj1 absent_removes_once false (scenario_C "/etc/patronus/config")
              (fs_update no_files "/etc/patronus/config/FirewallRule-allow-ssh.yaml"
                 (Some (Some scenario_A_document))) eq_refl) as (_ & Hdel).
  destruct (Hdel eq_refl) as (Hreal & _ & Hagain).
  split; [exact Hreal | exact Hagain].
Defined.

(** X15.  [state=absent] over a file that cannot be read as a document, its
    text failing to parse or holding an empty YAML document, reports
    [changed=false] with the message [already absent] in either mode and
    leaves the file where it is.  Both modules. *)
Theorem absent_keeps_unreadable_file {text : Type} `{Yaml text} :
  (forall cm (p : FirewallRule.Params) (fs : FS text) (t : text),
      let path := FirewallRule.config_file_path
                    (FirewallRule.config_path p) (FirewallRule.name p) in
      FirewallRule.state p = absent ->
      fs path = Some t -> (safe_load t = None \/ safe_load t = Some VNone) ->
      FirewallRule.main cm p fs
      = Ok ({| changed := false;
               message := "Firewall rule '" ++ FirewallRule.name p ++ "' already absent";
               rule := None |}, fs))
  /\ (forall cm (p : NatRule.Params) (fs : FS text) (t : text),
        let path := NatRule.config_file_path (NatRule.config_path p) (NatRule.name p) in
        NatRule.state p = absent ->
        fs path = Some t -> (safe_load t = None \/ safe_load t = Some VNone) ->
        NatRule.main cm p fs
        = Ok ({| changed := false;
                 message := "NAT rule '" ++ NatRule.name p ++ "' already absent";
                 rule := None |}, fs)).
Proof.
  split; intros cm p fs t path Hs Hfile Hload.
  - apply firewall_already_absent; [exact Hs | ].
    unfold RuleFile.read_existing_config. fold path. rewrite Hfile.
    now destruct Hload as [-> | ->].
  - apply nat_already_absent; [exact Hs | ].
    unfold RuleFile.read_existing_config. fold path. rewrite Hfile.
    now destruct Hload as [-> | ->].
Qed.

Lemma absent_keeps_unreadable_file_witness :
  let path := "/etc/patronus/config/FirewallRule-allow-ssh.yaml" in
  let fs : FS (option value) := fs_update no_files path (Some None) in
  FirewallRule.main false (scenario_C "/etc/patronus/config") fs
  = Ok ({| changed := false;
           message := "Firewall rule 'allow-ssh' already absent";
           rule := None |}, fs)
  /\ fs path = Some None.
Proof.
  cbv zeta. split; [ | reflexivity].
  apply (proj1 absent_keeps_unreadable_file false (scenario_C "/etc/patronus/config")
           _ None); [reflexivity | reflexivity | now left].
Defined.

(** X16.  What a completed [state=present] run leaves behind, in both
    modules: the report always carries the desired document; when nothing
    changed the file system is the one it started from; when something
    changed the message says [Created] if no document could be read and
    [Updated] otherwise, and after a real run the rule's file holds the dump
    of the desired document. *)
Theorem present_run_outcome {text : Type} `{Yaml text} :
  (forall cm (p : FirewallRule.Params) (fs fs' : FS text) r,
      let path := FirewallRule.config_file_path
                    (FirewallRule.config_path p) (FirewallRule.name p) in
      FirewallRule.state p = present ->
      FirewallRule.main cm p fs = Ok (r, fs') ->
      rule r = Some (FirewallRule.generate_config p)
      /\ (changed r = false -> fs' = fs)
      /\ (changed r = true ->
          message r
          = (if is_none (RuleFile.read_existing_config fs path)
             then "Created firewall rule '" else "Updated firewall rule '")
            ++ FirewallRule.name p ++ "'")
      /\ (changed r = true -> cm = false ->
          fs' path = Some (dump (FirewallRule.generate_config p))))
  /\ (forall cm (p : NatRule.Params) (fs fs' : FS text) r,
        let path := NatRule.config_file_path (NatRule.config_path p) (NatRule.name p) in
        NatRule.state p = present ->
        NatRule.main cm p fs = Ok (r, fs') ->
        rule r = Some (NatRule.generate_config p)
        /\ (changed r = false -> fs' = fs)
        /\ (changed r = true ->
            message r
            = (if is_none (RuleFile.read_existing_config fs path)
               then "Created NAT rule '" else "Updated NAT rule '")
              ++ NatRule.name p ++ "'")
        /\ (changed r = true -> cm = false ->
            fs' path = Some (dump (NatRule.generate_config p)))).
Proof.
  split; intros cm p fs fs' r path Hs Hrun; open_main_in Hrun;
    rewrite Hs in Hrun; fold path in Hrun;
    (destruct (RuleFile.configs_equal _ _) as [[ | ] | e]; cbn [Py.bind] in Hrun;
     [injection Hrun as <- <-; cbn [rule changed message];
      repeat apply conj; try reflexivity; discriminate
     | | discriminate Hrun]);
    (destruct cm; cbn [Py.bind] in Hrun;
     [injection Hrun as <- <-; cbn [rule changed message];
      repeat apply conj; try reflexivity; try discriminate;
      intros _; now destruct (is_none _)
     | ]);
    (destruct (RuleFile.write_config fs path _) as [fsw | e] eqn:Hw;
     cbn [Py.bind] in Hrun; [ | discriminate Hrun]);
    injection Hrun as <- <-; apply write_config_inv in Hw as [_ ->];
    cbn [rule changed message];
    repeat apply conj; try reflexivity; try discriminate.
  - intros _. now destruct (is_none _).
  - intros _ _. unfold fs_update. now rewrite String.eqb_refl.
  - intros _. now destruct (is_none _).
  - intros _ _. unfold fs_update. now rewrite String.eqb_refl.
Qed.

(** Scenario A over the file of the disabled rule: an update. *)
Lemma present_run_outcome_witness :
  let path := "/etc/patronus/config/FirewallRule-allow-ssh.yaml" in
  let fs : FS (option value) :=
    fs_update no_files path
      (Some (Some (FirewallRule.generate_config
                     (scenario_A_disabled "/etc/patronus/config")))) in
  exists r fs',
    FirewallRule.main false (scenario_A "/etc/patronus/config") fs = Ok (r, fs')
    /\ message r = "Updated firewall rule 'allow-ssh'"
    /\ fs' path = Some (Some scenario_A_document).
Proof.
  cbv zeta.
  edestruct (proj1 present_run_outcome false (scenario_A "/etc/patronus/config")
               (fs_update no_files "/etc/patronus/config/FirewallRule-allow-ssh.yaml"
                  (Some (Some (FirewallRule.generate_config
                                 (scenario_A_disabled "/etc/patronus/config"))))))
    as (_ & _ & Hmsg & Hfile); [reflexivity | reflexivity | ].
  eexists _, _. split; [reflexivity | ].
  split; [exact (Hmsg eq_refl) | exact (Hfile eq_refl eq_refl)].
Defined.

Section Drift.

Lemma in_dict_set_other (k k' : string) (v v' : value) (d : dict) :
  In (k, v) d -> String.eqb k' k = false -> In (k, v) (dict_set k' v' d).
Proof.
  intros Hin Hk. induction d as [ | [k0 v0] d IHd]; [contradiction | ].
  cbn [dict_set]. destruct Hin as [[= -> ->] | Hin].
  - rewrite Hk. now left.
  - destruct (String.eqb k' k0); right; [exact Hin | now apply IHd].
Qed.

Lemma in_set_if_other (k k' : string) (v v' : value) (d : dict) :
  In (k, v) d -> String.eqb k' k = false -> In (k, v) (set_if k' v' d).
Proof.
  intros Hin Hk. unfold set_if.
  destruct (truthy v'); [now apply in_dict_set_other | exact Hin].
Qed.

Lemma py_eq_dict_differs (k : string) (v w : value) (d1 d2 : dict) :
  In (k, v) d1 -> dict_get k d2 = Some w -> py_eq v w = false ->
  py_eq (VDict d1) (VDict d2) = false.
Proof.
  intros Hin Hget Hne. rewrite py_eq_dict.
  apply andb_false_iff. right.
  apply not_true_is_false. intros Hall.
  rewrite forallb_forall in Hall. specialize (Hall _ Hin).
  cbn [fst snd] in Hall. rewrite Hget, Hne in Hall. discriminate Hall.
Qed.

Lemma firewall_enabled_entry (p : FirewallRule.Params) :
  exists m s,
    FirewallRule.generate_config p
    = VDict [("apiVersion", VStr "patronus.firewall/v1"); ("kind", VStr "FirewallRule");
             ("metadata", VDict m); ("spec", VDict s)]
    /\ dict_get "name" m = Some (VStr (FirewallRule.name p))
    /\ In ("enabled", VBool (FirewallRule.enabled p)) s
    /\ dict_get "enabled" s = Some (VBool (FirewallRule.enabled p)).
Proof.
  unfold FirewallRule.generate_config. cbv zeta.
  eexists _, _. split; [reflexivity | ]. repeat apply conj.
  - rewrite dict_get_set_if. reflexivity.
  - repeat (apply in_set_if_other; [ | reflexivity]). cbn. tauto.
  - rewrite !dict_get_set_if. reflexivity.
Qed.

Lemma nat_enabled_entry (p : NatRule.Params) :
  exists m s,
    NatRule.generate_config p
    = VDict [("apiVersion", VStr "patronus.firewall/v1"); ("kind", VStr "NatRule");
             ("metadata", VDict m); ("spec", VDict s)]
    /\ dict_get "name" m = Some (VStr (NatRule.name p))
    /\ In ("enabled", VBool (NatRule.enabled p)) s
    /\ dict_get "enabled" s = Some (VBool (NatRule.enabled p)).
Proof.
  unfold NatRule.generate_config. cbv zeta.
  eexists _, _. split; [reflexivity | ]. repeat apply conj.
  - rewrite dict_get_set_if. reflexivity.
  - repeat (apply in_set_if_other; [ | reflexivity]). cbn. tauto.
  - rewrite !dict_get_set_if. reflexivity.
Qed.

(** Two documents of the generated shape whose [enabled] flags differ are
    not equal for [configs_equal], whatever their names. *)
Lemma configs_differ_on_enabled (av kd av' kd' : value) (m m' s s' : dict)
      (n n' : string) (b b' : bool) :
  dict_get "name" m = Some (VStr n) -> dict_get "name" m' = Some (VStr n') ->
  In ("enabled", VBool b) s -> dict_get "enabled" s' = Some (VBool b') -> b <> b' ->
  RuleFile.configs_equal
    (VDict [("apiVersion", av); ("kind", kd); ("metadata", VDict m); ("spec", VDict s)])
    (VDict [("apiVersion", av'); ("kind", kd'); ("metadata", VDict m'); ("spec", VDict s')])
  = Ok false.
Proof.
  intros Hm Hm' Hin Hget Hb.
  unfold RuleFile.configs_equal, RuleFile.metadata_name.
  cbn [is_none orb Py.get Py.bind dict_get String.eqb Ascii.eqb Bool.eqb].
  rewrite Hm, Hm'. cbn [Py.bind].
  destruct (py_eq (VStr n) (VStr n')); [ | reflexivity].
  rewrite (py_eq_dict_differs "enabled" (VBool b) (VBool b') s s' Hin Hget);
    [reflexivity | ].
  cbn [py_eq]. destruct b, b'; try reflexivity; now destruct Hb.
Qed.

End Drift.

(** X17.  Drift in [enabled] is detected.  When the file holds the document
    generated from parameters whose [enabled] flag is the other one, a
    [state=present] run reports [changed=true] with the message
    [Updated ...]: check mode reports it and leaves the file, and a real
    run that completes reports it and has overwritten the file with the
    desired document.  A real run fails only in the write, as it does with
    [FileNotFoundError] when the path has no directory part.  Both
    modules. *)
Theorem enabled_drift_is_updated {text : Type} `{Yaml text} :
  (forall (p q : FirewallRule.Params) (fs : FS text),
      let path := FirewallRule.config_file_path (FirewallRule.config_path p) (FirewallRule.name p) in
      let updated := {| changed := true;
                        message := "Updated firewall rule '" ++ FirewallRule.name p ++ "'";
                        rule := Some (FirewallRule.generate_config p) |} in
      FirewallRule.state p = present ->
      RuleFile.read_existing_config fs path = FirewallRule.generate_config q ->
      FirewallRule.enabled q <> FirewallRule.enabled p ->
      FirewallRule.main true p fs = Ok (updated, fs)
      /\ (forall r fs', FirewallRule.main false p fs = Ok (r, fs') ->
                        r = updated
                        /\ fs' = fs_update fs path
                                   (Some (dump (FirewallRule.generate_config p))))
      /\ (forall e, FirewallRule.main false p fs = Raise e ->
                    RuleFile.write_config fs path (FirewallRule.generate_config p) = Raise e)
      /\ (os_path_dirname path = "" ->
          FirewallRule.main false p fs = Raise FileNotFoundError))
  /\ (forall (p q : NatRule.Params) (fs : FS text),
      let path := NatRule.config_file_path (NatRule.config_path p) (NatRule.name p) in
      let updated := {| changed := true;
                        message := "Updated NAT rule '" ++ NatRule.name p ++ "'";
                        rule := Some (NatRule.generate_config p) |} in
      NatRule.state p = present ->
      RuleFile.read_existing_config fs path = NatRule.generate_config q ->
      NatRule.enabled q <> NatRule.enabled p ->
      NatRule.main true p fs = Ok (updated, fs)
      /\ (forall r fs', NatRule.main false p fs = Ok (r, fs') ->
                        r = updated
                        /\ fs' = fs_update fs path
                                   (Some (dump (NatRule.generate_config p))))
      /\ (forall e, NatRule.main false p fs = Raise e ->
                    RuleFile.write_config fs path (NatRule.generate_config p) = Raise e)
      /\ (os_path_dirname path = "" ->
          NatRule.main false p fs = Raise FileNotFoundError)).
Proof.
  split; intros p q fs path updated Hs Hread Hen.
  - assert (Hrun : forall cm,
               FirewallRule.main cm p fs
               = (fs' <- (if cm then Ok fs
                          else RuleFile.write_config fs path (FirewallRule.generate_config p)) ;;
                  Ok (updated, fs'))).
    { intros cm. open_main. rewrite Hs. fold path. rewrite Hread.
      destruct (firewall_enabled_entry q) as (mq & sq & Eq & Hmq & Hinq & _).
      destruct (firewall_enabled_entry p) as (mp & sp & Ep & Hmp & _ & Hgetp).
      rewrite Eq, Ep at 1.
      rewrite (configs_differ_on_enabled _ _ _ _ _ _ _ _ _ _ _ _ Hmq Hmp Hinq Hgetp Hen).
      reflexivity. }
    repeat apply conj.
    + now rewrite Hrun.
    + intros r fs'. rewrite Hrun.
      destruct (RuleFile.write_config fs path _) as [fsw | ew] eqn:Hw;
        cbn [Py.bind]; [ | discriminate].
      intros [= <- <-]. apply write_config_inv in Hw as [_ ->]. now split.
    + intros e. rewrite Hrun.
      destruct (RuleFile.write_config fs path _) as [fsw | ew];
        cbn [Py.bind]; [discriminate | now intros [= <-]].
    + intros Hd. now rewrite Hrun, write_config_fails.
  - assert (Hrun : forall cm,
               NatRule.main cm p fs
               = (fs' <- (if cm then Ok fs
                          else RuleFile.write_config fs path (NatRule.generate_config p)) ;;
                  Ok (updated, fs'))).
    { intros cm. open_main. rewrite Hs. fold path. rewrite Hread.
      destruct (nat_enabled_entry q) as (mq & sq & Eq & Hmq & Hinq & _).
      destruct (nat_enabled_entry p) as (mp & sp & Ep & Hmp & _ & Hgetp).
      rewrite Eq, Ep at 1.
      rewrite (configs_differ_on_enabled _ _ _ _ _ _ _ _ _ _ _ _ Hmq Hmp Hinq Hgetp Hen).
      reflexivity. }
    repeat apply conj.
    + now rewrite Hrun.
    + intros r fs'. rewrite Hrun.
      destruct (RuleFile.write_config fs path _) as [fsw | ew] eqn:Hw;
        cbn [Py.bind]; [ | discriminate].
      intros [= <- <-]. apply write_config_inv in Hw as [_ ->]. now split.
    + intros e. rewrite Hrun.
      destruct (RuleFile.write_config fs path _) as [fsw | ew];
        cbn [Py.bind]; [discriminate | now intros [= <-]].
    + intros Hd. now rewrite Hrun, write_config_fails.
Qed.

Lemma enabled_drift_is_updated_witness :
  let path := "/etc/patronus/config/FirewallRule-allow-ssh.yaml" in
  let fs : FS (option value) :=
    fs_update no_files path
      (Some (Some (FirewallRule.generate_config
                     (scenario_A_disabled "/etc/patronus/config")))) in
  let updated := {| changed := true;
                    message := "Updated firewall rule 'allow-ssh'";
                    rule := Some scenario_A_document |} in
  FirewallRule.main true (scenario_A "/etc/patronus/config") fs = Ok (updated, fs)
  /\ exists r fs',
       FirewallRule.main false (scenario_A "/etc/patronus/config") fs = Ok (r, fs')
       /\ r = updated
       /\ fs' = fs_update fs path (Some (Some scenario_A_document)).
Proof.
  cbv zeta.
  destruct (proj1 (enabled_drift_is_updated (text := option value))
              (scenario_A "/etc/patronus/config")
              (scenario_A_disabled "/etc/patronus/config")
              (fs_update no_files "/etc/patronus/config/FirewallRule-allow-ssh.yaml"
                 (Some (Some (FirewallRule.generate_config
                                (scenario_A_disabled "/etc/patronus/config"))))))
    as (Hcheck & Hreal & _); [reflexivity | reflexivity | discriminate | ].
  split; [exact Hcheck | ].
  eexists _, _. split; [reflexivity | ].
  exact (Hreal _ _ eq_refl).
Defined.

Section ComparisonEdges.
Import RuleFile.

Lemma metadata_name_comparable (c : value) :
  comparable c = true -> exists n, metadata_name c = Ok n.
Proof.
  destruct c as [ | | | | | d]; try discriminate. cbn.
  destruct (dict_get "metadata" d) as [[ | | | | | m] | ]; try discriminate;
    intros _; cbn; eexists; reflexivity.
Qed.

Lemma metadata_name_not_comparable (c : value) :
  comparable c = false -> metadata_name c = Raise AttributeError.
Proof.
  destruct c as [ | | | | | d]; try reflexivity. cbn.
  destruct (dict_get "metadata" d) as [[ | | | | | m] | ]; try discriminate;
    reflexivity.
Qed.

Lemma comparable_get_spec (c : value) :
  comparable c = true -> exists s, Py.get c "spec" VNone = Ok s.
Proof.
  destruct c as [ | | | | | d]; try discriminate. intros _. cbn. eexists; reflexivity.
Qed.

Lemma configs_equal_comparable (c1 c2 : value) :
  comparable c1 = true -> comparable c2 = true -> exists b, configs_equal c1 c2 = Ok b.
Proof.
  intros H1 H2. unfold configs_equal.
  destruct (is_none c1 || is_none c2); [eexists; reflexivity | ].
  destruct (metadata_name_comparable c1 H1) as (n1 & ->).
  destruct (metadata_name_comparable c2 H2) as (n2 & ->).
  cbn [Py.bind]. destruct (py_eq n1 n2); [ | eexists; reflexivity].
  destruct (comparable_get_spec c1 H1) as (s1 & ->).
  destruct (comparable_get_spec c2 H2) as (s2 & ->).
  cbn [Py.bind]. eexists; reflexivity.
Qed.

Lemma configs_equal_not_comparable (c1 c2 : value) :
  is_none c1 = false -> is_none c2 = false ->
  comparable c1 && comparable c2 = false ->
  configs_equal c1 c2 = Raise AttributeError.
Proof.
  intros N1 N2 Hc. unfold configs_equal. rewrite N1, N2. cbn [orb].
  destruct (comparable c1) eqn:H1.
  - destruct (metadata_name_comparable c1 H1) as (n1 & ->). cbn [Py.bind].
    cbn [andb] in Hc. now rewrite (metadata_name_not_comparable c2 Hc).
  - now rewrite (metadata_name_not_comparable c1 H1).
Qed.

End ComparisonEdges.

(** X18.  When [configs_equal] answers and when it raises.  If one of the
    two configurations is [None] it answers, [True] only when both are.
    Otherwise it answers exactly when both are mappings whose [metadata]
    entry, if there is one, is a mapping; in every other case, a list or a
    scalar for a document or for its metadata, it raises [AttributeError],
    and it raises nothing else. *)
Theorem configs_equal_answers_or_raises (c1 c2 : value) :
  (is_none c1 || is_none c2 = true ->
   RuleFile.configs_equal c1 c2 = Ok (is_none c1 && is_none c2))
  /\ (is_none c1 || is_none c2 = false ->
      (comparable c1 && comparable c2 = true <->
       exists b, RuleFile.configs_equal c1 c2 = Ok b)
      /\ (comparable c1 && comparable c2 = false <->
          RuleFile.configs_equal c1 c2 = Raise AttributeError))
  /\ (forall e, RuleFile.configs_equal c1 c2 = Raise e -> e = AttributeError).
Proof.
  assert (Hnone : is_none c1 || is_none c2 = true ->
                  RuleFile.configs_equal c1 c2 = Ok (is_none c1 && is_none c2)).
  { intros Hn. unfold RuleFile.configs_equal. rewrite Hn.
    destruct c1, c2; try discriminate Hn; reflexivity. }
  assert (Hsome : is_none c1 || is_none c2 = false ->
                  (comparable c1 && comparable c2 = true ->
                   exists b, RuleFile.configs_equal c1 c2 = Ok b)
                  /\ (comparable c1 && comparable c2 = false ->
                      RuleFile.configs_equal c1 c2 = Raise AttributeError)).
  { intros Hn. apply orb_false_iff in Hn as [N1 N2]. split.
    - intros Hc. apply andb_prop in Hc as [H1 H2].
      now apply configs_equal_comparable.
    - now apply configs_equal_not_comparable. }
  split; [exact Hnone | ]. split.
  - intros Hn. destruct (Hsome Hn) as [Hok Hraise]. split; split.
    + exact Hok.
    + intros (b & Hb). destruct (comparable c1 && comparable c2); [reflexivity | ].
      rewrite Hraise in Hb by reflexivity. discriminate Hb.
    + exact Hraise.
    + intros Hr. destruct (comparable c1 && comparable c2); [ | reflexivity].
      destruct (Hok eq_refl) as (b & Hb). rewrite Hb in Hr. discriminate Hr.
  - intros e He. destruct (is_none c1 || is_none c2) eqn:Hn.
    + rewrite (Hnone eq_refl) in He. discriminate He.
    + destruct (Hsome eq_refl) as [Hok Hraise].
      destruct (comparable c1 && comparable c2).
      * destruct (Hok eq_refl) as (b & Hb). rewrite Hb in He. discriminate He.
      * rewrite (Hraise eq_refl) in He. now injection He as <-.
Qed.

(** A document whose [metadata] is a string, against Scenario A's. *)
Lemma configs_equal_answers_or_raises_witness :
  RuleFile.configs_equal
    (VDict [("metadata", VStr "allow-ssh"); ("spec", VDict [])]) scenario_A_document
  = Raise AttributeError
  /\ RuleFile.configs_equal VNone scenario_A_document = Ok false.
Proof.
  destruct (configs_equal_answers_or_raises
              (VDict [("metadata", VStr "allow-ssh"); ("spec", VDict [])])
              scenario_A_document) as (_ & Hsome & _).
  destruct (configs_equal_answers_or_raises VNone scenario_A_document) as (Hnone & _).
  split.
  - apply (proj2 (Hsome eq_refl)). reflexivity.
  - exact (Hnone eq_refl).
Defined.

(** X19.  When a [state=present] run fails.  It raises [AttributeError]
    exactly on a foreign document, a file that parses to something other
    than [None] that is not a mapping, or to a mapping whose [metadata] is
    not one.  On every other document, or none, the run in check mode
    completes, and the real run completes unless the write itself fails,
    with the exception of the write.  Both modules. *)
Theorem present_fails_on_foreign_document {text : Type} `{Yaml text} :
  (forall cm (p : FirewallRule.Params) (fs : FS text),
      let path := FirewallRule.config_file_path (FirewallRule.config_path p) (FirewallRule.name p) in
      let existing := RuleFile.read_existing_config fs path in
      FirewallRule.state p = present ->
      (FirewallRule.main cm p fs = Raise AttributeError <->
       is_none existing = false /\ comparable existing = false)
      /\ (is_none existing = true \/ comparable existing = true ->
          (exists r, FirewallRule.main true p fs = Ok (r, fs))
          /\ ((exists r fs', FirewallRule.main false p fs = Ok (r, fs'))
              \/ (exists e,
                     RuleFile.write_config fs path (FirewallRule.generate_config p) = Raise e
                     /\ FirewallRule.main false p fs = Raise e))))
  /\ (forall cm (p : NatRule.Params) (fs : FS text),
      let path := NatRule.config_file_path (NatRule.config_path p) (NatRule.name p) in
      let existing := RuleFile.read_existing_config fs path in
      NatRule.state p = present ->
      (NatRule.main cm p fs = Raise AttributeError <->
       is_none existing = false /\ comparable existing = false)
      /\ (is_none existing = true \/ comparable existing = true ->
          (exists r, NatRule.main true p fs = Ok (r, fs))
          /\ ((exists r fs', NatRule.main false p fs = Ok (r, fs'))
              \/ (exists e,
                     RuleFile.write_config fs path (NatRule.generate_config p) = Raise e
                     /\ NatRule.main false p fs = Raise e)))).
Proof.
  split; intros cm p fs path existing Hs.
  - destruct (firewall_document_shape p) as (m & s & E & _).
    assert (Hd : is_none (FirewallRule.generate_config p) = false
                 /\ comparable (FirewallRule.generate_config p) = true)
      by (rewrite E; split; reflexivity).
    destruct Hd as [Hdn Hdc].
    assert (Hforeign : forall c, is_none existing = false /\ comparable existing = false ->
                                 FirewallRule.main c p fs = Raise AttributeError).
    { intros c [Hn Hc]. open_main. rewrite Hs. fold path existing.
      rewrite configs_equal_not_comparable; [reflexivity | exact Hn | exact Hdn | ].
      now rewrite Hc. }
    assert (Hknown : is_none existing = true \/ comparable existing = true ->
                     exists b, RuleFile.configs_equal existing
                                 (FirewallRule.generate_config p) = Ok b).
    { intros [Hn | Hc].
      - unfold RuleFile.configs_equal. rewrite Hn. eexists; reflexivity.
      - now apply configs_equal_comparable. }
    assert (Hcases : (is_none existing = false /\ comparable existing = false)
                     \/ (is_none existing = true \/ comparable existing = true)).
    { destruct (is_none existing), (comparable existing); tauto. }
    assert (Hcheck : is_none existing = true \/ comparable existing = true ->
                     exists r, FirewallRule.main true p fs = Ok (r, fs)).
    { intros Hok. destruct (Hknown Hok) as (b & Hb).
      open_main. rewrite Hs. fold path existing. rewrite Hb. cbn [Py.bind].
      destruct b; now eexists. }
    assert (Hreal : is_none existing = true \/ comparable existing = true ->
                    (exists r fs', FirewallRule.main false p fs = Ok (r, fs'))
                    \/ (exists e,
                           RuleFile.write_config fs path (FirewallRule.generate_config p)
                           = Raise e
                           /\ FirewallRule.main false p fs = Raise e)).
    { intros Hok. destruct (Hknown Hok) as (b & Hb).
      open_main. rewrite Hs. fold path existing. rewrite Hb. cbn [Py.bind].
      destruct b; [left; now eexists _, _ | ].
      destruct (RuleFile.write_config fs path _) as [fsw | ew]; cbn [Py.bind].
      - left. now eexists _, _.
      - right. now exists ew. }
    split; [split | ].
    + intros Hr. destruct Hcases as [Hf | Hok]; [exact Hf | ]. exfalso.
      destruct cm.
      * destruct (Hcheck Hok) as (r & Hr'). congruence.
      * destruct (Hreal Hok) as [(r & fs' & Hr') | (e & Hw & Hr')]; [congruence | ].
        rewrite Hr' in Hr. injection Hr as ->.
        apply write_config_raises in Hw as [Hw _]. discriminate Hw.
    + apply Hforeign.
    + intros Hok. split; [now apply Hcheck | now apply Hreal].
  - destruct (nat_document_shape p) as (m & s & E & _).
    assert (Hd : is_none (NatRule.generate_config p) = false
                 /\ comparable (NatRule.generate_config p) = true)
      by (rewrite E; split; reflexivity).
    destruct Hd as [Hdn Hdc].
    assert (Hforeign : forall c, is_none existing = false /\ comparable existing = false ->
                                 NatRule.main c p fs = Raise AttributeError).
    { intros c [Hn Hc]. open_main. rewrite Hs. fold path existing.
      rewrite configs_equal_not_comparable; [reflexivity | exact Hn | exact Hdn | ].
      now rewrite Hc. }
    assert (Hknown : is_none existing = true \/ comparable existing = true ->
                     exists b, RuleFile.configs_equal existing
                                 (NatRule.generate_config p) = Ok b).
    { intros [Hn | Hc].
      - unfold RuleFile.configs_equal. rewrite Hn. eexists; reflexivity.
      - now apply configs_equal_comparable. }
    assert (Hcases : (is_none existing = false /\ comparable existing = false)
                     \/ (is_none existing = true \/ comparable existing = true)).
    { destruct (is_none existing), (comparable existing); tauto. }
    assert (Hcheck : is_none existing = true \/ comparable existing = true ->
                     exists r, NatRule.main true p fs = Ok (r, fs)).
    { intros Hok. destruct (Hknown Hok) as (b & Hb).
      open_main. rewrite Hs. fold path existing. rewrite Hb. cbn [Py.bind].
      destruct b; now eexists. }
    assert (Hreal : is_none existing = true \/ comparable existing = true ->
                    (exists r fs', NatRule.main false p fs = Ok (r, fs'))
                    \/ (exists e,
                           RuleFile.write_config fs path (NatRule.generate_config p)
                           = Raise e
                           /\ NatRule.main false p fs = Raise e)).
    { intros Hok. destruct (Hknown Hok) as (b & Hb).
      open_main. rewrite Hs. fold path existing. rewrite Hb. cbn [Py.bind].
      destruct b; [left; now eexists _, _ | ].
      destruct (RuleFile.write_config fs path _) as [fsw | ew]; cbn [Py.bind].
      - left. now eexists _, _.
      - right. now exists ew. }
    split; [split | ].
    + intros Hr. destruct Hcases as [Hf | Hok]; [exact Hf | ]. exfalso.
      destruct cm.
      * destruct (Hcheck Hok) as (r & Hr'). congruence.
      * destruct (Hreal Hok) as [(r & fs' & Hr') | (e & Hw & Hr')]; [congruence | ].
        rewrite Hr' in Hr. injection Hr as ->.
        apply write_config_raises in Hw as [Hw _]. discriminate Hw.
    + apply Hforeign.
    + intros Hok. split; [now apply Hcheck | now apply Hreal].
Qed.

(** A file holding a YAML list of rules instead of one rule. *)
Lemma present_fails_on_foreign_document_witness :
  let path := "/etc/patronus/config/NatRule-web-server-nat.yaml" in
  let fs : FS (option value) :=
    fs_update no_files path
      (Some (Some (VList [NatRule.generate_config nat_web_server]))) in
  NatRule.main false nat_web_server fs = Raise AttributeError
  /\ exists r, NatRule.main true nat_web_server (no_files (text := option value))
               = Ok (r, no_files).
Proof.
  cbv zeta. split.
  - apply (proj1 (proj2 (present_fails_on_foreign_document (text := option value))
                    false nat_web_server _ eq_refl)).
    split; reflexivity.
  - apply (proj2 (proj2 (present_fails_on_foreign_document (text := option value))
                    false nat_web_server no_files eq_refl)).
    left; reflexivity.
Defined.

Section KeyOrder.

(** Two mappings with the same bindings in another order are equal for
    [==]. *)
Lemma py_eq_dict_permutation (d1 d2 : dict) :
  Permutation d1 d2 -> wf (VDict d2) = true -> py_eq (VDict d1) (VDict d2) = true.
Proof.
  intros Hperm Hwf. cbn [wf] in Hwf. apply andb_prop in Hwf as [Hnd Hall].
  rewrite py_eq_dict, (Permutation_length Hperm), Nat.eqb_refl. cbn [andb].
  rewrite forallb_forall in Hall.
  apply forallb_forall. intros [k v] Hin. cbn [fst snd].
  assert (Hin2 : In (k, v) d2) by exact (Permutation_in _ Hperm Hin).
  rewrite (dict_get_in k v d2 Hnd Hin2).
  apply py_eq_refl. exact (Hall (k, v) Hin2).
Qed.

End KeyOrder.

(** X20.  The order of the keys in the file does not matter.  With
    [state=present], an existing mapping whose [metadata] binds the rule's
    name and whose [spec] holds the bindings of the desired spec in any
    order makes the run report [changed=false] and write nothing, wherever
    [metadata] and [spec] stand in the document and whatever else it
    holds.  Both modules. *)
Theorem key_order_is_not_drift {text : Type} `{Yaml text} :
  (forall cm (p : FirewallRule.Params) (fs : FS text) (e m s : dict),
      let path := FirewallRule.config_file_path
                    (FirewallRule.config_path p) (FirewallRule.name p) in
      FirewallRule.state p = present ->
      RuleFile.read_existing_config fs path = VDict e ->
      dict_get "metadata" e = Some (VDict m) ->
      dict_get "name" m = Some (VStr (FirewallRule.name p)) ->
      dict_get "spec" e = Some (VDict s) ->
      Permutation s (spec_dict (FirewallRule.generate_config p)) ->
      exists r, FirewallRule.main cm p fs = Ok (r, fs) /\ changed r = false)
  /\ (forall cm (p : NatRule.Params) (fs : FS text) (e m s : dict),
        let path := NatRule.config_file_path (NatRule.config_path p) (NatRule.name p) in
        NatRule.state p = present ->
        RuleFile.read_existing_config fs path = VDict e ->
        dict_get "metadata" e = Some (VDict m) ->
        dict_get "name" m = Some (VStr (NatRule.name p)) ->
        dict_get "spec" e = Some (VDict s) ->
        Permutation s (spec_dict (NatRule.generate_config p)) ->
        exists r, NatRule.main cm p fs = Ok (r, fs) /\ changed r = false).
Proof.
  split; intros cm p fs e m s path Hs Hread Hmeta Hname Hspec Hperm.
  - destruct (firewall_document_shape p) as (mp & sp & E & Hmp & Hwf).
    eexists; split.
    { apply firewall_unchanged; [exact Hs | ]. fold path. rewrite Hread.
      apply configs_equal_same.
      exists (VStr (FirewallRule.name p)), (VStr (FirewallRule.name p)),
             (VDict s), (VDict sp).
      rewrite E in Hperm |- *.
      cbn [name_of spec_of spec_dict dict_get String.eqb Ascii.eqb Bool.eqb] in Hperm |- *.
      rewrite Hmeta, Hname, Hspec, Hmp.
      repeat apply conj; try reflexivity.
      - apply String.eqb_refl.
      - now apply py_eq_dict_permutation. }
    reflexivity.
  - destruct (nat_document_shape p) as (mp & sp & E & Hmp & Hwf).
    eexists; split.
    { apply nat_unchanged; [exact Hs | ]. fold path. rewrite Hread.
      apply configs_equal_same.
      exists (VStr (NatRule.name p)), (VStr (NatRule.name p)), (VDict s), (VDict sp).
      rewrite E in Hperm |- *.
      cbn [name_of spec_of spec_dict dict_get String.eqb Ascii.eqb Bool.eqb] in Hperm |- *.
      rewrite Hmeta, Hname, Hspec, Hmp.
      repeat apply conj; try reflexivity.
      - apply String.eqb_refl.
      - now apply py_eq_dict_permutation. }
    reflexivity.
Qed.

(** Scenario A over a hand-written file: [spec] first and its keys in
    reverse. *)
Lemma key_order_is_not_drift_witness :
  let path := "/etc/patronus/config/FirewallRule-allow-ssh.yaml" in
  let existing :=
    [("spec", VDict [("destination", VDict [("ports", VList [VInt 22])]);
                     ("protocol", VStr "tcp");
                     ("enabled", VBool true);
                     ("log", VBool false);
                     ("action", VStr "allow")]);
     ("metadata", VDict [("name", VStr "allow-ssh")])] in
  let fs : FS (option value) := fs_update no_files path (Some (Some (VDict existing))) in
  exists r, FirewallRule.main false (scenario_A "/etc/patronus/config") fs = Ok (r, fs)
            /\ changed r = false.
Proof.
  cbv zeta.
  eapply (proj1 key_order_is_not_drift false (scenario_A "/etc/patronus/config"));
    try reflexivity.
  cbn. apply Permutation_sym.
  change [("action", VStr "allow"); ("log", VBool false); ("enabled", VBool true);
          ("protocol", VStr "tcp");
          ("destination", VDict [("ports", VList [VInt 22])])]
    with (rev [("destination", VDict [("ports", VList [VInt 22])]);
               ("protocol", VStr "tcp"); ("enabled", VBool true);
               ("log", VBool false); ("action", VStr "allow")]).
  apply Permutation_sym, Permutation_rev.
Defined.

(* ===================================================================== *)
(** * The further properties on the repository's examples *)
(* ===================================================================== *)

(** A 401 is not an [APIError]. *)
Lemma api_error_excludes_authentication_witness :
  exists e, @_handle_error unit 401 (VDict [("error", VStr "Unauthorized")]) = Raise e
            /\ is_patronus_error e = true /\ is_api_error e = false.
Proof.
  destruct (proj1 (api_error_excludes_authentication unit 401
                     [("error", VStr "Unauthorized")])) as (e & He & Hp & Hiff).
  exists e. split; [exact He | ]. split; [exact Hp | ].
  destruct (is_api_error e); [ | reflexivity].
  exfalso. now apply (proj1 Hiff eq_refl).
Defined.

(** Scenario A binds [protocol] and leaves [interface] out. *)
Lemma firewall_optional_scalars_witness :
  dict_get "protocol"
    (spec_dict (FirewallRule.generate_config (scenario_A "/etc/patronus/config")))
  = Some (VStr "tcp").
Proof.
  apply (proj2 (proj2 (firewall_optional_scalars (scenario_A "/etc/patronus/config")))).
  exists "tcp". repeat split. discriminate.
Defined.

(** Scenario A has a destination with ports only, and no source. *)
Lemma firewall_endpoints_witness :
  let spec := spec_dict (FirewallRule.generate_config (scenario_A "/etc/patronus/config")) in
  dict_get "source" spec = None
  /\ dict_get "destination" spec = Some (VDict [("ports", VList [VInt 22])]).
Proof.
  destruct (firewall_endpoints (scenario_A "/etc/patronus/config")) as (Hs & Hd & _).
  split; [exact Hs | exact Hd].
Defined.

(** The head of the port forwarding example. *)
Lemma document_head_and_required_fields_witness :
  exists spec,
    NatRule.generate_config nat_web_server
    = VDict [("apiVersion", VStr "patronus.firewall/v1");
             ("kind", VStr "NatRule");
             ("metadata",
              VDict [("name", VStr "web-server-nat");
                     ("description", VStr "Forward HTTP/HTTPS to DMZ web server")]);
             ("spec", VDict spec)]
    /\ dict_get "nat_type" spec = Some (VStr "port_forward")
    /\ dict_get "interface" spec = Some (VStr "wan0")
    /\ dict_get "enabled" spec = Some (VBool true).
Proof.
  exact (proj2 document_head_and_required_fields nat_web_server).
Defined.
